(** * Vanguard Cargo client portal: authentication flows

    A shallow embedding of the browser-side authentication code
    (services/authService.ts, the auth callback page, the two route
    guards and the security settings form) together with the properties
    its specification states about it.

    The code is a thin orchestration layer over a hosted identity
    provider: every operation awaits a call of the provider's SDK,
    inspects the answer, sets UI state and possibly navigates.  The
    embedding keeps that shape.  An asynchronous function is a finite
    tree of awaited calls ([prog]); the provider is an arbitrary stateful
    handler answering each call with a resolved value or a rejection;
    running a program against a handler yields the returned value, the
    trace of calls and UI effects, and the background tasks it started
    without awaiting them.

    Console output, and the [NODE_ENV] tests that only guard it, are
    left out.  Platform functions the code calls but does not define
    ([toLowerCase], the [URLSearchParams] parser, [navigator.userAgent])
    are parameters of the definitions that use them. *)

From Stdlib Require Import NArith ZArith List String Ascii Bool Lia.
Import ListNotations.

Set Implicit Arguments.

(** ** JavaScript strings

    A JavaScript string is a sequence of UTF-16 code units.  Literals of
    the source are ASCII and written [js "..."]. *)

Definition jsstring : Type := list N.

Definition js (s : string) : jsstring :=
  map N_of_ascii (list_ascii_of_string s).

Fixpoint jsstring_eqb (a b : jsstring) : bool :=
  match a, b with
  | [], [] => true
  | x :: a', y :: b' => N.eqb x y && jsstring_eqb a' b'
  | _, _ => false
  end.

Infix "===" := jsstring_eqb (at level 70, no associativity).

(** [s.length] *)
Definition strlen (s : jsstring) : Z := Z.of_nat (List.length s).

(** Truthiness of a string: every string but the empty one. *)
Definition truthy (s : jsstring) : bool :=
  match s with [] => false | _ :: _ => true end.

(** Truthiness of [string | null | undefined]. *)
Definition truthy_opt (s : option jsstring) : bool :=
  match s with Some s => truthy s | None => false end.

(** [a || b] on strings. *)
Definition or_else (a b : jsstring) : jsstring :=
  if truthy a then a else b.

(** [a || b] where [a] is [string | null | undefined]. *)
Definition opt_or_else (a : option jsstring) (b : jsstring) : jsstring :=
  match a with Some s => or_else s b | None => b end.

(** [a || null] on [string | undefined]. *)
Definition or_null (a : option jsstring) : option jsstring :=
  if truthy_opt a then a else None.

(** [s.substring(1)] and [s.substring(0, 20)]. *)
Definition substring_from (start : nat) (s : jsstring) : jsstring :=
  skipn start s.

Definition substring (start stop : nat) (s : jsstring) : jsstring :=
  firstn (stop - start) (skipn start s).

(** ECMAScript [WhiteSpace] and [LineTerminator] code units, the ones
    [String.prototype.trim] strips: TAB, VT, FF, SP, NBSP, ZWNBSP, the
    Unicode space separators, LF, CR, LS and PS. *)
Definition is_white_space (c : N) : bool :=
  (N.eqb c 9 || N.eqb c 10 || N.eqb c 11 || N.eqb c 12 || N.eqb c 13
   || N.eqb c 32 || N.eqb c 160 || N.eqb c 5760
   || (N.leb 8192 c && N.leb c 8202)
   || N.eqb c 8232 || N.eqb c 8233 || N.eqb c 8239 || N.eqb c 8287
   || N.eqb c 12288 || N.eqb c 65279)%bool.

Fixpoint trim_start (s : jsstring) : jsstring :=
  match s with
  | c :: s' => if is_white_space c then trim_start s' else s
  | [] => []
  end.

Definition trim (s : jsstring) : jsstring :=
  rev (trim_start (rev (trim_start s))).

(** [/\d/.test(s)]: some code unit is an ASCII digit. *)
Definition has_digit (s : jsstring) : bool :=
  existsb (fun c => N.leb 48 c && N.leb c 57) s.

(** [arr.includes(s)] on an array of strings. *)
Definition includes (arr : list jsstring) (s : jsstring) : bool :=
  existsb (fun x => x === s) arr.

(** Values of fields the source types as [any]. *)
Inductive jsval : Type :=
| VUndefined
| VNull
| VBool (b : bool)
| VNum (z : Z)
| VStr (s : jsstring).

Definition truthy_val (v : jsval) : bool :=
  match v with
  | VUndefined | VNull => false
  | VBool b => b
  | VNum z => negb (Z.eqb z 0)
  | VStr s => truthy s
  end.

(** [v || null] *)
Definition val_or_null (v : jsval) : jsval :=
  if truthy_val v then v else VNull.

(** ** The [URLSearchParams] object

    The object is the list of name/value pairs the platform parsed;
    [get] answers the first value recorded under a name, or null. *)

Definition URLSearchParams : Type := list (jsstring * jsstring).

Fixpoint get (params : URLSearchParams) (name : jsstring) : option jsstring :=
  match params with
  | [] => None
  | (n, v) :: rest => if n === name then Some v else get rest name
  end.

(** Comparison of a [string | null] with a literal by [===]. *)
Definition opt_is (o : option jsstring) (lit : jsstring) : bool :=
  match o with Some s => s === lit | None => false end.

(** ** Data model

    Records mirror the TypeScript interfaces of the source and of the
    SDK; a field typed [T | null] or [T?] is an [option]. *)

(** The SDK's [User]: only [id] and [email] are read by this code. *)
Module User.
Record t : Type := mk { id : jsstring; email : option jsstring }.
End User.

Module Session.
Record t : Type := mk {
  access_token : jsstring;
  refresh_token : jsstring;
  user : User.t
}.
End Session.

Module AuthError.
Record t : Type := mk { message : jsstring; name : jsstring }.
End AuthError.

(** [{ data: { user, session }, error }], the answer of [auth.signUp]
    and [auth.signInWithPassword]. *)
Module AuthResponse.
Record t : Type := mk {
  user : option User.t;
  session : option Session.t;
  error : option AuthError.t
}.
End AuthResponse.

(** [{ data: { session }, error }], the answer of [auth.setSession] and
    [auth.getSession]. *)
Module SessionResponse.
Record t : Type := mk {
  session : option Session.t;
  error : option AuthError.t
}.
End SessionResponse.

(** The error of a table query or of an RPC; only [message] is read. *)
Module PostgrestError.
Record t : Type := mk { message : jsstring }.
End PostgrestError.

(** [{ data, error }], the answer of a table query or of an RPC. *)
Module PostgrestResponse.
Record t (A : Type) : Type := mk {
  data : option A;
  error : option PostgrestError.t
}.
Arguments mk {A} _ _.
End PostgrestResponse.

Module SignUpData.
Record t : Type := mk {
  streetAddress : jsval;
  city : jsval;
  country : jsval;
  postalCode : jsval;
  email : jsstring;
  password : jsstring;
  firstName : jsstring;
  lastName : jsstring;
  phone : option jsstring
}.
End SignUpData.

Module SignInData.
Record t : Type := mk { email : jsstring; password : jsstring }.
End SignInData.

(** The argument of [supabase.auth.signUp]: credentials and
    [options.data]. *)
Module SignupPayload.
Record t : Type := mk {
  email : jsstring;
  password : jsstring;
  first_name : jsstring;
  last_name : jsstring;
  phone_number : option jsstring;
  street_address : jsval;
  city : jsval;
  country : jsval;
  postal_code : jsval
}.
End SignupPayload.

(** The argument of the [create_user_profile_secure] RPC. *)
Module RpcPayload.
Record t : Type := mk {
  user_id : jsstring;
  email : option jsstring;
  first_name : jsstring;
  last_name : jsstring;
  phone_number : option jsstring;
  street_address : jsval;
  city : jsval;
  country : jsval;
  postal_code : jsval
}.
End RpcPayload.

(** The JSON the RPC answers, read only through [?.success] (its
    truthiness) and [?.error]. *)
Module ProfileResult.
Record t : Type := mk { success : bool; error : option jsstring }.
End ProfileResult.

(** The [params] object handed to [logAuthEventAsync]; [p_ip_address]
    and [p_details] are null at every call site. *)
Module AuthEventParams.
Record t : Type := mk {
  p_user_id : option jsstring;
  p_user_email : option jsstring;
  p_user_role : jsstring;
  p_session_id : option jsstring;
  p_user_agent : jsstring;
  p_status : jsstring;
  p_error_message : option jsstring
}.
End AuthEventParams.

(** A row of the external [users] table as [getUserProfile] selects it. *)
Module UsersRow.
Record t : Type := mk {
  id : jsstring;
  email : jsstring;
  first_name : jsstring;
  last_name : jsstring;
  phone_number : option jsstring;
  role : jsstring;
  status : jsstring;
  suite_number : option jsstring;
  avatar_url : option jsstring;
  street_address : option jsstring;
  city : option jsstring;
  country : option jsstring;
  postal_code : option jsstring
}.
End UsersRow.

(** The cached profile. *)
Module AuthUser.
Record t : Type := mk {
  id : jsstring;
  email : jsstring;
  firstName : jsstring;
  lastName : jsstring;
  role : jsstring;
  phone : option jsstring;
  suite_number : option jsstring;
  status : jsstring;
  avatarUrl : option jsstring;
  profileImage : option jsstring;
  isEmailVerified : option bool;
  accountStatus : option jsstring;
  usShippingAddressId : option jsval;
  streetAddress : option jsstring;
  city : option jsstring;
  country : option jsstring;
  postalCode : option jsstring
}.
End AuthUser.

(** The row [checkAccountStatus] selects: [status, first_name, email]. *)
Module StatusRow.
Record t : Type := mk {
  status : option jsstring;
  first_name : option jsstring;
  email : option jsstring
}.
End StatusRow.

(** The row the orphan check selects: [id, email]. *)
Module IdEmailRow.
Record t : Type := mk { id : jsstring; email : jsstring }.
End IdEmailRow.

(** A field that distinguishes [null] from [undefined]. *)
Inductive nullable (A : Type) : Type :=
| Undefined
| Null
| Value (a : A).
Arguments Undefined {A}.
Arguments Null {A}.

Module AccountStatus.
Record t : Type := mk {
  status : nullable jsstring;
  canLogin : bool;
  message : option jsstring;
  firstName : option jsstring
}.
End AccountStatus.

(** [{ user, error }], the result of [signUp] and [signIn]. *)
Module AuthResult.
Record t : Type := mk {
  user : option User.t;
  error : option AuthError.t
}.
End AuthResult.

(** [{ error, success }], the result of [changePassword]. *)
Module ChangeResult.
Record t : Type := mk { error : option jsstring; success : bool }.
End ChangeResult.

(** ** Calls, effects and asynchronous programs *)

(** What a [catch] clause receives: an [Error] carrying a message, or
    any other thrown value. *)
Inductive exn : Type :=
| Error (message : jsstring)
| NonError.

(** How an awaited promise settles. *)
Inductive outcome (X : Type) : Type :=
| Resolved (x : X)
| Rejected (e : exn).
Arguments Rejected {X} e.

(** The awaited calls, indexed by the type of their resolved value.
    Each constructor is one call site shape of the source:
    [supabase.auth.*], [supabase.rpc(name, args)], a
    [supabase.from('users').select(...).eq(...)] query, the email
    service and the Redux thunk [initializeAuth]. *)
Inductive Call : Type -> Type :=
| auth_signUp (payload : SignupPayload.t) : Call AuthResponse.t
| auth_signInWithPassword (email password : jsstring) : Call AuthResponse.t
| auth_getUser : Call (option User.t)
| auth_updateUser (password : jsstring) : Call (option AuthError.t)
| auth_setSession (access_token refresh_token : jsstring)
  : Call SessionResponse.t
| auth_getSession : Call SessionResponse.t
| rpc_create_user_profile_secure (payload : RpcPayload.t)
  : Call (PostgrestResponse.t ProfileResult.t)
| rpc_log_auth_event (p_event_type : jsstring) (params : AuthEventParams.t)
  : Call (PostgrestResponse.t unit)
| rpc_update_user_last_login (p_user_id : jsstring)
  : Call (PostgrestResponse.t unit)
| users_id_email_by_email (email : jsstring)
  : Call (PostgrestResponse.t IdEmailRow.t)
| users_status_by_email (email : jsstring)
  : Call (PostgrestResponse.t StatusRow.t)
| users_profile_by_id (userId : jsstring)
  : Call (PostgrestResponse.t UsersRow.t)
| emailService_sendLoginWelcomeEmail (userId email : jsstring) : Call unit
| dispatch_initializeAuth : Call unit.

Inductive CallbackType : Type := oauth | recovery | unknown.

(** The UI effects of the components: React state setters, router
    navigation and timers.  [navigate to replace] is
    [navigate(to, { replace })], [navigate_from] passes
    [state: { from }] as well; [setTimeout cb ms] registers the callback
    [cb]; [sleep ms] is [await new Promise(r => setTimeout(r, ms))]. *)
Inductive effect : Type :=
| preventDefault
| setError (m : option jsstring)
| setStatus (s : jsstring)
| setCallbackType (t : CallbackType)
| setLoading (b : bool)
| setSuccessMessage (m : option jsstring)
| setPasswords (currentPassword newPassword confirmPassword : jsstring)
| navigate (to : jsstring) (replace : bool)
| navigate_from (to : jsstring) (replace : bool) (from : jsstring)
| setTimeout (callback : effect) (ms : Z)
| sleep (ms : Z).

(** An asynchronous function body: it returns, throws, awaits a call
    and continues with its outcome, performs a UI effect, or starts a
    background task of type [T] and continues at once.  Nothing flows
    from a started task back into the continuation. *)
Inductive prog (T R : Type) : Type :=
| Ret (r : R)
| Throw (e : exn)
| Await (X : Type) (c : Call X) (k : outcome X -> prog T R)
| Do (a : effect) (k : prog T R)
| Fork (t : T) (k : prog T R).
Arguments Ret {T R} r.
Arguments Throw {T R} e.
Arguments Await {T R X} c k.
Arguments Do {T R} a k.
Arguments Fork {T R} t k.

Fixpoint bind {T A B} (p : prog T A) (f : A -> prog T B) : prog T B :=
  match p with
  | Ret a => f a
  | Throw e => Throw e
  | Await c k => Await c (fun o => bind (k o) f)
  | Do a k => Do a (bind k f)
  | Fork t k => Fork t (bind k f)
  end.

(** [await c]: the resolved value, or the rejection rethrown. *)
Definition await {T X} (c : Call X) : prog T X :=
  Await c (fun o => match o with
                    | Resolved x => Ret x
                    | Rejected e => Throw e
                    end).

(** [try { p } catch (err) { h err }] *)
Fixpoint try_catch {T R} (p : prog T R) (h : exn -> prog T R) : prog T R :=
  match p with
  | Ret r => Ret r
  | Throw e => h e
  | Await c k => Await c (fun o => try_catch (k o) h)
  | Do a k => Do a (try_catch k h)
  | Fork t k => Fork t (try_catch k h)
  end.

(** [try { p } finally { f }] where [f] neither returns nor throws. *)
Fixpoint try_finally {T R} (p : prog T R) (f : effect) : prog T R :=
  match p with
  | Ret r => Do f (Ret r)
  | Throw e => Do f (Throw e)
  | Await c k => Await c (fun o => try_finally (k o) f)
  | Do a k => Do a (try_finally k f)
  | Fork t k => Fork t (try_finally k f)
  end.

Declare Scope prog_scope.
Delimit Scope prog_scope with prog.
Notation "x <- p ;; q" := (bind p (fun x => q))
  (at level 61, p at next level, right associativity) : prog_scope.
Notation "a ;; q" := (Do a q)
  (at level 61, right associativity) : prog_scope.
Open Scope prog_scope.

(** A background task: an async function nobody awaits.  It starts no
    task of its own. *)
Definition task : Type := prog Empty_set unit.

(** An async function of the service or of a component. *)
Definition async (R : Type) : Type := prog task R.

(** ** Running a program against the provider *)

(** How an async function settles. *)
Inductive result (R : Type) : Type :=
| Returned (r : R)
| Raised (e : exn).
Arguments Raised {R} e.

(** One step of a run: a call with the outcome the provider gave, or a
    UI effect. *)
Inductive entry : Type :=
| Called (X : Type) (c : Call X) (o : outcome X)
| Did (a : effect).
Arguments Called {X} c o.

Definition trace : Type := list entry.

Section Run.
(** The provider: any state, any answers. *)
Variable W : Type.
Variable handle : forall X, Call X -> W -> outcome X * W.

(** The run of [p] up to the point it settles: the result, the trace,
    the tasks started and still pending, and the provider's state. *)
Fixpoint run {T R} (p : prog T R) (w : W)
  : result R * trace * list T * W :=
  match p with
  | Ret r => (Returned r, [], [], w)
  | Throw e => (Raised e, [], [], w)
  | Await c k =>
      let (o, w') := handle c w in
      let '(res, tr, ts, w'') := run (k o) w' in
      (res, Called c o :: tr, ts, w'')
  | Do a k =>
      let '(res, tr, ts, w') := run k w in
      (res, Did a :: tr, ts, w')
  | Fork t k =>
      let '(res, tr, ts, w') := run k w in
      (res, tr, t :: ts, w')
  end.

(** Pending tasks run to completion after the function that started
    them has settled; a task's own failure reaches nobody. *)
Fixpoint drain (ts : list task) (w : W) : trace * W :=
  match ts with
  | [] => ([], w)
  | t :: ts' =>
      let '(_, tr, _, w') := run t w in
      let (tr', w'') := drain ts' w' in
      (tr ++ tr', w'')
  end.

Definition result_of {T R} (p : prog T R) (w : W) : result R :=
  fst (fst (fst (run p w))).
Definition trace_of {T R} (p : prog T R) (w : W) : trace :=
  snd (fst (fst (run p w))).
Definition pending_of {T R} (p : prog T R) (w : W) : list T :=
  snd (fst (run p w)).
End Run.

(** A property of every run of [p], whatever the provider answers. *)
Fixpoint every_run {T R} (p : prog T R)
    (Q : result R -> trace -> list T -> Prop) : Prop :=
  match p with
  | Ret r => Q (Returned r) [] []
  | Throw e => Q (Raised e) [] []
  | Await c k =>
      forall o, every_run (k o) (fun res tr ts => Q res (Called c o :: tr) ts)
  | Do a k => every_run k (fun res tr ts => Q res (Did a :: tr) ts)
  | Fork t k => every_run k (fun res tr ts => Q res tr (t :: ts))
  end.

(** ** services/authService.ts *)

Section AuthService.
(** [String.prototype.toLowerCase] and [navigator.userAgent] are the
    platform's. *)
Variable toLowerCase : jsstring -> jsstring.
Variable userAgent : jsstring.

Definition cleanupOrphanedAuthUser (email : jsstring) : async bool :=
  try_catch
    (r <- await (users_id_email_by_email (toLowerCase email)) ;;
     match PostgrestResponse.data r with
     | Some existingProfile => Ret false
     | None => Ret false
     end)
    (fun err => Ret false).

Definition signUp (data : SignUpData.t) : async AuthResult.t :=
  try_catch
    (_ <- cleanupOrphanedAuthUser (SignUpData.email data) ;;
     let signupPayload :=
       SignupPayload.mk
         (SignUpData.email data)
         (SignUpData.password data)
         (SignUpData.firstName data)
         (SignUpData.lastName data)
         (SignUpData.phone data)
         (SignUpData.streetAddress data)
         (SignUpData.city data)
         (SignUpData.country data)
         (SignUpData.postalCode data) in
     authData <- await (auth_signUp signupPayload) ;;
     match AuthResponse.error authData, AuthResponse.user authData with
     | None, Some user =>
         try_catch
           (let rpcPayload :=
              RpcPayload.mk
                (User.id user)
                (User.email user)
                (or_else (SignUpData.firstName data) (js "User"))
                (or_else (SignUpData.lastName data) (js "Name"))
                (or_null (SignUpData.phone data))
                (val_or_null (SignUpData.streetAddress data))
                (val_or_null (SignUpData.city data))
                (val_or_null (SignUpData.country data))
                (val_or_null (SignUpData.postalCode data)) in
            rpc <- await (rpc_create_user_profile_secure rpcPayload) ;;
            match PostgrestResponse.error rpc with
            | Some rpcError =>
                Ret (AuthResult.mk None
                       (Some (AuthError.mk
                                (js "Registration failed: "
                                   ++ PostgrestError.message rpcError)
                                (js "ProfileCreationError"))))
            | None =>
                let profileResult := PostgrestResponse.data rpc in
                match profileResult with
                | Some (ProfileResult.mk true _) =>
                    Ret (AuthResult.mk (Some user) None)
                | _ =>
                    Ret (AuthResult.mk None
                           (Some (AuthError.mk
                                    (js "Registration failed: "
                                       ++ opt_or_else
                                            match profileResult with
                                            | Some pr => ProfileResult.error pr
                                            | None => None
                                            end
                                            (js "Unknown error"))
                                    (js "ProfileCreationError"))))
                end
            end)
           (fun profileError =>
              Ret (AuthResult.mk None
                     (Some (AuthError.mk
                              (js "Registration failed during profile creation")
                              (js "ProfileCreationError")))))
     | error, _ => Ret (AuthResult.mk None error)
     end)
    (fun err =>
       Ret (AuthResult.mk None
              (Some (AuthError.mk (js "Registration failed")
                       (js "RegistrationError"))))).

(** The three fire-and-forget helpers.  Each calls at once an async
    arrow function that awaits one call inside its own [try]/[catch];
    the promise of that function is dropped.  The arrow functions are
    named here after their helper. *)
Definition logAuthEvent_task (eventType : jsstring)
    (params : AuthEventParams.t) : task :=
  try_catch
    (_ <- await (rpc_log_auth_event eventType params) ;; Ret tt)
    (fun error => Ret tt).

Definition logAuthEventAsync (eventType : jsstring)
    (params : AuthEventParams.t) : async unit :=
  Fork (logAuthEvent_task eventType params) (Ret tt).

Definition updateLastLogin_task (userId : jsstring) : task :=
  try_catch
    (_ <- await (rpc_update_user_last_login userId) ;; Ret tt)
    (fun error => Ret tt).

Definition updateLastLoginAsync (userId : jsstring) : async unit :=
  Fork (updateLastLogin_task userId) (Ret tt).

Definition sendLoginWelcomeEmail_task (userId email : jsstring) : task :=
  try_catch
    (_ <- await (emailService_sendLoginWelcomeEmail userId email) ;; Ret tt)
    (fun error => Ret tt).

Definition sendLoginWelcomeEmailAsync (userId email : jsstring)
  : async unit :=
  Fork (sendLoginWelcomeEmail_task userId email) (Ret tt).

Definition signIn (data : SignInData.t) : async AuthResult.t :=
  let email := SignInData.email data in
  try_catch
    (authData <- await (auth_signInWithPassword email
                          (SignInData.password data)) ;;
     match AuthResponse.error authData, AuthResponse.user authData with
     | None, Some user =>
         _ <- logAuthEventAsync (js "login_success")
                (AuthEventParams.mk
                   (Some (User.id user))
                   (Some email)
                   (js "client")
                   (option_map
                      (fun s => substring 0 20 (Session.access_token s))
                      (AuthResponse.session authData))
                   userAgent
                   (js "success")
                   None) ;;
         _ <- updateLastLoginAsync (User.id user) ;;
         _ <- sendLoginWelcomeEmailAsync (User.id user) email ;;
         Ret (AuthResult.mk (Some user) None)
     | error, _ =>
         _ <- logAuthEventAsync (js "login_failed")
                (AuthEventParams.mk
                   None
                   (Some email)
                   (js "client")
                   None
                   userAgent
                   (js "failure")
                   (Some (opt_or_else
                            (option_map AuthError.message error)
                            (js "Login failed")))) ;;
         Ret (AuthResult.mk None error)
     end)
    (fun err =>
       _ <- logAuthEventAsync (js "login_failed")
              (AuthEventParams.mk
                 None
                 (Some email)
                 (js "client")
                 None
                 userAgent
                 (js "failure")
                 (Some (js "Unexpected error during login"))) ;;
       Ret (AuthResult.mk None
              (Some (AuthError.mk (js "Sign in failed")
                       (js "SignInError"))))).

Definition getUserProfile (userId : jsstring) : async (option AuthUser.t) :=
  try_catch
    (r <- await (users_profile_by_id userId) ;;
     match PostgrestResponse.error r, PostgrestResponse.data r with
     | None, Some data =>
         Ret (Some {|
           AuthUser.id := UsersRow.id data;
           AuthUser.email := UsersRow.email data;
           AuthUser.firstName := UsersRow.first_name data;
           AuthUser.lastName := UsersRow.last_name data;
           AuthUser.role := UsersRow.role data;
           AuthUser.phone := UsersRow.phone_number data;
           AuthUser.status := UsersRow.status data;
           AuthUser.suite_number := UsersRow.suite_number data;
           AuthUser.usShippingAddressId := None;
           AuthUser.streetAddress := UsersRow.street_address data;
           AuthUser.city := UsersRow.city data;
           AuthUser.country := UsersRow.country data;
           AuthUser.postalCode := UsersRow.postal_code data;
           AuthUser.avatarUrl := UsersRow.avatar_url data;
           AuthUser.profileImage := UsersRow.avatar_url data;
           AuthUser.isEmailVerified := Some true;
           AuthUser.accountStatus := Some (UsersRow.status data)
         |})
     | _, _ => Ret None
     end)
    (fun err => Ret None).

Definition changePassword (currentPassword newPassword : jsstring)
  : async ChangeResult.t :=
  try_catch
    (user <- await auth_getUser ;;
     match user with
     | Some {| User.email := Some email |} =>
         if truthy email then
           signInResult <- await (auth_signInWithPassword email
                                    currentPassword) ;;
           match AuthResponse.error signInResult with
           | Some signInError =>
               Ret (ChangeResult.mk
                      (Some (js "Current password is incorrect")) false)
           | None =>
               updateError <- await (auth_updateUser newPassword) ;;
               match updateError with
               | Some e =>
                   Ret (ChangeResult.mk (Some (AuthError.message e)) false)
               | None => Ret (ChangeResult.mk None true)
               end
           end
         else
           Ret (ChangeResult.mk
                  (Some (js "No authenticated user found")) false)
     | _ =>
         Ret (ChangeResult.mk
                (Some (js "No authenticated user found")) false)
     end)
    (fun err =>
       Ret (ChangeResult.mk (Some (js "Failed to change password")) false)).

(** [`Hi${firstName ? ' ' + firstName : ''}`] *)
Definition greeting (firstName : option jsstring) : jsstring :=
  js "Hi" ++ match firstName with
             | Some f => if truthy f then js " " ++ f else []
             | None => []
             end.

Definition checkAccountStatus (email : jsstring) : async AccountStatus.t :=
  try_catch
    (r <- await (users_status_by_email (toLowerCase email)) ;;
     match PostgrestResponse.error r, PostgrestResponse.data r with
     | Some error, _ => Ret (AccountStatus.mk Null true None None)
     | None, None => Ret (AccountStatus.mk Null true None None)
     | None, Some userData =>
         let accountStatus :=
           option_map toLowerCase (StatusRow.status userData) in
         let firstName := StatusRow.first_name userData in
         let status :=
           match accountStatus with
           | Some s => Value s
           | None => Undefined
           end in
         if opt_is accountStatus (js "active") then
           Ret (AccountStatus.mk status true None firstName)
         else
           let message :=
             if opt_is accountStatus (js "inactive") then
               greeting firstName ++ js ", your account is currently inactive. Please contact support@vanguardcargo.co to reactivate your account."
             else if opt_is accountStatus (js "suspended") then
               greeting firstName ++ js ", your account has been suspended. Please contact support@vanguardcargo.co for assistance."
             else if opt_is accountStatus (js "reported") then
               greeting firstName ++ js ", your account is currently under review. Please contact support@vanguardcargo.co for more information."
             else if opt_is accountStatus (js "pending_verification") then
               greeting firstName ++ js ", please verify your email address before logging in. Check your inbox for the verification link."
             else
               greeting firstName ++ js ", your account status does not allow login at this time. Please contact support@vanguardcargo.co for assistance." in
           Ret (AccountStatus.mk status false (Some message) firstName)
     end)
    (fun err => Ret (AccountStatus.mk Null true None None)).
End AuthService.

(** ** The components *)

(** What the auth slice of the Redux store holds, as the selectors
    [selectIsAuthenticated], [selectIsLoading], [selectIsInitialized],
    [selectProfile] and [selectUser] read it. *)
Module AuthState.
Record t : Type := mk {
  isAuthenticated : bool;
  isLoading : bool;
  isInitialized : bool;
  profile : option AuthUser.t;
  user : option User.t
}.
End AuthState.

(** [useLocation()] *)
Module Location.
Record t : Type := mk {
  pathname : jsstring;
  search : jsstring;
  hash : jsstring
}.
End Location.

(** What a component renders: a loading screen with its caption, a
    router [<Navigate>], a fragment of the children it was given and
    possibly the phone collection modal, or nothing. *)
Inductive node : Type :=
| Children
| PhoneNumberCollectionModal.

Inductive element : Type :=
| LoadingScreen (caption : jsstring)
| Navigate (to : jsstring) (replace : bool)
| Fragment (parts : list node)
| RenderNull.

(** The form state of the security settings. *)
Module Passwords.
Record t : Type := mk {
  currentPassword : jsstring;
  newPassword : jsstring;
  confirmPassword : jsstring
}.
End Passwords.

Section Components.
(** [new URLSearchParams(init)] is the platform's parser. *)
Variable URLSearchParams_new : jsstring -> URLSearchParams.

(** *** AuthCallback: the effect body [handleAuthCallback] *)

Definition expired_link : jsstring :=
  js "Password reset link has expired or is invalid. Please request a new one.".

Definition handleAuthCallback (location_hash : jsstring) : async unit :=
  try_catch
    (let hashParams := URLSearchParams_new (substring_from 1 location_hash) in
     let type := get hashParams (js "type") in
     let accessToken := get hashParams (js "access_token") in
     let refreshToken := get hashParams (js "refresh_token") in
     let errorDescription := get hashParams (js "error_description") in
     match errorDescription with
     | Some ((_ :: _) as description) =>
         setError (Some description) ;;
         setTimeout (navigate (js "/login") false) 3000 ;;
         Ret tt
     | _ =>
       if opt_is type (js "recovery") then
         (* the statements after the token exchange *)
         let existing_session : async unit :=
           r <- await auth_getSession ;;
           match SessionResponse.session r with
           | Some existingSession =>
               setStatus (js "Redirecting to password reset...") ;;
               sleep 500 ;;
               navigate (js "/forgot-password?step=3") true ;;
               Ret tt
           | None =>
               setError (Some expired_link) ;;
               setTimeout (navigate (js "/forgot-password") false) 3000 ;;
               Ret tt
           end in
         setCallbackType recovery ;;
         setStatus (js "Processing password reset...") ;;
         match accessToken, refreshToken with
         | Some ((_ :: _) as access_token), Some ((_ :: _) as refresh_token) =>
             r <- await (auth_setSession access_token refresh_token) ;;
             match SessionResponse.error r, SessionResponse.session r with
             | Some setSessionError, _ =>
                 setError (Some expired_link) ;;
                 setTimeout (navigate (js "/forgot-password") false) 3000 ;;
                 Ret tt
             | None, Some session =>
                 setStatus (js "Redirecting to password reset...") ;;
                 sleep 500 ;;
                 navigate (js "/forgot-password?step=3") true ;;
                 Ret tt
             | None, None => existing_session
             end
         | _, _ => existing_session
         end
       else
         setCallbackType oauth ;;
         setStatus (js "Verifying your credentials...") ;;
         r <- await auth_getSession ;;
         let session := SessionResponse.session r in
         let sessionError := SessionResponse.error r in
         (* the statements after the optional explicit token exchange *)
         let check (session : option Session.t)
                   (sessionError : option AuthError.t) : async unit :=
           match sessionError, session with
           | Some _, _ =>
               setError (Some (js "Failed to verify authentication. Please try again.")) ;;
               setTimeout (navigate (js "/login") false) 3000 ;;
               Ret tt
           | None, None =>
               setError (Some (js "No session found. Redirecting to login...")) ;;
               setTimeout (navigate (js "/login") false) 2000 ;;
               Ret tt
           | None, Some _ =>
               setStatus (js "Loading your profile...") ;;
               _ <- await dispatch_initializeAuth ;;
               setStatus (js "Success! Redirecting to dashboard...") ;;
               sleep 500 ;;
               navigate (js "/dashboard") true ;;
               Ret tt
           end in
         match session, accessToken, refreshToken with
         | None, Some ((_ :: _) as access_token),
           Some ((_ :: _) as refresh_token) =>
             r2 <- await (auth_setSession access_token refresh_token) ;;
             match SessionResponse.error r2, SessionResponse.session r2 with
             | None, Some s => check (Some s) None
             | setSessionError, _ => check session setSessionError
             end
         | _, _, _ => check session sessionError
         end
     end)
    (fun err =>
       setError (Some match err with
                      | Error message => message
                      | NonError =>
                          js "Authentication failed. Please try again."
                      end) ;;
       setTimeout (navigate (js "/login") false) 3000 ;;
       Ret tt).

(** *** PublicRoute *)

Definition PublicRoute (redirectTo : option jsstring)
    (auth : AuthState.t) (location : Location.t) : element :=
  let redirectTo :=
    match redirectTo with Some r => r | None => js "/app" end in
  let isAuthenticated := AuthState.isAuthenticated auth in
  let isLoading := AuthState.isLoading auth in
  let profile := AuthState.profile auth in
  let currentPath := Location.pathname location in
  let searchParams := URLSearchParams_new (Location.search location) in
  let isPasswordRecoveryFlow :=
    (currentPath === js "/forgot-password")
    && opt_is (get searchParams (js "step")) (js "3") in
  let pagesWithInlineLoaders := [js "/login"; js "/register"] in
  let hasInlineLoader := includes pagesWithInlineLoaders currentPath in
  if isLoading && negb hasInlineLoader then
    LoadingScreen (js "Loading...")
  else if isAuthenticated
          && opt_is (option_map AuthUser.status profile) (js "active") then
    if isPasswordRecoveryFlow then Fragment [Children]
    else Navigate redirectTo true
  else if isAuthenticated
          && opt_is (option_map AuthUser.status profile)
               (js "pending_verification") then
    let verificationPages :=
      [js "/verify-email"; js "/resend-verification"] in
    if includes verificationPages currentPath then Fragment [Children]
    else Navigate (js "/verify-email") true
  else Fragment [Children].

(** *** ReduxAuthGuard *)

(** [profile?.phone && profile.phone.trim().length > 0] *)
Definition hasPhone (profile : option AuthUser.t) : bool :=
  match profile with
  | Some p =>
      match AuthUser.phone p with
      | Some phone => truthy phone && (0 <? strlen (trim phone))%Z
      | None => false
      end
  | None => false
  end.

Definition ReduxAuthGuard (auth : AuthState.t) : element :=
  if negb (AuthState.isInitialized auth) then
    LoadingScreen (js "Checking authentication...")
  else if negb (AuthState.isAuthenticated auth) then
    RenderNull
  else
    Fragment
      (Children ::
       if negb (hasPhone (AuthState.profile auth))
          && truthy_opt (option_map User.id (AuthState.user auth))
       then [PhoneNumberCollectionModal]
       else []).

(** The [useEffect] bodies of the guard, in order: the initialization
    thunk is dispatched and not awaited; the redirect to the login
    page carries the attempted route. *)
Definition ReduxAuthGuard_effects (auth : AuthState.t)
    (location : Location.t) : async unit :=
  _ <- (if negb (AuthState.isInitialized auth)
        then Fork (_ <- await dispatch_initializeAuth ;; Ret tt) (Ret tt)
        else Ret tt) ;;
  if negb (AuthState.isInitialized auth) then Ret tt
  else if negb (AuthState.isAuthenticated auth) then
    navigate_from (js "/login") true (Location.pathname location) ;;
    Ret tt
  else Ret tt.

(** *** SecuritySettings: the form's [handleSubmit] *)

Definition handleSubmit (user : option User.t) (passwords : Passwords.t)
  : async unit :=
  let currentPassword := Passwords.currentPassword passwords in
  let newPassword := Passwords.newPassword passwords in
  let confirmPassword := Passwords.confirmPassword passwords in
  preventDefault ;;
  match user with
  | None => setError (Some (js "User not authenticated")) ;; Ret tt
  | Some _ =>
    if negb (truthy currentPassword) then
      setError (Some (js "Current password is required")) ;; Ret tt
    else if negb (truthy newPassword) then
      setError (Some (js "New password is required")) ;; Ret tt
    else if negb (truthy confirmPassword) then
      setError (Some (js "Please confirm your new password")) ;; Ret tt
    else if negb (newPassword === confirmPassword) then
      setError (Some (js "New passwords do not match")) ;; Ret tt
    else if (strlen newPassword <? 6)%Z then
      setError (Some (js "Password must be at least 6 characters long")) ;;
      Ret tt
    else if negb (has_digit newPassword) then
      setError (Some (js "Password must contain at least one number")) ;;
      Ret tt
    else
      try_finally
        (try_catch
           (setLoading true ;;
            setError None ;;
            setSuccessMessage None ;;
            response <- changePassword currentPassword newPassword ;;
            if ChangeResult.success response then
              setSuccessMessage (Some (js "Password changed successfully!")) ;;
              setPasswords [] [] [] ;;
              setTimeout (setSuccessMessage None) 5000 ;;
              Ret tt
            else
              setError (Some (opt_or_else (ChangeResult.error response)
                                (js "Failed to change password"))) ;;
              Ret tt)
           (fun err =>
              setError (Some (js "Failed to change password. Please try again.")) ;;
              Ret tt))
        (setLoading false)
  end.
End Components.


(** ** Reading traces *)

(** The service a call addresses. *)
Inductive endpoint : Type :=
| SignUp
| SignInWithPassword
| GetUser
| UpdateUser
| SetSession
| GetSession
| CreateUserProfileSecure
| LogAuthEvent
| UpdateUserLastLogin
| SelectUsers
| SendLoginWelcomeEmail
| InitializeAuth.

Definition endpoint_of {X} (c : Call X) : endpoint :=
  match c with
  | auth_signUp _ => SignUp
  | auth_signInWithPassword _ _ => SignInWithPassword
  | auth_getUser => GetUser
  | auth_updateUser _ => UpdateUser
  | auth_setSession _ _ => SetSession
  | auth_getSession => GetSession
  | rpc_create_user_profile_secure _ => CreateUserProfileSecure
  | rpc_log_auth_event _ _ => LogAuthEvent
  | rpc_update_user_last_login _ => UpdateUserLastLogin
  | users_id_email_by_email _ => SelectUsers
  | users_status_by_email _ => SelectUsers
  | users_profile_by_id _ => SelectUsers
  | emailService_sendLoginWelcomeEmail _ _ => SendLoginWelcomeEmail
  | dispatch_initializeAuth => InitializeAuth
  end.

(** The calls of a trace, in order. *)
Fixpoint calls (tr : trace) : list endpoint :=
  match tr with
  | [] => []
  | Called c _ :: tr' => endpoint_of c :: calls tr'
  | Did _ :: tr' => calls tr'
  end.

(** The UI effects of a trace, in order. *)
Fixpoint effects (tr : trace) : list effect :=
  match tr with
  | [] => []
  | Called _ _ :: tr' => effects tr'
  | Did a :: tr' => a :: effects tr'
  end.

(** The first answer of a trace that [f] recognises. *)
Fixpoint first_answer {A} (f : entry -> option A) (tr : trace) : option A :=
  match tr with
  | [] => None
  | e :: tr' =>
      match f e with
      | Some a => Some a
      | None => first_answer f tr'
      end
  end.

(** How [supabase.auth.signUp] settled. *)
Definition signUp_answer (e : entry) : option (outcome AuthResponse.t) :=
  match e with
  | @Called X c o =>
      match c in Call X return outcome X -> option (outcome AuthResponse.t) with
      | auth_signUp _ => fun o => Some o
      | _ => fun _ => None
      end o
  | Did _ => None
  end.

(** How the [create_user_profile_secure] RPC settled. *)
Definition createProfile_answer (e : entry)
  : option (outcome (PostgrestResponse.t ProfileResult.t)) :=
  match e with
  | @Called X c o =>
      match c in Call X
            return outcome X
                   -> option (outcome (PostgrestResponse.t ProfileResult.t))
      with
      | rpc_create_user_profile_secure _ => fun o => Some o
      | _ => fun _ => None
      end o
  | Did _ => None
  end.

(** The external sign-up call succeeded: it resolved with a user and no
    error. *)
Definition auth_signup_succeeded (tr : trace) (u : User.t) : Prop :=
  exists s, first_answer signUp_answer tr
            = Some (Resolved (AuthResponse.mk (Some u) s None)).

(** The external sign-up call resolved with neither a user nor an
    error. *)
Definition auth_signup_empty (tr : trace) : Prop :=
  exists s, first_answer signUp_answer tr
            = Some (Resolved (AuthResponse.mk None s None)).

(** The profile RPC resolved with no error and a result whose
    [success] holds. *)
Definition profile_created (tr : trace) : Prop :=
  exists e, first_answer createProfile_answer tr
            = Some (Resolved (PostgrestResponse.mk
                                (Some (ProfileResult.mk true e)) None)).

(** The profile RPC was called and did anything but that. *)
Definition profile_creation_failed (tr : trace) : Prop :=
  exists o, first_answer createProfile_answer tr = Some o
            /\ forall e, o <> Resolved (PostgrestResponse.mk
                                          (Some (ProfileResult.mk true e))
                                          None).

(** How [supabase.auth.getUser] settled. *)
Definition getUser_answer (e : entry) : option (outcome (option User.t)) :=
  match e with
  | @Called X c o =>
      match c in Call X return outcome X -> option (outcome (option User.t))
      with
      | auth_getUser => fun o => Some o
      | _ => fun _ => None
      end o
  | Did _ => None
  end.

(** The credentials [supabase.auth.signInWithPassword] was called with,
    and how it settled. *)
Definition signIn_answer (e : entry)
  : option (jsstring * jsstring * outcome AuthResponse.t) :=
  match e with
  | @Called X c o =>
      match c in Call X
            return outcome X
                   -> option (jsstring * jsstring * outcome AuthResponse.t)
      with
      | auth_signInWithPassword email password =>
          fun o => Some (email, password, o)
      | _ => fun _ => None
      end o
  | Did _ => None
  end.

(** The tokens [supabase.auth.setSession] was called with, and how it
    settled. *)
Definition setSession_answer (e : entry)
  : option (jsstring * jsstring * outcome SessionResponse.t) :=
  match e with
  | @Called X c o =>
      match c in Call X
            return outcome X
                   -> option (jsstring * jsstring * outcome SessionResponse.t)
      with
      | auth_setSession access_token refresh_token =>
          fun o => Some (access_token, refresh_token, o)
      | _ => fun _ => None
      end o
  | Did _ => None
  end.

(** How the status query of [checkAccountStatus] settled. *)
Definition status_answer (e : entry)
  : option (outcome (PostgrestResponse.t StatusRow.t)) :=
  match e with
  | @Called X c o =>
      match c in Call X
            return outcome X
                   -> option (outcome (PostgrestResponse.t StatusRow.t))
      with
      | users_status_by_email _ => fun o => Some o
      | _ => fun _ => None
      end o
  | Did _ => None
  end.

(** How the profile query of [getUserProfile] settled. *)
Definition profile_answer (e : entry)
  : option (outcome (PostgrestResponse.t UsersRow.t)) :=
  match e with
  | @Called X c o =>
      match c in Call X
            return outcome X
                   -> option (outcome (PostgrestResponse.t UsersRow.t))
      with
      | users_profile_by_id _ => fun o => Some o
      | _ => fun _ => None
      end o
  | Did _ => None
  end.

(** The email of the authenticated user, when there is one. *)
Definition email_of (user : option User.t) : option jsstring :=
  match user with
  | Some u => User.email u
  | None => None
  end.

(** One of the three fire-and-forget tasks of the service. *)
Definition is_background_task (t : task) : Prop :=
  (exists eventType params, t = logAuthEvent_task eventType params)
  \/ (exists userId, t = updateLastLogin_task userId)
  \/ (exists userId email, t = sendLoginWelcomeEmail_task userId email).

(** The passthrough mirror of a [users] row as the specification words
    it: every field of the profile is the column it is named after (the
    interface documents [profileImage] as an alias of [avatarUrl], and
    [accountStatus] repeats [status]); a field no column feeds is left
    undefined. *)
Definition mirror_of_row (row : UsersRow.t) : AuthUser.t :=
  {| AuthUser.id := UsersRow.id row;
     AuthUser.email := UsersRow.email row;
     AuthUser.firstName := UsersRow.first_name row;
     AuthUser.lastName := UsersRow.last_name row;
     AuthUser.role := UsersRow.role row;
     AuthUser.phone := UsersRow.phone_number row;
     AuthUser.suite_number := UsersRow.suite_number row;
     AuthUser.status := UsersRow.status row;
     AuthUser.avatarUrl := UsersRow.avatar_url row;
     AuthUser.profileImage := UsersRow.avatar_url row;
     AuthUser.isEmailVerified := None;
     AuthUser.accountStatus := Some (UsersRow.status row);
     AuthUser.usShippingAddressId := None;
     AuthUser.streetAddress := UsersRow.street_address row;
     AuthUser.city := UsersRow.city row;
     AuthUser.country := UsersRow.country row;
     AuthUser.postalCode := UsersRow.postal_code row |}.

(** The status query rejected, reported an error, or found no row. *)
Definition status_query_failed
    (o : outcome (PostgrestResponse.t StatusRow.t)) : Prop :=
  match o with
  | Rejected _ => True
  | Resolved q =>
      PostgrestResponse.error q <> None \/ PostgrestResponse.data q = None
  end.

(** The answer with which [checkAccountStatus] lets the login proceed. *)
Definition proceed : AccountStatus.t := AccountStatus.mk Null true None None.

(** The navigations a trace performs at once, and those it leaves to a
    timer, with the timer's delay. *)
Definition navigation (a : effect) : bool :=
  match a with
  | navigate _ _ | navigate_from _ _ _ => true
  | _ => false
  end.

Fixpoint scheduled_navigations (es : list effect) : list (jsstring * Z) :=
  match es with
  | [] => []
  | setTimeout (navigate to _) ms :: es' =>
      (to, ms) :: scheduled_navigations es'
  | setTimeout (navigate_from to _ _) ms :: es' =>
      (to, ms) :: scheduled_navigations es'
  | _ :: es' => scheduled_navigations es'
  end.

(** The messages a trace hands to [setError]. *)
Fixpoint error_messages (es : list effect) : list jsstring :=
  match es with
  | [] => []
  | setError (Some m) :: es' => m :: error_messages es'
  | _ :: es' => error_messages es'
  end.

(** The user of the store has an id. *)
Definition has_id (user : option User.t) : Prop :=
  exists u, user = Some u /\ User.id u <> [].

(** The cached profile's phone is absent, empty or whitespace-only. *)
Definition phone_missing (profile : option AuthUser.t) : Prop :=
  match profile with
  | None => True
  | Some p =>
      match AuthUser.phone p with
      | None => True
      | Some phone => forallb is_white_space phone = true
      end
  end.

(** ** Concrete platforms and providers, for running the code *)

(** [toLowerCase] on ASCII text. *)
Definition ascii_toLowerCase (s : jsstring) : jsstring :=
  map (fun c => if (N.leb 65 c && N.leb c 90)%bool then (c + 32)%N else c) s.

(** The [URLSearchParams] parser on text without percent escapes: a
    leading [?] is dropped, the text is split at each [&], empty pieces
    are skipped, a piece is split at its first [=], and [+] reads as a
    space. *)
Fixpoint split_on (sep : N) (s : jsstring) : list jsstring :=
  match s with
  | [] => [[]]
  | c :: s' =>
      if N.eqb c sep then [] :: split_on sep s'
      else match split_on sep s' with
           | piece :: rest => (c :: piece) :: rest
           | [] => [[c]]
           end
  end.

Fixpoint split_first (sep : N) (s : jsstring) : jsstring * jsstring :=
  match s with
  | [] => ([], [])
  | c :: s' =>
      if N.eqb c sep then ([], s')
      else let (n, v) := split_first sep s' in (c :: n, v)
  end.

Definition plus_to_space (s : jsstring) : jsstring :=
  map (fun c => if N.eqb c 43 then 32%N else c) s.

Definition URLSearchParams_plain (init : jsstring) : URLSearchParams :=
  let init :=
    match init with
    | c :: rest => if N.eqb c 63 then rest else init
    | [] => []
    end in
  flat_map
    (fun piece =>
       match piece with
       | [] => []
       | _ => let (n, v) := split_first 61 piece in
              [(plus_to_space n, plus_to_space v)]
       end)
    (split_on 38 init).

(** A provider that is down: every call rejects. *)
Definition offline : forall X, Call X -> unit -> outcome X * unit :=
  fun X c w => (Rejected NonError, w).

Definition alice : User.t := User.mk (js "u-1") (Some (js "alice@example.com")).

Definition alice_credentials : SignInData.t :=
  SignInData.mk (js "alice@example.com") (js "pw").

Definition alice_session : Session.t :=
  Session.mk (js "access-token-of-alice-0123456789") (js "refresh") alice.

(** A provider where everything succeeds: sign-up and sign-in answer
    the user [alice], the profile RPC reports success, queries find no
    row. *)
Definition healthy : forall X, Call X -> unit -> outcome X * unit :=
  fun X c w =>
    match c in Call X return outcome X * unit with
    | auth_signUp _ =>
        (Resolved (AuthResponse.mk (Some alice) None None), w)
    | auth_signInWithPassword _ _ =>
        (Resolved (AuthResponse.mk (Some alice) (Some alice_session) None), w)
    | auth_getUser => (Resolved (Some alice), w)
    | auth_updateUser _ => (Resolved None, w)
    | auth_setSession _ _ =>
        (Resolved (SessionResponse.mk (Some alice_session) None), w)
    | auth_getSession =>
        (Resolved (SessionResponse.mk (Some alice_session) None), w)
    | rpc_create_user_profile_secure _ =>
        (Resolved (PostgrestResponse.mk
                     (Some (ProfileResult.mk true None)) None), w)
    | rpc_log_auth_event _ _ =>
        (Resolved (PostgrestResponse.mk (Some tt) None), w)
    | rpc_update_user_last_login _ =>
        (Resolved (PostgrestResponse.mk (Some tt) None), w)
    | users_id_email_by_email _ =>
        (Resolved (PostgrestResponse.mk None None), w)
    | users_status_by_email _ =>
        (Resolved (PostgrestResponse.mk None None), w)
    | users_profile_by_id _ =>
        (Resolved (PostgrestResponse.mk None None), w)
    | emailService_sendLoginWelcomeEmail _ _ => (Resolved tt, w)
    | dispatch_initializeAuth => (Resolved tt, w)
    end.

(** As [healthy], but the three background services are down. *)
Definition background_down : forall X, Call X -> unit -> outcome X * unit :=
  fun X c w =>
    match c in Call X return outcome X * unit with
    | rpc_log_auth_event _ _ => (Rejected (Error (js "network")), w)
    | rpc_update_user_last_login _ =>
        (Resolved (PostgrestResponse.mk None
                     (Some (PostgrestError.mk (js "denied")))), w)
    | emailService_sendLoginWelcomeEmail _ _ => (Rejected NonError, w)
    | c' => healthy c' w
    end.

(** As [healthy], but sign-up resolves with neither user nor error. *)
Definition signup_empty : forall X, Call X -> unit -> outcome X * unit :=
  fun X c w =>
    match c in Call X return outcome X * unit with
    | auth_signUp _ => (Resolved (AuthResponse.mk None None None), w)
    | c' => healthy c' w
    end.

(** As [healthy], but the profile RPC reports an error. *)
Definition profile_rpc_down : forall X, Call X -> unit -> outcome X * unit :=
  fun X c w =>
    match c in Call X return outcome X * unit with
    | rpc_create_user_profile_secure _ =>
        (Resolved (PostgrestResponse.mk None
                     (Some (PostgrestError.mk (js "duplicate key")))), w)
    | c' => healthy c' w
    end.

(** As [healthy], but the provider rejects every password. *)
Definition wrong_password : forall X, Call X -> unit -> outcome X * unit :=
  fun X c w =>
    match c in Call X return outcome X * unit with
    | auth_signInWithPassword _ _ =>
        (Resolved (AuthResponse.mk None None
                     (Some (AuthError.mk (js "Invalid login credentials")
                              (js "AuthApiError")))), w)
    | c' => healthy c' w
    end.

(** As [healthy], but [setSession] reports an expired token. *)
Definition expired_token : forall X, Call X -> unit -> outcome X * unit :=
  fun X c w =>
    match c in Call X return outcome X * unit with
    | auth_setSession _ _ =>
        (Resolved (SessionResponse.mk None
                     (Some (AuthError.mk (js "token expired")
                              (js "AuthApiError")))), w)
    | c' => healthy c' w
    end.

(** As [healthy], but no session exists. *)
Definition no_session : forall X, Call X -> unit -> outcome X * unit :=
  fun X c w =>
    match c in Call X return outcome X * unit with
    | auth_getSession => (Resolved (SessionResponse.mk None None), w)
    | c' => healthy c' w
    end.

Definition bob_row : UsersRow.t :=
  UsersRow.mk (js "u-2") (js "bob@example.com") (js "Bob") (js "Stone")
    (Some (js "+233200000000")) (js "client") (js "active")
    (Some (js "VC-002")) None (Some (js "1 Main St")) (Some (js "Accra"))
    (Some (js "GH")) None.

(** As [healthy], but the [users] table holds [bob_row], suspended when
    looked up by email. *)
Definition with_bob : forall X, Call X -> unit -> outcome X * unit :=
  fun X c w =>
    match c in Call X return outcome X * unit with
    | users_profile_by_id _ =>
        (Resolved (PostgrestResponse.mk (Some bob_row) None), w)
    | users_status_by_email _ =>
        (Resolved (PostgrestResponse.mk
                     (Some (StatusRow.mk (Some (js "Suspended"))
                              (Some (js "Bob"))
                              (Some (js "bob@example.com"))))
                     None), w)
    | c' => healthy c' w
    end.

Definition carol_data : SignUpData.t :=
  SignUpData.mk (VStr (js "1 Main St")) (VStr (js "Accra")) (VStr (js "GH"))
    VNull (js "carol@example.com") (js "s3cret") (js "Carol") []
    None.

(** The cached profile of [bob_row], and the same with a blank phone. *)
Definition bob : AuthUser.t :=
  {| AuthUser.id := js "u-2";
     AuthUser.email := js "bob@example.com";
     AuthUser.firstName := js "Bob";
     AuthUser.lastName := js "Stone";
     AuthUser.role := js "client";
     AuthUser.phone := Some (js "+233200000000");
     AuthUser.suite_number := Some (js "VC-002");
     AuthUser.status := js "active";
     AuthUser.avatarUrl := None;
     AuthUser.profileImage := None;
     AuthUser.isEmailVerified := Some true;
     AuthUser.accountStatus := Some (js "active");
     AuthUser.usShippingAddressId := None;
     AuthUser.streetAddress := Some (js "1 Main St");
     AuthUser.city := Some (js "Accra");
     AuthUser.country := Some (js "GH");
     AuthUser.postalCode := None |}.

Definition bob_blank_phone : AuthUser.t :=
  {| AuthUser.id := js "u-2";
     AuthUser.email := js "bob@example.com";
     AuthUser.firstName := js "Bob";
     AuthUser.lastName := js "Stone";
     AuthUser.role := js "client";
     AuthUser.phone := Some (js "   ");
     AuthUser.suite_number := Some (js "VC-002");
     AuthUser.status := js "active";
     AuthUser.avatarUrl := None;
     AuthUser.profileImage := None;
     AuthUser.isEmailVerified := Some true;
     AuthUser.accountStatus := Some (js "active");
     AuthUser.usShippingAddressId := None;
     AuthUser.streetAddress := Some (js "1 Main St");
     AuthUser.city := Some (js "Accra");
     AuthUser.country := Some (js "GH");
     AuthUser.postalCode := None |}.

Definition bob_user : User.t := User.mk (js "u-2") (Some (js "bob@example.com")).

(** Bob signed in, the store initialized and idle. *)
Definition bob_signed_in : AuthState.t :=
  AuthState.mk true false true (Some bob) (Some bob_user).

Definition bob_signed_in_blank_phone : AuthState.t :=
  AuthState.mk true false true (Some bob_blank_phone) (Some bob_user).

(** Nobody signed in, the store initialized. *)
Definition signed_out : AuthState.t :=
  AuthState.mk false false true None None.

(** ** The rest of services/authService.ts *)

(** [a || b] on [string | null | undefined] and on [any]. *)
Definition opt_or (a b : option jsstring) : option jsstring :=
  if truthy_opt a then a else b.

Definition val_or (a b : jsval) : jsval :=
  if truthy_val a then a else b.

(** [arr.join(sep)] on an array of strings. *)
Fixpoint join (sep : jsstring) (arr : list jsstring) : jsstring :=
  match arr with
  | [] => []
  | [s] => s
  | s :: rest => s ++ sep ++ join sep rest
  end.

(** [s.split(' ')]: the pieces between single spaces. *)
Definition split_space (s : jsstring) : list jsstring := split_on 32 s.

Definition getCurrentUser : async (option User.t) :=
  try_catch
    (user <- await auth_getUser ;; Ret user)
    (fun err => Ret None).

Definition getSession : async (option Session.t) :=
  try_catch
    (r <- await auth_getSession ;; Ret (SessionResponse.session r))
    (fun err => Ret None).

(** [updatePassword] returns [{ error }]. *)
Definition updatePassword (password : jsstring) : async (option AuthError.t) :=
  try_catch
    (error <- await (auth_updateUser password) ;; Ret error)
    (fun err =>
       Ret (Some (AuthError.mk (js "Password update failed")
                    (js "PasswordUpdateError")))).

(** The [metadata] object [createUserProfile] reads: the names and the
    phone are strings when present, the address fields are whatever the
    sign-up form stored. *)
Module ProfileMetadata.
Record t : Type := mk {
  first_name : option jsstring;
  firstName : option jsstring;
  last_name : option jsstring;
  lastName : option jsstring;
  phone_number : option jsstring;
  phone : option jsstring;
  street_address : jsval;
  streetAddress : jsval;
  city : jsval;
  country : jsval;
  postal_code : jsval;
  postalCode : jsval
}.
End ProfileMetadata.

(** [createUserProfile] returns [{ error }], a message or null.  A
    null or undefined [metadata] makes the first property access
    throw. *)
Definition createUserProfile (userId email : jsstring)
    (metadata : option ProfileMetadata.t) : async (option jsstring) :=
  try_catch
    (match metadata with
     | None => Throw (Error (js "Cannot read properties of undefined"))
     | Some metadata =>
         rpc <- await
           (rpc_create_user_profile_secure
              (RpcPayload.mk
                 userId
                 (Some email)
                 (opt_or_else
                    (opt_or (ProfileMetadata.first_name metadata)
                       (ProfileMetadata.firstName metadata))
                    (js "User"))
                 (opt_or_else
                    (opt_or (ProfileMetadata.last_name metadata)
                       (ProfileMetadata.lastName metadata))
                    (js "Name"))
                 (or_null
                    (opt_or (ProfileMetadata.phone_number metadata)
                       (ProfileMetadata.phone metadata)))
                 (val_or_null
                    (val_or (ProfileMetadata.street_address metadata)
                       (ProfileMetadata.streetAddress metadata)))
                 (val_or_null (ProfileMetadata.city metadata))
                 (val_or_null (ProfileMetadata.country metadata))
                 (val_or_null
                    (val_or (ProfileMetadata.postal_code metadata)
                       (ProfileMetadata.postalCode metadata))))) ;;
         match PostgrestResponse.error rpc with
         | Some rpcError => Ret (Some (PostgrestError.message rpcError))
         | None =>
             let profileResult := PostgrestResponse.data rpc in
             match profileResult with
             | Some (ProfileResult.mk true _) => Ret None
             | _ =>
                 Ret (Some (opt_or_else
                              match profileResult with
                              | Some pr => ProfileResult.error pr
                              | None => None
                              end
                              (js "Failed to create user profile")))
             end
         end
     end)
    (fun err => Ret (Some (js "Failed to create user profile"))).

(** [user.user_metadata] as an OAuth provider fills it. *)
Module OAuthMetadata.
Record t : Type := mk {
  first_name : option jsstring;
  given_name : option jsstring;
  name : option jsstring;
  last_name : option jsstring;
  family_name : option jsstring;
  phone : option jsstring
}.
End OAuthMetadata.

(** The SDK's [User] as [handleOAuthSignIn] reads it. *)
Module OAuthUser.
Record t : Type := mk {
  id : jsstring;
  email : option jsstring;
  user_metadata : option OAuthMetadata.t
}.
End OAuthUser.

(** [{ profile, error }], the result of [handleOAuthSignIn]. *)
Module OAuthResult.
Record t : Type := mk {
  profile : option AuthUser.t;
  error : option AuthError.t
}.
End OAuthResult.

(** [user.user_metadata || {}] *)
Definition metadata_or_empty (m : option OAuthMetadata.t) : OAuthMetadata.t :=
  match m with
  | Some m => m
  | None => OAuthMetadata.mk None None None None None None
  end.

(** [metadata.first_name || metadata.given_name
     || metadata.name?.split(' ')[0] || 'User'] *)
Definition oauth_firstName (metadata : OAuthMetadata.t) : jsstring :=
  opt_or_else
    (opt_or (OAuthMetadata.first_name metadata)
       (opt_or (OAuthMetadata.given_name metadata)
          (option_map (fun name => hd [] (split_space name))
             (OAuthMetadata.name metadata))))
    (js "User").

(** [metadata.last_name || metadata.family_name
     || metadata.name?.split(' ').slice(1).join(' ') || ''] *)
Definition oauth_lastName (metadata : OAuthMetadata.t) : jsstring :=
  opt_or_else
    (opt_or (OAuthMetadata.last_name metadata)
       (opt_or (OAuthMetadata.family_name metadata)
          (option_map (fun name => join (js " ") (tl (split_space name)))
             (OAuthMetadata.name metadata))))
    [].

Definition handleOAuthSignIn (user : OAuthUser.t) : async OAuthResult.t :=
  try_catch
    (profile <- getUserProfile (OAuthUser.id user) ;;
     match profile with
     | Some profile => Ret (OAuthResult.mk (Some profile) None)
     | None =>
         let metadata := metadata_or_empty (OAuthUser.user_metadata user) in
         let firstName := oauth_firstName metadata in
         let lastName := oauth_lastName metadata in
         try_catch
           (rpc <- await
              (rpc_create_user_profile_secure
                 (RpcPayload.mk
                    (OAuthUser.id user)
                    (Some (opt_or_else (OAuthUser.email user) []))
                    firstName
                    lastName
                    (or_null (OAuthMetadata.phone metadata))
                    VNull VNull VNull VNull)) ;;
            match PostgrestResponse.error rpc with
            | Some rpcError =>
                Ret (OAuthResult.mk None
                       (Some (AuthError.mk
                                (js "Failed to create user profile: "
                                   ++ PostgrestError.message rpcError)
                                (js "ProfileCreationError"))))
            | None =>
                let profileResult := PostgrestResponse.data rpc in
                match profileResult with
                | Some (ProfileResult.mk true _) =>
                    profile <- getUserProfile (OAuthUser.id user) ;;
                    match profile with
                    | None =>
                        Ret (OAuthResult.mk None
                               (Some (AuthError.mk
                                        (js "Profile created but could not be retrieved")
                                        (js "ProfileRetrievalError"))))
                    | Some profile => Ret (OAuthResult.mk (Some profile) None)
                    end
                | _ =>
                    Ret (OAuthResult.mk None
                           (Some (AuthError.mk
                                    (js "Failed to create user profile: "
                                       ++ opt_or_else
                                            match profileResult with
                                            | Some pr => ProfileResult.error pr
                                            | None => None
                                            end
                                            (js "Unknown error"))
                                    (js "ProfileCreationError"))))
                end
            end)
           (fun profileError =>
              Ret (OAuthResult.mk None
                     (Some (AuthError.mk (js "Failed to create user profile")
                              (js "ProfileCreationError")))))
     end)
    (fun err =>
       Ret (OAuthResult.mk None
              (Some (AuthError.mk (js "OAuth sign-in handling failed")
                       (js "OAuthError"))))).

(** ** The rest of the components *)

(** *** SecuritySettings: the strength indicator *)

Module Strength.
Record t : Type := mk { level : jsstring; color : jsstring; text : jsstring }.
End Strength.

Definition getPasswordStrength (password : jsstring) : Strength.t :=
  let checks := [(6 <=? strlen password)%Z; has_digit password] in
  let strength := List.length (filter (fun b : bool => b) checks) in
  match strength with
  | 0 => Strength.mk (js "weak") (js "red") (js "Too Weak")
  | 1 => Strength.mk (js "medium") (js "yellow") (js "Acceptable")
  | _ => Strength.mk (js "strong") (js "green") (js "Good")
  end.

(** *** AuthCallback: the component state and what it renders *)

Module CallbackState.
Record t : Type := mk {
  error : option jsstring;
  status : jsstring;
  callbackType : CallbackType
}.
End CallbackState.

(** The three [useState] initial values. *)
Definition CallbackState_initial : CallbackState.t :=
  CallbackState.mk None (js "Processing...") unknown.

(** What a state setter does to the component state; the other effects
    leave it alone. *)
Definition setState (s : CallbackState.t) (a : effect) : CallbackState.t :=
  match a with
  | setError m =>
      CallbackState.mk m (CallbackState.status s)
        (CallbackState.callbackType s)
  | setStatus x =>
      CallbackState.mk (CallbackState.error s) x
        (CallbackState.callbackType s)
  | setCallbackType t =>
      CallbackState.mk (CallbackState.error s) (CallbackState.status s) t
  | _ => s
  end.

(** The component state once the handler has settled. *)
Definition state_after (es : list effect) : CallbackState.t :=
  fold_left setState es CallbackState_initial.

(** The two screens of the callback page, with their texts; the
    progress screen shows a key icon in the recovery flow and a spinner
    otherwise. *)
Inductive screen : Type :=
| ErrorScreen (title message redirecting : jsstring)
| ProgressScreen (key_icon : bool) (title status : jsstring).

Definition is_recovery (t : CallbackType) : bool :=
  match t with recovery => true | _ => false end.

Definition AuthCallback (s : CallbackState.t) : screen :=
  let callbackType := CallbackState.callbackType s in
  match CallbackState.error s with
  | Some ((_ :: _) as error) =>
      ErrorScreen
        (if is_recovery callbackType then js "Password Reset Error"
         else js "Authentication Error")
        error
        (js "Redirecting you "
           ++ (if is_recovery callbackType then js "to reset password page"
               else js "back to login")
           ++ js "...")
  | _ =>
      ProgressScreen
        (is_recovery callbackType)
        (if is_recovery callbackType then js "Password Reset"
         else js "Completing Sign In")
        (CallbackState.status s)
  end.

(** ** Reading traces, continued *)

(** The payload the profile RPC was called with. *)
Definition createProfile_payload (e : entry) : option RpcPayload.t :=
  match e with
  | @Called X c o =>
      match c with
      | rpc_create_user_profile_secure payload => Some payload
      | _ => None
      end
  | Did _ => None
  end.

(** How [supabase.auth.getSession] settled. *)
Definition getSession_answer (e : entry) : option (outcome SessionResponse.t) :=
  match e with
  | @Called X c o =>
      match c in Call X return outcome X -> option (outcome SessionResponse.t)
      with
      | auth_getSession => fun o => Some o
      | _ => fun _ => None
      end o
  | Did _ => None
  end.

(** How the [initializeAuth] thunk settled. *)
Definition initializeAuth_answer (e : entry) : option (outcome unit) :=
  match e with
  | @Called X c o =>
      match c in Call X return outcome X -> option (outcome unit) with
      | dispatch_initializeAuth => fun o => Some o
      | _ => fun _ => None
      end o
  | Did _ => None
  end.

(** A call of the trace rejected. *)
Definition rejected (e : entry) : bool :=
  match e with
  | Called _ (Rejected _) => true
  | _ => false
  end.

(** The auth event a background task logs, when it is an event log. *)
Definition logged_event (t : task) : option (jsstring * AuthEventParams.t) :=
  match t with
  | Await c _ =>
      match c with
      | rpc_log_auth_event eventType params => Some (eventType, params)
      | _ => None
      end
  | _ => None
  end.

(** The auth events among the tasks a run started. *)
Fixpoint audit_events (ts : list task) : list (jsstring * AuthEventParams.t) :=
  match ts with
  | [] => []
  | t :: ts' =>
      match logged_event t with
      | Some ev => ev :: audit_events ts'
      | None => audit_events ts'
      end
  end.

(** The sessions a trace obtained from [getSession] or [setSession]. *)
Fixpoint sessions_obtained (tr : trace) : list Session.t :=
  match tr with
  | [] => []
  | e :: tr' =>
      match getSession_answer e, setSession_answer e with
      | Some (Resolved r), _ | _, Some (_, _, Resolved r) =>
          match SessionResponse.session r with
          | Some s => s :: sessions_obtained tr'
          | None => sessions_obtained tr'
          end
      | _, _ => sessions_obtained tr'
      end
  end.

(** The payload [supabase.auth.signUp] was called with. *)
Definition signUp_payload (e : entry) : option SignupPayload.t :=
  match e with
  | @Called X c o =>
      match c with
      | auth_signUp payload => Some payload
      | _ => None
      end
  | Did _ => None
  end.

(** The [user_metadata] the provider keeps for a sign-up: the
    [options.data] object of the sign-up payload. *)
Definition user_metadata_of (p : SignupPayload.t) : ProfileMetadata.t :=
  {| ProfileMetadata.first_name := Some (SignupPayload.first_name p);
     ProfileMetadata.firstName := None;
     ProfileMetadata.last_name := Some (SignupPayload.last_name p);
     ProfileMetadata.lastName := None;
     ProfileMetadata.phone_number := SignupPayload.phone_number p;
     ProfileMetadata.phone := None;
     ProfileMetadata.street_address := SignupPayload.street_address p;
     ProfileMetadata.streetAddress := VUndefined;
     ProfileMetadata.city := SignupPayload.city p;
     ProfileMetadata.country := SignupPayload.country p;
     ProfileMetadata.postal_code := SignupPayload.postal_code p;
     ProfileMetadata.postalCode := VUndefined |}.


(** No call of the trace rejected. *)
Definition no_rejection (tr : trace) : bool :=
  forallb (fun e => negb (rejected e)) tr.

(** As [healthy], but [setSession] rejects. *)
Definition setSession_unreachable
  : forall X, Call X -> unit -> outcome X * unit :=
  fun X c w =>
    match c in Call X return outcome X * unit with
    | auth_setSession _ _ => (Rejected (Error (js "Failed to fetch")), w)
    | c' => healthy c' w
    end.

(** ** Programs over further calls and effects

    The methods and handlers below await calls and perform effects
    beyond the ones listed in [Call] and [effect].  They are programs of
    the same shape, over any family of calls [C] and any type of effects
    [A]. *)
Module Wide.
Section Programs.
Variable C : Type -> Type.
Variable A : Type.

Inductive prog (T R : Type) : Type :=
| Ret (r : R)
| Throw (e : exn)
| Await (X : Type) (c : C X) (k : outcome X -> prog T R)
| Do (a : A) (k : prog T R)
| Fork (t : T) (k : prog T R).
Arguments Ret {T R} r.
Arguments Throw {T R} e.
Arguments Await {T R X} c k.
Arguments Do {T R} a k.
Arguments Fork {T R} t k.

Fixpoint bind {T R S} (p : prog T R) (f : R -> prog T S) : prog T S :=
  match p with
  | Ret r => f r
  | Throw e => Throw e
  | Await c k => Await c (fun o => bind (k o) f)
  | Do a k => Do a (bind k f)
  | Fork t k => Fork t (bind k f)
  end.

Definition await {T X} (c : C X) : prog T X :=
  Await c (fun o => match o with
                    | Resolved x => Ret x
                    | Rejected e => Throw e
                    end).

Fixpoint try_catch {T R} (p : prog T R) (h : exn -> prog T R) : prog T R :=
  match p with
  | Ret r => Ret r
  | Throw e => h e
  | Await c k => Await c (fun o => try_catch (k o) h)
  | Do a k => Do a (try_catch k h)
  | Fork t k => Fork t (try_catch k h)
  end.

Fixpoint try_finally {T R} (p : prog T R) (f : A) : prog T R :=
  match p with
  | Ret r => Do f (Ret r)
  | Throw e => Do f (Throw e)
  | Await c k => Await c (fun o => try_finally (k o) f)
  | Do a k => Do a (try_finally k f)
  | Fork t k => Fork t (try_finally k f)
  end.

Inductive entry : Type :=
| Called (X : Type) (c : C X) (o : outcome X)
| Did (a : A).
Arguments Called {X} c o.

Definition trace : Type := list entry.

Variable W : Type.
Variable handle : forall X, C X -> W -> outcome X * W.

Fixpoint run {T R} (p : prog T R) (w : W)
  : result R * trace * list T * W :=
  match p with
  | Ret r => (Returned r, [], [], w)
  | Throw e => (Raised e, [], [], w)
  | Await c k =>
      let (o, w') := handle c w in
      let '(res, tr, ts, w'') := run (k o) w' in
      (res, Called c o :: tr, ts, w'')
  | Do a k =>
      let '(res, tr, ts, w') := run k w in
      (res, Did a :: tr, ts, w')
  | Fork t k =>
      let '(res, tr, ts, w') := run k w in
      (res, tr, t :: ts, w')
  end.

Definition result_of {T R} (p : prog T R) (w : W) : result R :=
  fst (fst (fst (run p w))).
Definition trace_of {T R} (p : prog T R) (w : W) : trace :=
  snd (fst (fst (run p w))).
Definition pending_of {T R} (p : prog T R) (w : W) : list T :=
  snd (fst (run p w)).

Fixpoint every_run {T R} (p : prog T R)
    (Q : result R -> trace -> list T -> Prop) : Prop :=
  match p with
  | Ret r => Q (Returned r) [] []
  | Throw e => Q (Raised e) [] []
  | Await c k =>
      forall o, every_run (k o) (fun res tr ts => Q res (Called c o :: tr) ts)
  | Do a k => every_run k (fun res tr ts => Q res (Did a :: tr) ts)
  | Fork t k => every_run k (fun res tr ts => Q res tr (t :: ts))
  end.
End Programs.

Arguments Ret {C A T R} r.
Arguments Throw {C A T R} e.
Arguments Await {C A T R X} c k.
Arguments Do {C A T R} a k.
Arguments Fork {C A T R} t k.
Arguments Called {C A X} c o.
Arguments Did {C A} a.
Arguments bind {C A T R S} p f.
Arguments await {C A T X} c.
Arguments try_catch {C A T R} p h.
Arguments try_finally {C A T R} p f.
Arguments run {C A W} handle {T R} p w.
Arguments result_of {C A W} handle {T R} p w.
Arguments trace_of {C A W} handle {T R} p w.
Arguments pending_of {C A W} handle {T R} p w.
Arguments every_run {C A T R} p Q.
End Wide.

Declare Scope wide_scope.
Delimit Scope wide_scope with wide.
Notation "x <- p ;; q" := (Wide.bind p (fun x => q))
  (at level 61, p at next level, right associativity) : wide_scope.
Notation "a ;; q" := (Wide.Do a q)
  (at level 61, right associativity) : wide_scope.

(** The fields of [Partial<AuthUser>] that [updateUserProfile] reads.
    The ones it tests for truthiness are [option]s; the ones it
    compares with [undefined] keep null and undefined apart. *)
Module ProfileUpdates.
Record t : Type := mk {
  firstName : option jsstring;
  lastName : option jsstring;
  phone : option jsstring;
  streetAddress : nullable jsstring;
  city : nullable jsstring;
  country : nullable jsstring;
  postalCode : nullable jsstring;
  avatarUrl : option jsstring;
  profileImage : nullable jsstring
}.
End ProfileUpdates.

(** The object handed to [update]: a column is [Undefined] when its
    key is absent, [Null] when null is written, [Value s] otherwise. *)
Module DbUpdates.
Record t : Type := mk {
  first_name : nullable jsstring;
  last_name : nullable jsstring;
  phone_number : nullable jsstring;
  street_address : nullable jsstring;
  city : nullable jsstring;
  country : nullable jsstring;
  postal_code : nullable jsstring;
  avatar_url : nullable jsstring
}.
End DbUpdates.

(** [{ error, success }], the result of [updateUserProfile]. *)
Module UpdateResult.
Record t : Type := mk { error : option AuthError.t; success : bool }.
End UpdateResult.

(** The calls of the service that [Call] does not list, next to those
    it does ([core]): sign-out, the password reset email, the resend of
    the verification email and the update of a [users] row. *)
Inductive MoreCall : Type -> Type :=
| core (X : Type) (c : Call X) : MoreCall X
| auth_signOut : MoreCall (option AuthError.t)
| auth_resetPasswordForEmail (email redirectTo : jsstring)
  : MoreCall (option AuthError.t)
| auth_resend (type email : jsstring) : MoreCall (option AuthError.t)
| users_update_by_id (dbUpdates : DbUpdates.t) (userId : jsstring)
  : MoreCall (option PostgrestError.t).
Arguments core {X} c.

(** The effects of the settings form that [effect] does not list, next
    to those it does ([ui]). *)
Inductive MoreEffect : Type :=
| ui (a : effect)
| setShowResetOption (b : bool).

Definition wide (R : Type) : Type := Wide.prog MoreCall MoreEffect task R.

(** A program over [Call] and [effect] read as one over the larger
    families. *)
Fixpoint lift {R} (p : async R) : wide R :=
  match p with
  | Ret r => Wide.Ret r
  | Throw e => Wide.Throw e
  | Await c k => Wide.Await (core c) (fun o => lift (k o))
  | Do a k => Wide.Do (ui a) (lift k)
  | Fork t k => Wide.Fork t (lift k)
  end.

Section AuthServiceMore.
(** [navigator.userAgent] and [window.location.origin] are the
    platform's. *)
Variable userAgent : jsstring.
Variable origin : jsstring.

Open Scope wide_scope.

(** [signOut] returns [{ error }]. *)
Definition signOut : wide (option AuthError.t) :=
  Wide.try_catch
    (user <- Wide.await (core auth_getUser) ;;
     error <- Wide.await auth_signOut ;;
     _ <- match user with
          | Some user =>
              lift (logAuthEventAsync (js "logout")
                      (AuthEventParams.mk
                         (Some (User.id user))
                         (User.email user)
                         (js "client")
                         None
                         userAgent
                         (js "success")
                         None))
          | None => Wide.Ret tt
          end ;;
     Wide.Ret error)
    (fun err =>
       Wide.Ret (Some (AuthError.mk (js "Sign out failed")
                         (js "SignOutError")))).

(** [resetPassword] returns [{ error }]. *)
Definition resetPassword (email : jsstring) : wide (option AuthError.t) :=
  Wide.try_catch
    (let redirectUrl := origin ++ js "/auth/callback" in
     error <- Wide.await (auth_resetPasswordForEmail email redirectUrl) ;;
     Wide.Ret error)
    (fun err =>
       Wide.Ret (Some (AuthError.mk (js "Password reset failed")
                         (js "PasswordResetError")))).

(** [resendVerificationEmail] returns [{ error }], a message or null. *)
Definition resendVerificationEmail (email : jsstring)
  : wide (option jsstring) :=
  Wide.try_catch
    (error <- Wide.await (auth_resend (js "signup") email) ;;
     match error with
     | Some error => Wide.Ret (Some (AuthError.message error))
     | None => Wide.Ret None
     end)
    (fun err => Wide.Ret (Some (js "Failed to resend verification email"))).

Definition resendEmailVerification (email : jsstring) : wide (option jsstring) :=
  resendVerificationEmail email.

(** [if (x) dbUpdates.k = x] on a field tested for truthiness. *)
Definition set_if_truthy (x : option jsstring) (column : nullable jsstring)
  : nullable jsstring :=
  match x with
  | Some ((_ :: _) as s) => Value s
  | _ => column
  end.

(** [if (x !== undefined) dbUpdates.k = x || null] *)
Definition set_or_null_if_defined (x : nullable jsstring)
    (column : nullable jsstring) : nullable jsstring :=
  match x with
  | Undefined => column
  | Null => Null
  | Value s => if truthy s then Value s else Null
  end.

(** [if (x !== undefined) dbUpdates.k = x] *)
Definition set_if_defined (x : nullable jsstring) (column : nullable jsstring)
  : nullable jsstring :=
  match x with
  | Undefined => column
  | _ => x
  end.

Definition updateUserProfile (userId : jsstring) (updates : ProfileUpdates.t)
  : wide UpdateResult.t :=
  Wide.try_catch
    (let dbUpdates :=
       {| DbUpdates.first_name :=
            set_if_truthy (ProfileUpdates.firstName updates) Undefined;
          DbUpdates.last_name :=
            set_if_truthy (ProfileUpdates.lastName updates) Undefined;
          DbUpdates.phone_number :=
            set_if_truthy (ProfileUpdates.phone updates) Undefined;
          DbUpdates.street_address :=
            set_or_null_if_defined (ProfileUpdates.streetAddress updates)
              Undefined;
          DbUpdates.city :=
            set_or_null_if_defined (ProfileUpdates.city updates) Undefined;
          DbUpdates.country :=
            set_or_null_if_defined (ProfileUpdates.country updates) Undefined;
          DbUpdates.postal_code :=
            set_or_null_if_defined (ProfileUpdates.postalCode updates)
              Undefined;
          DbUpdates.avatar_url :=
            set_if_defined (ProfileUpdates.profileImage updates)
              (set_if_truthy (ProfileUpdates.avatarUrl updates) Undefined)
       |} in
     error <- Wide.await (users_update_by_id dbUpdates userId) ;;
     match error with
     | Some error =>
         Wide.Ret (UpdateResult.mk
                     (Some (AuthError.mk (PostgrestError.message error)
                              (js "ProfileUpdateError")))
                     false)
     | None => Wide.Ret (UpdateResult.mk None true)
     end)
    (fun err =>
       Wide.Ret (UpdateResult.mk
                   (Some (AuthError.mk (js "Profile update failed")
                            (js "ProfileUpdateError")))
                   false)).

(** SecuritySettings: [handlePasswordReset]. *)
Definition handlePasswordReset (user : option User.t) : wide unit :=
  match email_of user with
  | Some ((_ :: _) as email) =>
      Wide.try_finally
        (Wide.try_catch
           (ui (setLoading true) ;;
            ui (setError None) ;;
            error <- resetPassword email ;;
            match error with
            | Some error =>
                ui (setError
                      (Some (or_else (AuthError.message error)
                               (js "Failed to send password reset email")))) ;;
                Wide.Ret tt
            | None =>
                ui (setSuccessMessage
                      (Some (js "Password reset email sent! Check your inbox."))) ;;
                setShowResetOption false ;;
                Wide.Ret tt
            end)
           (fun err =>
              ui (setError (Some (js "Failed to send password reset email"))) ;;
              Wide.Ret tt))
        (ui (setLoading false))
  | _ =>
      ui (setError (Some (js "User email not found"))) ;;
      Wide.Ret tt
  end.

Close Scope wide_scope.
End AuthServiceMore.

(** The auth events among the tasks a run over the larger families
    started are read by [audit_events] as before. *)

(** A provider for the larger family: the calls of [Call] go to
    [healthy], the others succeed. *)
Definition wide_healthy : forall X, MoreCall X -> unit -> outcome X * unit :=
  fun X c w =>
    match c in MoreCall X return outcome X * unit with
    | core c' => healthy c' w
    | auth_signOut => (Resolved None, w)
    | auth_resetPasswordForEmail _ _ => (Resolved None, w)
    | auth_resend _ _ => (Resolved None, w)
    | users_update_by_id _ _ => (Resolved None, w)
    end.

(** As [wide_healthy], but the provider refuses to sign out. *)
Definition signOut_refused : forall X, MoreCall X -> unit -> outcome X * unit :=
  fun X c w =>
    match c in MoreCall X return outcome X * unit with
    | auth_signOut =>
        (Resolved (Some (AuthError.mk (js "session_not_found")
                           (js "AuthApiError"))), w)
    | c' => wide_healthy c' w
    end.

(** * Properties *)

(** ** General facts *)

Lemma jsstring_eqb_eq (a b : jsstring) : (a === b) = true <-> a = b.
Proof.
  revert b; induction a as [|x a IH]; intros [|y b]; simpl; split;
    try congruence; try reflexivity.
  - intros H. apply andb_true_iff in H as [Hx Hab].
    apply N.eqb_eq in Hx. apply IH in Hab. congruence.
  - intros H. injection H as -> ->. rewrite N.eqb_refl. simpl. now apply IH.
Qed.

Lemma jsstring_eqb_refl (a : jsstring) : (a === a) = true.
Proof. now apply jsstring_eqb_eq. Qed.

Lemma opt_is_true (o : option jsstring) (lit : jsstring) :
  opt_is o lit = true <-> o = Some lit.
Proof.
  destruct o as [s|]; simpl.
  - rewrite jsstring_eqb_eq. split; congruence.
  - split; discriminate.
Qed.

Section RunFacts.
Variable W : Type.
Variable handle : forall X, Call X -> W -> outcome X * W.

(** What holds of every run holds of the run against [handle]. *)
Lemma every_run_sound {T R} (p : prog T R) :
forall (Q : result R -> trace -> list T -> Prop),
  every_run p Q ->
  forall w, Q (result_of handle p w) (trace_of handle p w)
              (pending_of handle p w).
Proof.
unfold result_of, trace_of, pending_of.
induction p as [r | e | X c k IH | a k IH | t k IH];
  intros Q HQ w; simpl in *.
- exact HQ.
- exact HQ.
- destruct (handle c w) as [o w'] eqn:Hc.
  specialize (IH o _ (HQ o) w').
  destruct (run handle (k o) w') as [[[res tr] ts] w'']. exact IH.
- specialize (IH _ HQ w).
  destruct (run handle k w) as [[[res tr] ts] w']. exact IH.
- specialize (IH _ HQ w).
  destruct (run handle k w) as [[[res tr] ts] w']. exact IH.
Qed.
End RunFacts.

(** Literals stay folded while a program is explored. *)
Opaque js.

(** Walks a program: every awaited outcome and every answer the code
    branches on is split into its cases. *)
Ltac explore :=
  repeat (simpl;
          match goal with
          | |- forall o : outcome _, _ => intros [?|?]
          | r : AuthResponse.t |- _ => destruct r
          | r : PostgrestResponse.t _ |- _ => destruct r
          | r : SessionResponse.t |- _ => destruct r
          | r : ProfileResult.t |- _ => destruct r
          | |- every_run ?p _ =>
              match p with
              | context [match ?x with _ => _ end] => is_var x; destruct x
              | context [truthy ?x] => is_var x; destruct x
              end
          end).

(** ** signUp *)

(** C1, as stated, fails: when the provider's sign-up resolves with neither
    a user nor an error, [signUp] hands that null error through, so the
    caller gets user null together with error null although the sign-up
    did not succeed. *)
Lemma signUp_null_user_null_error :
  let res := result_of signup_empty (signUp ascii_toLowerCase carol_data) tt in
  let tr := trace_of signup_empty (signUp ascii_toLowerCase carol_data) tt in
  res = Returned (AuthResult.mk None None)
  /\ (forall u, ~ auth_signup_succeeded tr u)
  /\ ~ (exists e, res = Returned (AuthResult.mk None (Some e))).
Proof.
  cbv zeta. split; [reflexivity|]. split.
  - intros u [s Hs]. vm_compute in Hs. discriminate Hs.
  - intros [e He]. vm_compute in He. discriminate He.
Qed.

(** C1, amended: [signUp] always returns; it returns a user with a null
    error exactly when the provider's sign-up resolved with a user and no
    error and the profile RPC resolved with no error and a successful
    result; in every other case the user is null, and the error is null
    only when the sign-up itself resolved with neither user nor error. *)
Theorem signUp_outcome_characterised
    W (handle : forall X, Call X -> W -> outcome X * W) toLowerCase data (w : W) :
  let res := result_of handle (signUp toLowerCase data) w in
  let tr := trace_of handle (signUp toLowerCase data) w in
  (forall u, res = Returned (AuthResult.mk (Some u) None)
             <-> auth_signup_succeeded tr u /\ profile_created tr)
  /\ ((forall u, ~ (auth_signup_succeeded tr u /\ profile_created tr)) ->
      exists err, res = Returned (AuthResult.mk None err)
                  /\ (err = None <-> auth_signup_empty tr)).
Proof.
  cbv zeta.
  apply (every_run_sound handle (signUp toLowerCase data)
           (fun res tr _ =>
              (forall u, res = Returned (AuthResult.mk (Some u) None)
                         <-> auth_signup_succeeded tr u /\ profile_created tr)
              /\ ((forall u, ~ (auth_signup_succeeded tr u
                                /\ profile_created tr)) ->
                  exists err, res = Returned (AuthResult.mk None err)
                              /\ (err = None <-> auth_signup_empty tr)))).
  unfold signUp, cleanupOrphanedAuthUser.
  explore.
  all: unfold auth_signup_succeeded, profile_created, auth_signup_empty; simpl.
  all: split;
    [ intros u; split;
      [ intros H; inversion H; subst; split; eexists; reflexivity
      | intros [[? ?] [? ?]]; congruence ]
    | intros Hno;
      first [ exfalso; eapply Hno; split; eexists; reflexivity
            | eexists; split; [reflexivity|]; split;
              [ intros H; first [discriminate H | eexists; reflexivity]
              | intros [? ?]; first [reflexivity | congruence] ] ] ].
Qed.

Lemma signUp_outcome_characterised_witness :
  result_of healthy (signUp ascii_toLowerCase carol_data) tt
  = Returned (AuthResult.mk (Some alice) None).
Proof.
  pose proof (signUp_outcome_characterised healthy ascii_toLowerCase
                carol_data tt) as H.
  cbv zeta in H. destruct H as [H _]. apply H.
  split; eexists; reflexivity.
Defined.

(** The orphan check answers false whatever the provider says, after
    one read of the [users] table and nothing else. *)
Lemma cleanupOrphanedAuthUser_inert
    W (handle : forall X, Call X -> W -> outcome X * W) toLowerCase email (w : W) :
  result_of handle (cleanupOrphanedAuthUser toLowerCase email) w = Returned false
  /\ (exists o, trace_of handle (cleanupOrphanedAuthUser toLowerCase email) w
                = [Called (users_id_email_by_email (toLowerCase email)) o])
  /\ pending_of handle (cleanupOrphanedAuthUser toLowerCase email) w = [].
Proof.
  apply (every_run_sound handle (cleanupOrphanedAuthUser toLowerCase email)
           (fun res tr ts =>
              res = Returned false
              /\ (exists o, tr = [Called (users_id_email_by_email
                                            (toLowerCase email)) o])
              /\ ts = [])).
  unfold cleanupOrphanedAuthUser. explore.
  all: repeat split; eexists; reflexivity.
Qed.

(** C4: when the profile RPC fails after the provider created the auth
    user, [signUp] returns an error having called the RPC once and nothing
    after it (no retry, no deletion of the auth user, no background task);
    and the orphan check [cleanupOrphanedAuthUser] returns false on every
    input, its only call being one read of the [users] table. *)
Theorem signUp_no_retry_no_recovery
    W (handle : forall X, Call X -> W -> outcome X * W) toLowerCase data (w : W) :
  let res := result_of handle (signUp toLowerCase data) w in
  let tr := trace_of handle (signUp toLowerCase data) w in
  (forall u, auth_signup_succeeded tr u -> profile_creation_failed tr ->
     (exists e, res = Returned (AuthResult.mk None (Some e)))
     /\ calls tr = [SelectUsers; SignUp; CreateUserProfileSecure]
     /\ pending_of handle (signUp toLowerCase data) w = [])
  /\ (forall email w',
        result_of handle (cleanupOrphanedAuthUser toLowerCase email) w'
        = Returned false
        /\ (exists o, trace_of handle (cleanupOrphanedAuthUser toLowerCase email) w'
                      = [Called (users_id_email_by_email (toLowerCase email)) o])
        /\ pending_of handle (cleanupOrphanedAuthUser toLowerCase email) w' = []).
Proof.
  cbv zeta. split; [|intros; apply cleanupOrphanedAuthUser_inert].
  apply (every_run_sound handle (signUp toLowerCase data)
           (fun res tr ts =>
              forall u, auth_signup_succeeded tr u ->
                        profile_creation_failed tr ->
                (exists e, res = Returned (AuthResult.mk None (Some e)))
                /\ calls tr = [SelectUsers; SignUp; CreateUserProfileSecure]
                /\ ts = [])).
  unfold signUp, cleanupOrphanedAuthUser.
  explore.
  all: unfold auth_signup_succeeded, profile_creation_failed; simpl.
  all: intros u [s Hs] [o [Ho Hfail]];
    try discriminate Hs; try discriminate Ho.
  all: try (repeat split; try eexists; reflexivity).
  all: exfalso; injection Ho as <-; eapply Hfail; reflexivity.
Qed.

Lemma signUp_no_retry_no_recovery_witness :
  (exists e, result_of profile_rpc_down (signUp ascii_toLowerCase carol_data) tt
             = Returned (AuthResult.mk None (Some e)))
  /\ calls (trace_of profile_rpc_down (signUp ascii_toLowerCase carol_data) tt)
     = [SelectUsers; SignUp; CreateUserProfileSecure]
  /\ pending_of profile_rpc_down (signUp ascii_toLowerCase carol_data) tt = [].
Proof.
  pose proof (signUp_no_retry_no_recovery profile_rpc_down ascii_toLowerCase
                carol_data tt) as H.
  cbv zeta in H. destruct H as [H _]. apply (H alice).
  - exists None. reflexivity.
  - eexists. split; [reflexivity|]. intros e. discriminate.
Defined.


(** ** signIn *)

(** A background task settles quietly whatever its call does. *)
Lemma background_task_quiet
    W (handle : forall X, Call X -> W -> outcome X * W) (t : task) (w : W) :
  is_background_task t -> result_of handle t w = Returned tt.
Proof.
  intros [[ev [p ->]] | [[id ->] | [id [em ->]]]];
    unfold result_of; simpl;
    match goal with
    | |- context [handle ?X ?c ?w] => destruct (handle X c w) as [[?|?] ?]
    end; reflexivity.
Qed.

(** C3: two runs of [signIn] whose sign-in call settled alike return the
    same [{user, error}], whatever the provider answers to the
    background calls; when [signIn] returns, the sign-in call is the only
    call it has awaited and the background tasks (one event log after a
    failure; event log, last-login update and welcome email after a
    success) are still pending; each of them settles quietly later. *)
Theorem signIn_independent_of_background
    W1 (h1 : forall X, Call X -> W1 -> outcome X * W1) (w1 : W1)
    W2 (h2 : forall X, Call X -> W2 -> outcome X * W2) (w2 : W2)
    userAgent data :
  let sign_in :=
    auth_signInWithPassword (SignInData.email data)
      (SignInData.password data) in
  fst (h1 _ sign_in w1) = fst (h2 _ sign_in w2) ->
  let p := signIn userAgent data in
  result_of h1 p w1 = result_of h2 p w2
  /\ calls (trace_of h1 p w1) = [SignInWithPassword]
  /\ calls (trace_of h2 p w2) = [SignInWithPassword]
  /\ pending_of h1 p w1 = pending_of h2 p w2
  /\ (List.length (pending_of h1 p w1) = 1 \/ List.length (pending_of h1 p w1) = 3)
  /\ (forall t, In t (pending_of h1 p w1) ->
        is_background_task t
        /\ forall W (h : forall X, Call X -> W -> outcome X * W) w,
             result_of h t w = Returned tt).
Proof.
  cbv zeta. intros H.
  unfold result_of, trace_of, pending_of, signIn. simpl.
  destruct (h1 _ (auth_signInWithPassword (SignInData.email data)
                    (SignInData.password data)) w1) as [o1 w1'].
  destruct (h2 _ (auth_signInWithPassword (SignInData.email data)
                    (SignInData.password data)) w2) as [o2 w2'].
  simpl in H. subst o2.
  destruct o1 as [[user session [err|]]|ex]; [|destruct user as [u|]|]; simpl.
  all: do 4 (split; [reflexivity|]).
  all: split; [simpl; auto|].
  all: intros tk Hin; simpl in Hin.
  all: repeat (destruct Hin as [<- | Hin];
               [ split; [|intros; apply background_task_quiet];
                 unfold is_background_task; eauto 6 | ]).
  all: contradiction.
Qed.

(** The three tasks of a successful sign-in, run later against a provider
    whose background services are down. *)
Example signIn_background_calls :
  calls (fst (drain background_down
                (pending_of healthy
                   (signIn (js "Mozilla/5.0") alice_credentials) tt) tt))
  = [LogAuthEvent; UpdateUserLastLogin; SendLoginWelcomeEmail].
Proof. reflexivity. Qed.

Lemma signIn_independent_of_background_witness :
  result_of healthy (signIn (js "Mozilla/5.0") alice_credentials) tt
  = result_of background_down (signIn (js "Mozilla/5.0") alice_credentials) tt.
Proof.
  apply (signIn_independent_of_background healthy tt background_down tt
           (js "Mozilla/5.0") alice_credentials).
  reflexivity.
Defined.

(** ** changePassword *)

(** C10: [changePassword] updates the password only after verifying the
    current one.  A run that reaches the update call has first fetched a
    user with an email and signed in with that email and the supplied
    current password without error.  With no authenticated user, or none
    with an email, it returns 'No authenticated user found'; when the
    verification sign-in reports an error it returns 'Current password is
    incorrect'; in both cases with success false and no update call. *)
Theorem changePassword_verifies_first
    W (handle : forall X, Call X -> W -> outcome X * W)
    currentPassword newPassword (w : W) :
  let res := result_of handle (changePassword currentPassword newPassword) w in
  let tr := trace_of handle (changePassword currentPassword newPassword) w in
  (In UpdateUser (calls tr) ->
     exists u email r,
       first_answer getUser_answer tr = Some (Resolved (Some u))
       /\ User.email u = Some email
       /\ first_answer signIn_answer tr
          = Some (email, currentPassword, Resolved r)
       /\ AuthResponse.error r = None
       /\ calls tr = [GetUser; SignInWithPassword; UpdateUser])
  /\ (forall user,
        first_answer getUser_answer tr = Some (Resolved user) ->
        truthy_opt (email_of user) = false ->
        res = Returned (ChangeResult.mk
                          (Some (js "No authenticated user found")) false)
        /\ calls tr = [GetUser])
  /\ (forall email password r,
        first_answer signIn_answer tr = Some (email, password, Resolved r) ->
        AuthResponse.error r <> None ->
        res = Returned (ChangeResult.mk
                          (Some (js "Current password is incorrect")) false)
        /\ calls tr = [GetUser; SignInWithPassword]
        /\ password = currentPassword
        /\ exists u, first_answer getUser_answer tr = Some (Resolved (Some u))
                     /\ User.email u = Some email).
Proof.
  cbv zeta.
  apply (every_run_sound handle (changePassword currentPassword newPassword)
           (fun res tr _ =>
  (In UpdateUser (calls tr) ->
     exists u email r,
       first_answer getUser_answer tr = Some (Resolved (Some u))
       /\ User.email u = Some email
       /\ first_answer signIn_answer tr
          = Some (email, currentPassword, Resolved r)
       /\ AuthResponse.error r = None
       /\ calls tr = [GetUser; SignInWithPassword; UpdateUser])
  /\ (forall user,
        first_answer getUser_answer tr = Some (Resolved user) ->
        truthy_opt (email_of user) = false ->
        res = Returned (ChangeResult.mk
                          (Some (js "No authenticated user found")) false)
        /\ calls tr = [GetUser])
  /\ (forall email password r,
        first_answer signIn_answer tr = Some (email, password, Resolved r) ->
        AuthResponse.error r <> None ->
        res = Returned (ChangeResult.mk
                          (Some (js "Current password is incorrect")) false)
        /\ calls tr = [GetUser; SignInWithPassword]
        /\ password = currentPassword
        /\ exists u, first_answer getUser_answer tr = Some (Resolved (Some u))
                     /\ User.email u = Some email))).
  unfold changePassword.
  explore.
  all: split;
    [ intros H; simpl in H;
      repeat (destruct H as [H|H]; try discriminate H);
      try contradiction;
      do 3 eexists; repeat split
    | split;
      [ intros user' H1 H2; inversion H1; subst; simpl in H2;
        try discriminate H2; split; reflexivity
      | intros em pw rr H1 H2; simpl in H1; try discriminate H1;
        inversion H1; subst; simpl in H2;
        try (exfalso; apply H2; reflexivity);
        repeat split; eexists; split; reflexivity ] ].
Qed.

Lemma changePassword_verifies_first_witness :
  result_of wrong_password (changePassword (js "guess") (js "n3wpass")) tt
  = Returned (ChangeResult.mk (Some (js "Current password is incorrect")) false)
  /\ calls (trace_of wrong_password
              (changePassword (js "guess") (js "n3wpass")) tt)
     = [GetUser; SignInWithPassword].
Proof.
  pose proof (changePassword_verifies_first wrong_password
                (js "guess") (js "n3wpass") tt) as H.
  cbv zeta in H. destruct H as [_ [_ H]].
  destruct (H (js "alice@example.com") (js "guess")
              (AuthResponse.mk None None
                 (Some (AuthError.mk (js "Invalid login credentials")
                          (js "AuthApiError")))))
    as [Hres [Hcalls _]]; [reflexivity | discriminate |].
  split; assumption.
Defined.


(** ** checkAccountStatus *)

(** C9: [checkAccountStatus] fails open.  It makes one query and always
    returns.  When the query rejects, reports an error or finds no row,
    the answer is [{status: null, canLogin: true}].  When a row is found
    whose lowercased status is 'active', the answer is canLogin true with
    that status.  canLogin is false only when a row is found whose
    lowercased status is not 'active', and then a message greeting the
    user is set. *)
Theorem checkAccountStatus_fails_open
    W (handle : forall X, Call X -> W -> outcome X * W) toLowerCase email (w : W) :
  let res := result_of handle (checkAccountStatus toLowerCase email) w in
  let tr := trace_of handle (checkAccountStatus toLowerCase email) w in
  exists o r,
    tr = [Called (users_status_by_email (toLowerCase email)) o]
    /\ res = Returned r
    /\ (status_query_failed o -> r = proceed)
    /\ (forall row,
          o = Resolved (PostgrestResponse.mk (Some row) None) ->
          (option_map toLowerCase (StatusRow.status row) = Some (js "active") ->
           r = AccountStatus.mk (Value (js "active")) true None
                 (StatusRow.first_name row))
          /\ (option_map toLowerCase (StatusRow.status row) <> Some (js "active") ->
              AccountStatus.canLogin r = false
              /\ exists tail,
                   AccountStatus.message r
                   = Some (greeting (StatusRow.first_name row) ++ tail)))
    /\ (AccountStatus.canLogin r = false ->
        exists row,
          o = Resolved (PostgrestResponse.mk (Some row) None)
          /\ option_map toLowerCase (StatusRow.status row) <> Some (js "active")).
Proof.
  cbv zeta.
  apply (every_run_sound handle (checkAccountStatus toLowerCase email)
           (fun res tr _ =>
  exists o r,
    tr = [Called (users_status_by_email (toLowerCase email)) o]
    /\ res = Returned r
    /\ (status_query_failed o -> r = proceed)
    /\ (forall row,
          o = Resolved (PostgrestResponse.mk (Some row) None) ->
          (option_map toLowerCase (StatusRow.status row) = Some (js "active") ->
           r = AccountStatus.mk (Value (js "active")) true None
                 (StatusRow.first_name row))
          /\ (option_map toLowerCase (StatusRow.status row) <> Some (js "active") ->
              AccountStatus.canLogin r = false
              /\ exists tail,
                   AccountStatus.message r
                   = Some (greeting (StatusRow.first_name row) ++ tail)))
    /\ (AccountStatus.canLogin r = false ->
        exists row,
          o = Resolved (PostgrestResponse.mk (Some row) None)
          /\ option_map toLowerCase (StatusRow.status row) <> Some (js "active")))).
  unfold checkAccountStatus.
  assert (Hactive : forall o : option jsstring,
             o = Some (js "active") -> opt_is o (js "active") = false -> False).
  { intros o -> H. simpl in H. rewrite jsstring_eqb_refl in H. discriminate. }
  intros [[[row|] [err|]]|ex]; simpl.
  - (* a row and an error *)
    do 2 eexists. do 2 (split; [reflexivity|]).
    split; [reflexivity|]. split; [|discriminate].
    intros row' H. discriminate H.
  - (* a row and no error *)
    destruct (opt_is (option_map toLowerCase (StatusRow.status row)) (js "active"))
      eqn:E; simpl; do 2 eexists; do 2 (split; [reflexivity|]).
    + apply opt_is_true in E. split; [|split].
      * intros [H|H]; [contradiction H; reflexivity | discriminate H].
      * intros row' H. inversion H; subst row'.
        split; [intros _; rewrite E; reflexivity | intros H'; contradiction].
      * discriminate.
    + split; [|split].
      * intros [H|H]; [contradiction H; reflexivity | discriminate H].
      * intros row' H. inversion H; subst row'. split.
        -- intros H'. exfalso. exact (Hactive _ H' E).
        -- intros _. split; [reflexivity|]. simpl.
           repeat match goal with
                  | |- context [if ?c then _ else _] => destruct c
                  end; eexists; reflexivity.
      * intros _. exists row. split; [reflexivity|].
        intros H'. exact (Hactive _ H' E).
  - (* an error and no row *)
    do 2 eexists. do 2 (split; [reflexivity|]).
    split; [reflexivity|]. split; [|discriminate].
    intros row' H. discriminate H.
  - (* neither *)
    do 2 eexists. do 2 (split; [reflexivity|]).
    split; [reflexivity|]. split; [|discriminate].
    intros row' H. discriminate H.
  - (* the query rejected *)
    do 2 eexists. do 2 (split; [reflexivity|]).
    split; [reflexivity|]. split; [|discriminate].
    intros row' H. discriminate H.
Qed.

Lemma checkAccountStatus_fails_open_witness :
  result_of offline (checkAccountStatus ascii_toLowerCase
                       (js "Bob@Example.com")) tt
  = Returned proceed.
Proof.
  pose proof (checkAccountStatus_fails_open offline ascii_toLowerCase
                (js "Bob@Example.com") tt) as H.
  cbv zeta in H. destruct H as [o [r [Htr [Hres [Hfail _]]]]].
  rewrite Hres. f_equal. apply Hfail.
  apply (f_equal (first_answer status_answer)) in Htr. simpl in Htr.
  injection Htr as <-. exact I.
Defined.

(** A suspended account is told so, by first name. *)
Example checkAccountStatus_suspended :
  result_of with_bob (checkAccountStatus ascii_toLowerCase
                        (js "Bob@Example.com")) tt
  = Returned (AccountStatus.mk (Value (js "suspended")) false
                (Some (js "Hi Bob, your account has been suspended. Please contact support@vanguardcargo.co for assistance."))
                (Some (js "Bob"))).
Proof. reflexivity. Qed.


(** ** getUserProfile *)

(** C8, as stated, fails: the profile built from a fetched row is not
    the row's mirror, because [isEmailVerified] is set to true although
    no column feeds it. *)
Lemma getUserProfile_invents_isEmailVerified :
  result_of with_bob (getUserProfile (js "u-2")) tt
  <> Returned (Some (mirror_of_row bob_row))
  /\ exists u, result_of with_bob (getUserProfile (js "u-2")) tt
               = Returned (Some u)
               /\ AuthUser.isEmailVerified u = Some true.
Proof.
  split.
  - intros H. vm_compute in H. discriminate H.
  - eexists. split; reflexivity.
Qed.

(** C8, amended: for every row fetched without error, each of [id],
    [email], [firstName], [lastName], [role], [phone], [status],
    [suite_number], [streetAddress], [city], [country], [postalCode] and
    [avatarUrl] equals the column it mirrors; besides, [profileImage]
    repeats [avatar_url], [accountStatus] repeats [status],
    [usShippingAddressId] is undefined and [isEmailVerified] is the
    constant true, which is not read from the row. *)
Theorem getUserProfile_mirrors_row
    W (handle : forall X, Call X -> W -> outcome X * W) userId (w : W) row :
  first_answer profile_answer (trace_of handle (getUserProfile userId) w)
  = Some (Resolved (PostgrestResponse.mk (Some row) None)) ->
  exists u,
    result_of handle (getUserProfile userId) w = Returned (Some u)
    /\ AuthUser.id u = UsersRow.id row
    /\ AuthUser.email u = UsersRow.email row
    /\ AuthUser.firstName u = UsersRow.first_name row
    /\ AuthUser.lastName u = UsersRow.last_name row
    /\ AuthUser.role u = UsersRow.role row
    /\ AuthUser.phone u = UsersRow.phone_number row
    /\ AuthUser.status u = UsersRow.status row
    /\ AuthUser.suite_number u = UsersRow.suite_number row
    /\ AuthUser.streetAddress u = UsersRow.street_address row
    /\ AuthUser.city u = UsersRow.city row
    /\ AuthUser.country u = UsersRow.country row
    /\ AuthUser.postalCode u = UsersRow.postal_code row
    /\ AuthUser.avatarUrl u = UsersRow.avatar_url row
    /\ AuthUser.profileImage u = UsersRow.avatar_url row
    /\ AuthUser.accountStatus u = Some (UsersRow.status row)
    /\ AuthUser.usShippingAddressId u = None
    /\ AuthUser.isEmailVerified u = Some true.
Proof.
  apply (every_run_sound handle (getUserProfile userId)
           (fun res tr _ =>
  first_answer profile_answer tr
  = Some (Resolved (PostgrestResponse.mk (Some row) None)) ->
  exists u,
    res = Returned (Some u)
    /\ AuthUser.id u = UsersRow.id row
    /\ AuthUser.email u = UsersRow.email row
    /\ AuthUser.firstName u = UsersRow.first_name row
    /\ AuthUser.lastName u = UsersRow.last_name row
    /\ AuthUser.role u = UsersRow.role row
    /\ AuthUser.phone u = UsersRow.phone_number row
    /\ AuthUser.status u = UsersRow.status row
    /\ AuthUser.suite_number u = UsersRow.suite_number row
    /\ AuthUser.streetAddress u = UsersRow.street_address row
    /\ AuthUser.city u = UsersRow.city row
    /\ AuthUser.country u = UsersRow.country row
    /\ AuthUser.postalCode u = UsersRow.postal_code row
    /\ AuthUser.avatarUrl u = UsersRow.avatar_url row
    /\ AuthUser.profileImage u = UsersRow.avatar_url row
    /\ AuthUser.accountStatus u = Some (UsersRow.status row)
    /\ AuthUser.usShippingAddressId u = None
    /\ AuthUser.isEmailVerified u = Some true)).
  unfold getUserProfile.
  explore.
  all: intros H; simpl in H; inversion H; subst.
  eexists. repeat split.
Qed.

Lemma getUserProfile_mirrors_row_witness :
  exists u,
    result_of with_bob (getUserProfile (js "u-2")) tt = Returned (Some u)
    /\ AuthUser.phone u = Some (js "+233200000000")
    /\ AuthUser.isEmailVerified u = Some true.
Proof.
  destruct (getUserProfile_mirrors_row with_bob (js "u-2") tt (row := bob_row))
    as [u H].
  - reflexivity.
  - exists u. repeat split; apply H.
Defined.

(** ** PublicRoute *)

(** C6: for an authenticated user who is not loading and whose cached
    profile status is 'active', [PublicRoute] redirects to [redirectTo]
    ('/app' when the prop is omitted), replacing the history entry, unless
    the path is '/forgot-password' and the query parameter [step] is '3',
    where it renders its children. *)
Theorem PublicRoute_gates_on_active_status
    URLSearchParams_new redirectTo auth location profile :
  AuthState.isAuthenticated auth = true ->
  AuthState.isLoading auth = false ->
  AuthState.profile auth = Some profile ->
  AuthUser.status profile = js "active" ->
  let recovery_flow :=
    Location.pathname location = js "/forgot-password"
    /\ get (URLSearchParams_new (Location.search location)) (js "step")
       = Some (js "3") in
  (recovery_flow ->
   PublicRoute URLSearchParams_new redirectTo auth location
   = Fragment [Children])
  /\ (~ recovery_flow ->
      PublicRoute URLSearchParams_new redirectTo auth location
      = Navigate match redirectTo with
                 | Some r => r
                 | None => js "/app"
                 end true).
Proof.
  intros Hauth Hload Hprof Hstatus. cbv zeta.
  unfold PublicRoute. rewrite Hauth, Hload, Hprof. simpl.
  rewrite Hstatus, jsstring_eqb_refl. simpl.
  split.
  - intros [Hpath Hstep]. rewrite Hpath, Hstep. simpl.
    rewrite !jsstring_eqb_refl. reflexivity.
  - intros Hno.
    destruct (Location.pathname location === js "/forgot-password") eqn:Ep;
      [|reflexivity].
    destruct (opt_is (get (URLSearchParams_new (Location.search location))
                        (js "step")) (js "3")) eqn:Es; [|reflexivity].
    exfalso. apply Hno. split.
    + now apply jsstring_eqb_eq.
    + now apply opt_is_true.
Qed.

Lemma PublicRoute_gates_on_active_status_witness :
  PublicRoute URLSearchParams_plain None bob_signed_in
    (Location.mk (js "/forgot-password") (js "?step=3") [])
  = Fragment [Children]
  /\ PublicRoute URLSearchParams_plain None bob_signed_in
       (Location.mk (js "/login") [] [])
     = Navigate (js "/app") true.
Proof.
  split.
  - apply (PublicRoute_gates_on_active_status URLSearchParams_plain None
             bob_signed_in
             (Location.mk (js "/forgot-password") (js "?step=3") [])
             (profile := bob)); try reflexivity.
    split; reflexivity.
  - apply (PublicRoute_gates_on_active_status URLSearchParams_plain None
             bob_signed_in (Location.mk (js "/login") [] [])
             (profile := bob)); try reflexivity.
    intros [H _]. vm_compute in H. discriminate H.
Defined.

(** ** ReduxAuthGuard *)

Lemma trim_start_nil (s : jsstring) :
  trim_start s = [] <-> forallb is_white_space s = true.
Proof.
  induction s as [|c s IH]; simpl.
  - split; reflexivity.
  - destruct (is_white_space c); simpl; [exact IH|].
    split; discriminate.
Qed.

Lemma trim_start_head (s : jsstring) c r :
  trim_start s = c :: r -> is_white_space c = false.
Proof.
  induction s as [|d s IH]; simpl; [discriminate|].
  destruct (is_white_space d) eqn:E; [exact IH|].
  intros H. injection H as -> _. exact E.
Qed.

Lemma forallb_rev {A} (f : A -> bool) (l : list A) :
  forallb f (rev l) = forallb f l.
Proof.
  induction l as [|x l IH]; simpl; [reflexivity|].
  rewrite forallb_app, IH. simpl. rewrite andb_true_r. apply andb_comm.
Qed.

Lemma trim_nil (s : jsstring) :
  trim s = [] <-> forallb is_white_space s = true.
Proof.
  unfold trim. rewrite <- trim_start_nil. split.
  - intros H.
    assert (Hr : trim_start (rev (trim_start s)) = []).
    { destruct (trim_start (rev (trim_start s))) as [|x l]; [reflexivity|].
      simpl in H. destruct (rev l); discriminate H. }
    apply trim_start_nil in Hr. rewrite forallb_rev in Hr.
    destruct (trim_start s) as [|c r] eqn:E; [reflexivity|].
    apply trim_start_head in E. simpl in Hr. rewrite E in Hr. discriminate Hr.
  - intros ->. reflexivity.
Qed.

(** [hasPhone] is false exactly when the phone is missing. *)
Lemma hasPhone_false (profile : option AuthUser.t) :
  hasPhone profile = false <-> phone_missing profile.
Proof.
  unfold hasPhone, phone_missing.
  destruct profile as [p|]; [|split; reflexivity].
  destruct (AuthUser.phone p) as [phone|]; [|split; reflexivity].
  rewrite <- trim_nil. unfold strlen.
  destruct (trim phone) as [|c r] eqn:E.
  - simpl. rewrite andb_false_r. split; reflexivity.
  - destruct phone as [|d phone']; [discriminate E|].
    simpl. split; discriminate.
Qed.

Lemma truthy_id (user : option User.t) :
  truthy_opt (option_map User.id user) = true <-> has_id user.
Proof.
  unfold has_id. destruct user as [[i e]|]; simpl.
  - destruct i as [|c i]; simpl.
    + split; [discriminate|]. intros [u [H Hne]]. injection H as <-.
      contradiction Hne. reflexivity.
    + split; [|reflexivity]. intros _. eexists. split; [reflexivity|].
      discriminate.
  - split; [discriminate|]. intros [u [H _]]. discriminate H.
Qed.

(** C7: [ReduxAuthGuard] renders a loading screen while auth is not
    initialized; once initialized, an unauthenticated visitor gets
    nothing rendered and is redirected to '/login'; an authenticated user
    gets the protected children, overlaid with the phone collection modal
    exactly when the user has an id and the cached profile phone is
    absent, empty or whitespace-only. *)
Theorem ReduxAuthGuard_enforces_phone
    W (handle : forall X, Call X -> W -> outcome X * W) (w : W)
    auth location :
  (AuthState.isInitialized auth = false ->
   ReduxAuthGuard auth = LoadingScreen (js "Checking authentication..."))
  /\ (AuthState.isInitialized auth = true ->
      AuthState.isAuthenticated auth = false ->
      ReduxAuthGuard auth = RenderNull
      /\ effects (trace_of handle (ReduxAuthGuard_effects auth location) w)
         = [navigate_from (js "/login") true (Location.pathname location)])
  /\ (AuthState.isInitialized auth = true ->
      AuthState.isAuthenticated auth = true ->
      exists overlay,
        ReduxAuthGuard auth = Fragment (Children :: overlay)
        /\ (overlay = [PhoneNumberCollectionModal]
            <-> has_id (AuthState.user auth)
                /\ phone_missing (AuthState.profile auth))
        /\ (overlay = []
            <-> ~ (has_id (AuthState.user auth)
                   /\ phone_missing (AuthState.profile auth)))).
Proof.
  unfold ReduxAuthGuard, ReduxAuthGuard_effects, trace_of.
  split; [|split].
  - intros ->. reflexivity.
  - intros -> ->. split; reflexivity.
  - intros -> ->. simpl.
    pose proof (hasPhone_false (AuthState.profile auth)) as Hphone.
    pose proof (truthy_id (AuthState.user auth)) as Hid.
    destruct (hasPhone (AuthState.profile auth));
      destruct (truthy_opt (option_map User.id (AuthState.user auth)));
      simpl; eexists; (split; [reflexivity|]); split; split;
      try discriminate; try reflexivity.
    all: try (intros [H1 H2]).
    all: try (intros H; intros [H1 H2]).
    all: try (apply Hphone in H2; discriminate H2).
    all: try (apply Hid in H1; discriminate H1).
    all: try (intros _; split; [apply Hid | apply Hphone]; reflexivity).
    all: try (intros H; exfalso; apply H; split;
              [apply Hid | apply Hphone]; reflexivity).
Qed.

Lemma ReduxAuthGuard_enforces_phone_witness :
  ReduxAuthGuard signed_out = RenderNull
  /\ effects (trace_of offline
                (ReduxAuthGuard_effects signed_out
                   (Location.mk (js "/app/shipments") [] [])) tt)
     = [navigate_from (js "/login") true (js "/app/shipments")].
Proof.
  pose proof (ReduxAuthGuard_enforces_phone offline tt signed_out
                (Location.mk (js "/app/shipments") [] [])) as H.
  destruct H as [_ [H _]]. apply H; reflexivity.
Defined.

(** A blank phone brings the modal up; a real one does not. *)
Example ReduxAuthGuard_blank_phone :
  ReduxAuthGuard bob_signed_in_blank_phone
  = Fragment [Children; PhoneNumberCollectionModal]
  /\ ReduxAuthGuard bob_signed_in = Fragment [Children].
Proof. split; reflexivity. Qed.

(** ** AuthCallback *)

Example recovery_hash_parsed :
  URLSearchParams_plain
    (substring_from 1 (js "#type=recovery&access_token=a&refresh_token=b"))
  = [(js "type", js "recovery"); (js "access_token", js "a");
     (js "refresh_token", js "b")].
Proof. reflexivity. Qed.

(** C5, as stated, fails: a hash that carries [type=recovery], both
    tokens and an [error_description] never reaches [setSession]; the
    handler shows the description and goes to '/login'. *)
Lemma recovery_hash_with_error_description :
  let hash :=
    js "#type=recovery&access_token=a&refresh_token=b&error_description=Link+expired" in
  let params := URLSearchParams_plain (substring_from 1 hash) in
  let tr := trace_of healthy (handleAuthCallback URLSearchParams_plain hash) tt in
  get params (js "type") = Some (js "recovery")
  /\ get params (js "access_token") = Some (js "a")
  /\ get params (js "refresh_token") = Some (js "b")
  /\ calls tr = []
  /\ effects tr = [setError (Some (js "Link expired"));
                   setTimeout (navigate (js "/login") false) 3000].
Proof. cbv zeta. repeat split; vm_compute; reflexivity. Qed.

(** C5, amended: for every hash whose parameters hold [type=recovery],
    a non-empty [access_token], a non-empty [refresh_token] and no
    non-empty [error_description], the handler calls [setSession] with
    the two tokens before any other call; when that resolves with a
    session and no error it pauses 500 ms and navigates to
    '/forgot-password?step=3'; when it resolves with an error it shows
    the expired-or-invalid-link message and schedules the navigation to
    '/forgot-password' 3000 ms later. *)
Theorem recovery_callback_exchanges_tokens
    W (handle : forall X, Call X -> W -> outcome X * W) (w : W)
    URLSearchParams_new hash access refresh :
  let params := URLSearchParams_new (substring_from 1 hash) in
  get params (js "type") = Some (js "recovery") ->
  get params (js "access_token") = Some access -> access <> [] ->
  get params (js "refresh_token") = Some refresh -> refresh <> [] ->
  truthy_opt (get params (js "error_description")) = false ->
  let tr := trace_of handle (handleAuthCallback URLSearchParams_new hash) w in
  exists o,
    first_answer setSession_answer tr = Some (access, refresh, o)
    /\ (exists rest, calls tr = SetSession :: rest)
    /\ (forall r s,
          o = Resolved r ->
          SessionResponse.error r = None ->
          SessionResponse.session r = Some s ->
          calls tr = [SetSession]
          /\ effects tr
             = [setCallbackType recovery;
                setStatus (js "Processing password reset...");
                setStatus (js "Redirecting to password reset...");
                sleep 500;
                navigate (js "/forgot-password?step=3") true])
    /\ (forall r e,
          o = Resolved r ->
          SessionResponse.error r = Some e ->
          calls tr = [SetSession]
          /\ effects tr
             = [setCallbackType recovery;
                setStatus (js "Processing password reset...");
                setError (Some expired_link);
                setTimeout (navigate (js "/forgot-password") false) 3000]).
Proof.
  cbv zeta. intros Htype Haccess Hne1 Hrefresh Hne2 Herr.
  apply (every_run_sound handle (handleAuthCallback URLSearchParams_new hash)
           (fun _ tr _ =>
  exists o,
    first_answer setSession_answer tr = Some (access, refresh, o)
    /\ (exists rest, calls tr = SetSession :: rest)
    /\ (forall r s,
          o = Resolved r ->
          SessionResponse.error r = None ->
          SessionResponse.session r = Some s ->
          calls tr = [SetSession]
          /\ effects tr
             = [setCallbackType recovery;
                setStatus (js "Processing password reset...");
                setStatus (js "Redirecting to password reset...");
                sleep 500;
                navigate (js "/forgot-password?step=3") true])
    /\ (forall r e,
          o = Resolved r ->
          SessionResponse.error r = Some e ->
          calls tr = [SetSession]
          /\ effects tr
             = [setCallbackType recovery;
                setStatus (js "Processing password reset...");
                setError (Some expired_link);
                setTimeout (navigate (js "/forgot-password") false) 3000]))).
  unfold handleAuthCallback.
  rewrite Htype, Haccess, Hrefresh.
  destruct access as [|a access]; [contradiction Hne1; reflexivity|].
  destruct refresh as [|b refresh]; [contradiction Hne2; reflexivity|].
  destruct (get (URLSearchParams_new (substring_from 1 hash))
              (js "error_description")) as [[|c d]|];
    try discriminate Herr.
  all: simpl; rewrite jsstring_eqb_refl.
  all: explore; simpl.
  all: eexists; split; [reflexivity|]; split; [eexists; reflexivity|].
  all: split; intros r' x Ho H1; try intros H2;
    inversion Ho; subst r'; simpl in *; try discriminate;
    split; reflexivity.
Qed.

Lemma recovery_callback_exchanges_tokens_witness :
  effects (trace_of expired_token
             (handleAuthCallback URLSearchParams_plain
                (js "#type=recovery&access_token=a&refresh_token=b")) tt)
  = [setCallbackType recovery;
     setStatus (js "Processing password reset...");
     setError (Some expired_link);
     setTimeout (navigate (js "/forgot-password") false) 3000].
Proof.
  assert (Hne : forall s, s = js "a" \/ s = js "b" -> s <> []).
  { intros s [-> | ->]; vm_compute; discriminate. }
  pose proof (recovery_callback_exchanges_tokens expired_token tt
                URLSearchParams_plain
                (js "#type=recovery&access_token=a&refresh_token=b")
                (access := js "a") (refresh := js "b")
                eq_refl eq_refl (Hne _ (or_introl eq_refl))
                eq_refl (Hne _ (or_intror eq_refl)) eq_refl) as H.
  cbv zeta in H. destruct H as [o [Ho [_ [_ H]]]].
  vm_compute in Ho. injection Ho as <-.
  eapply H; reflexivity.
Defined.

(** ** Error branches of the auth UI *)

(** C2, as stated, fails on both counts: an error branch of the security
    settings form shows its message and schedules no navigation at all,
    and the auth callback schedules its redirect after 2000 ms when no
    session is found but after 3000 ms when the link has expired. *)
Lemma error_branches_not_uniform :
  let form :=
    effects (trace_of healthy (handleSubmit None (Passwords.mk [] [] [])) tt) in
  let missing :=
    effects (trace_of no_session
               (handleAuthCallback URLSearchParams_plain []) tt) in
  let expired :=
    effects (trace_of expired_token
               (handleAuthCallback URLSearchParams_plain
                  (js "#type=recovery&access_token=a&refresh_token=b")) tt) in
  error_messages form = [js "User not authenticated"]
  /\ scheduled_navigations form = []
  /\ error_messages missing = [js "No session found. Redirecting to login..."]
  /\ scheduled_navigations missing = [(js "/login", 2000%Z)]
  /\ error_messages expired = [expired_link]
  /\ scheduled_navigations expired = [(js "/forgot-password", 3000%Z)].
Proof. cbv zeta. repeat split; vm_compute; reflexivity. Qed.

Lemma handleAuthCallback_error_branches
    W (handle : forall X, Call X -> W -> outcome X * W) (w : W)
    URLSearchParams_new hash :
  let cb :=
    effects (trace_of handle (handleAuthCallback URLSearchParams_new hash) w) in
  forall m, In m (error_messages cb) ->
    exists to delay,
      error_messages cb = [m]
      /\ scheduled_navigations cb = [(to, delay)]
      /\ filter navigation cb = []
      /\ (to = js "/login" \/ to = js "/forgot-password")
      /\ (delay = 3000%Z
          \/ delay = 2000%Z
             /\ m = js "No session found. Redirecting to login...").
Proof.
  cbv zeta.
  apply (every_run_sound handle (handleAuthCallback URLSearchParams_new hash)
           (fun _ tr _ =>
  forall m, In m (error_messages (effects tr)) ->
    exists to delay,
      error_messages (effects tr) = [m]
      /\ scheduled_navigations (effects tr) = [(to, delay)]
      /\ filter navigation (effects tr) = []
      /\ (to = js "/login" \/ to = js "/forgot-password")
      /\ (delay = 3000%Z
          \/ delay = 2000%Z
             /\ m = js "No session found. Redirecting to login..."))).
  unfold handleAuthCallback.
  generalize (URLSearchParams_new (substring_from 1 hash)). intros params.
  destruct (get params (js "error_description")) as [[|c d]|];
    destruct (opt_is (get params (js "type")) (js "recovery"));
    destruct (get params (js "access_token")) as [[|a access]|];
    destruct (get params (js "refresh_token")) as [[|b refresh]|].
  all: explore; simpl.
  all: intros m Hin; repeat (destruct Hin as [<- | Hin]); try contradiction.
  all: do 2 eexists; repeat split; auto.
Qed.

Lemma handleSubmit_error_branches
    W (handle : forall X, Call X -> W -> outcome X * W) (w : W)
    user passwords :
  let form := effects (trace_of handle (handleSubmit user passwords) w) in
  scheduled_navigations form = []
  /\ filter navigation form = []
  /\ (error_messages form <> []
      \/ In (setSuccessMessage (Some (js "Password changed successfully!")))
           form).
Proof.
  cbv zeta.
  apply (every_run_sound handle (handleSubmit user passwords)
           (fun _ tr _ =>
  scheduled_navigations (effects tr) = []
  /\ filter navigation (effects tr) = []
  /\ (error_messages (effects tr) <> []
      \/ In (setSuccessMessage (Some (js "Password changed successfully!")))
           (effects tr)))).
  unfold handleSubmit, changePassword.
  destruct passwords as [cur new confirm]. simpl.
  destruct user as [u|]; [|simpl; repeat split; left; discriminate].
  destruct cur as [|c1 cur]; [simpl; repeat split; left; discriminate|].
  destruct new as [|c2 new]; [simpl; repeat split; left; discriminate|].
  destruct confirm as [|c3 confirm];
    [simpl; repeat split; left; discriminate|].
  simpl truthy. cbv iota beta. simpl negb at 1 2 3. cbv iota.
  destruct (negb (c2 :: new === c3 :: confirm));
    [simpl; repeat split; left; discriminate|].
  destruct (strlen (c2 :: new) <? 6)%Z;
    [simpl; repeat split; left; discriminate|].
  destruct (negb (has_digit (c2 :: new)));
    [simpl; repeat split; left; discriminate|].
  explore; simpl.
  all: repeat split; first [left; discriminate | right; simpl; auto 10].
Qed.

(** C2, amended: every error branch of the auth callback sets exactly
    one error message and leaves exactly one navigation to a timer, to
    '/login' or '/forgot-password', after 3000 ms, or after 2000 ms in the
    branch that found no session; it navigates nowhere at once.  The
    security settings form never navigates, at once or by a timer: each of
    its runs either sets an error message or reports the password
    changed. *)
Theorem error_branches_of_auth_ui
    W (handle : forall X, Call X -> W -> outcome X * W) (w : W)
    URLSearchParams_new hash user passwords :
  let cb :=
    effects (trace_of handle (handleAuthCallback URLSearchParams_new hash) w) in
  let form := effects (trace_of handle (handleSubmit user passwords) w) in
  (forall m, In m (error_messages cb) ->
     exists to delay,
       error_messages cb = [m]
       /\ scheduled_navigations cb = [(to, delay)]
       /\ filter navigation cb = []
       /\ (to = js "/login" \/ to = js "/forgot-password")
       /\ (delay = 3000%Z
           \/ delay = 2000%Z
              /\ m = js "No session found. Redirecting to login..."))
  /\ scheduled_navigations form = []
  /\ filter navigation form = []
  /\ (error_messages form <> []
      \/ In (setSuccessMessage (Some (js "Password changed successfully!")))
           form).
Proof.
  cbv zeta. split.
  - apply handleAuthCallback_error_branches.
  - apply handleSubmit_error_branches.
Qed.

Lemma error_branches_of_auth_ui_witness :
  exists to delay,
    scheduled_navigations
      (effects (trace_of no_session
                  (handleAuthCallback URLSearchParams_plain []) tt))
    = [(to, delay)]
    /\ (delay = 3000%Z
        \/ delay = 2000%Z
           /\ js "No session found. Redirecting to login..."
              = js "No session found. Redirecting to login...").
Proof.
  pose proof (error_branches_of_auth_ui no_session tt URLSearchParams_plain
                [] None (Passwords.mk [] [] [])) as H.
  cbv zeta in H. destruct H as [H _].
  destruct (H (js "No session found. Redirecting to login..."))
    as [to [delay [_ [Hnav [_ [_ Hdelay]]]]]].
  - left. reflexivity.
  - exists to, delay. split; assumption.
Defined.

(** * Further properties of the code *)

(** ** The service never rejects *)

(** X1: Every method of the service settles by returning: a rejection of
    any awaited call is turned into an error value or a null. *)
Theorem service_never_rejects
    W (handle : forall X, Call X -> W -> outcome X * W) (w : W)
    toLowerCase userAgent signUpData signInData currentPassword newPassword
    userId email password metadata oauthUser :
  (exists r, result_of handle (signUp toLowerCase signUpData) w = Returned r)
  /\ (exists r, result_of handle (signIn userAgent signInData) w = Returned r)
  /\ (exists r, result_of handle (changePassword currentPassword newPassword) w
                = Returned r)
  /\ (exists r, result_of handle (getUserProfile userId) w = Returned r)
  /\ (exists r, result_of handle (checkAccountStatus toLowerCase email) w
                = Returned r)
  /\ (exists r, result_of handle getCurrentUser w = Returned r)
  /\ (exists r, result_of handle getSession w = Returned r)
  /\ (exists r, result_of handle (updatePassword password) w = Returned r)
  /\ (exists r, result_of handle (createUserProfile userId email metadata) w
                = Returned r)
  /\ (exists r, result_of handle (handleOAuthSignIn oauthUser) w = Returned r).
Proof.
  repeat split.
  - apply (every_run_sound handle (signUp toLowerCase signUpData)
             (fun res _ _ => exists r, res = Returned r)).
    unfold signUp, cleanupOrphanedAuthUser. explore; simpl; eexists; reflexivity.
  - apply (every_run_sound handle (signIn userAgent signInData)
             (fun res _ _ => exists r, res = Returned r)).
    unfold signIn. explore; simpl; eexists; reflexivity.
  - apply (every_run_sound handle (changePassword currentPassword newPassword)
             (fun res _ _ => exists r, res = Returned r)).
    unfold changePassword. explore; simpl; eexists; reflexivity.
  - apply (every_run_sound handle (getUserProfile userId)
             (fun res _ _ => exists r, res = Returned r)).
    unfold getUserProfile. explore; simpl; eexists; reflexivity.
  - apply (every_run_sound handle (checkAccountStatus toLowerCase email)
             (fun res _ _ => exists r, res = Returned r)).
    unfold checkAccountStatus. explore; simpl.
    all: try (eexists; reflexivity).
    all: destruct (opt_is _ _); simpl; eexists; reflexivity.
  - apply (every_run_sound handle getCurrentUser
             (fun res _ _ => exists r, res = Returned r)).
    unfold getCurrentUser. explore; simpl; eexists; reflexivity.
  - apply (every_run_sound handle getSession
             (fun res _ _ => exists r, res = Returned r)).
    unfold getSession. explore; simpl; eexists; reflexivity.
  - apply (every_run_sound handle (updatePassword password)
             (fun res _ _ => exists r, res = Returned r)).
    unfold updatePassword. explore; simpl; eexists; reflexivity.
  - apply (every_run_sound handle (createUserProfile userId email metadata)
             (fun res _ _ => exists r, res = Returned r)).
    unfold createUserProfile. explore; simpl; eexists; reflexivity.
  - apply (every_run_sound handle (handleOAuthSignIn oauthUser)
             (fun res _ _ => exists r, res = Returned r)).
    unfold handleOAuthSignIn, getUserProfile.
    explore; simpl; eexists; reflexivity.
Qed.

(** ** createUserProfile *)

(** X2: [createUserProfile] answers a null error exactly when the profile
    RPC resolved with no error and a successful result; with a null or
    undefined [metadata] it answers an error without calling the RPC. *)
Theorem createUserProfile_error_null_iff_created
    W (handle : forall X, Call X -> W -> outcome X * W) (w : W)
    userId email metadata :
  let res := result_of handle (createUserProfile userId email metadata) w in
  let tr := trace_of handle (createUserProfile userId email metadata) w in
  (res = Returned None <-> profile_created tr)
  /\ (metadata = None ->
      res = Returned (Some (js "Failed to create user profile")) /\ tr = [])
  /\ (metadata <> None -> calls tr = [CreateUserProfileSecure]).
Proof.
  cbv zeta.
  apply (every_run_sound handle (createUserProfile userId email metadata)
           (fun res tr _ =>
              (res = Returned None <-> profile_created tr)
              /\ (metadata = None ->
                  res = Returned (Some (js "Failed to create user profile"))
                  /\ tr = [])
              /\ (metadata <> None -> calls tr = [CreateUserProfileSecure]))).
  unfold createUserProfile. explore; simpl.
  all: unfold profile_created; simpl.
  all: split; [split|split].
  all: try discriminate.
  all: try (intros _; eexists; reflexivity).
  all: try (intros [? H]; discriminate H).
  all: try (intros _; reflexivity).
  all: try (intros H; contradiction H; reflexivity).
  all: try (intros _; split; reflexivity).
Qed.

Lemma createUserProfile_payload
    W (handle : forall X, Call X -> W -> outcome X * W) (w : W)
    userId email m :
  first_answer createProfile_payload
    (trace_of handle (createUserProfile userId email (Some m)) w)
  = Some (RpcPayload.mk userId (Some email)
            (opt_or_else (opt_or (ProfileMetadata.first_name m)
                            (ProfileMetadata.firstName m)) (js "User"))
            (opt_or_else (opt_or (ProfileMetadata.last_name m)
                            (ProfileMetadata.lastName m)) (js "Name"))
            (or_null (opt_or (ProfileMetadata.phone_number m)
                        (ProfileMetadata.phone m)))
            (val_or_null (val_or (ProfileMetadata.street_address m)
                            (ProfileMetadata.streetAddress m)))
            (val_or_null (ProfileMetadata.city m))
            (val_or_null (ProfileMetadata.country m))
            (val_or_null (val_or (ProfileMetadata.postal_code m)
                            (ProfileMetadata.postalCode m)))).
Proof.
  unfold trace_of, createUserProfile. simpl.
  destruct (handle _ _ w) as [o w'].
  destruct (run handle _ w') as [[[res tr] ts] w'']. reflexivity.
Qed.

Lemma opt_or_none (a : option jsstring) : or_null (opt_or a None) = or_null a.
Proof. unfold or_null, opt_or. destruct (truthy_opt a) eqn:E; [rewrite E|]; reflexivity. Qed.

Lemma opt_or_else_some (a d : jsstring) :
  opt_or_else (opt_or (Some a) None) d = or_else a d.
Proof. unfold opt_or_else, opt_or, or_else. simpl. destruct (truthy a) eqn:E; [rewrite E|]; reflexivity. Qed.

Lemma val_or_undefined (v : jsval) :
  val_or_null (val_or v VUndefined) = val_or_null v.
Proof. unfold val_or_null, val_or. destruct (truthy_val v) eqn:E; [rewrite E|]; reflexivity. Qed.

(** X3: The fallback [createUserProfile], fed the metadata a sign-up
    stored, sends the profile RPC the payload [signUp] itself sends for
    the user the provider created. *)
Theorem createUserProfile_agrees_with_signUp
    W1 (h1 : forall X, Call X -> W1 -> outcome X * W1) (w1 : W1)
    W2 (h2 : forall X, Call X -> W2 -> outcome X * W2) (w2 : W2)
    toLowerCase data u email stored :
  let tr1 := trace_of h1 (signUp toLowerCase data) w1 in
  auth_signup_succeeded tr1 u ->
  User.email u = Some email ->
  first_answer signUp_payload tr1 = Some stored ->
  let tr2 :=
    trace_of h2 (createUserProfile (User.id u) email
                   (Some (user_metadata_of stored))) w2 in
  exists payload,
    first_answer createProfile_payload tr1 = Some payload
    /\ first_answer createProfile_payload tr2 = Some payload.
Proof.
  cbv zeta. intros Hok Hemail Hstored.
  rewrite createUserProfile_payload.
  revert Hok Hstored.
  apply (every_run_sound h1 (signUp toLowerCase data)
           (fun _ tr1 _ =>
  auth_signup_succeeded tr1 u ->
  first_answer signUp_payload tr1 = Some stored ->
  exists payload,
    first_answer createProfile_payload tr1 = Some payload
    /\ Some _ = Some payload)).
  unfold signUp, cleanupOrphanedAuthUser. explore; simpl.
  all: unfold auth_signup_succeeded; simpl.
  all: intros [s Hs] Hst; try discriminate Hs.
  all: inversion Hs; subst; inversion Hst; subst; clear Hs Hst.
  all: eexists; split; [reflexivity|].
  all: simpl; rewrite !opt_or_else_some, !opt_or_none, !val_or_undefined.
  all: rewrite Hemail; reflexivity.
Qed.

Lemma createUserProfile_agrees_with_signUp_witness :
  exists payload,
    first_answer createProfile_payload
      (trace_of healthy (signUp ascii_toLowerCase carol_data) tt)
    = Some payload
    /\ RpcPayload.last_name payload = js "Name".
Proof.
  destruct (createUserProfile_agrees_with_signUp healthy tt healthy tt
              ascii_toLowerCase carol_data (u := alice)
              (email := js "alice@example.com")
              (stored := SignupPayload.mk (js "carol@example.com")
                           (js "s3cret") (js "Carol") [] None
                           (VStr (js "1 Main St")) (VStr (js "Accra"))
                           (VStr (js "GH")) VNull))
    as [payload [H1 H2]].
  - exists None. reflexivity.
  - reflexivity.
  - reflexivity.
  - exists payload. split; [exact H1|].
    vm_compute in H2. injection H2 as <-. reflexivity.
Defined.

(** ** handleOAuthSignIn *)









(** ** The audit trail of signIn *)

(** X6: Every run of [signIn] starts exactly one auth-event log.  The event
    is 'login_success' with status 'success' and the user's id exactly
    when a user is returned; otherwise it is 'login_failed' with status
    'failure', no user id and a non-empty error message.  The session
    id it carries is never longer than 20 code units. *)
Theorem signIn_logs_one_event
    W (handle : forall X, Call X -> W -> outcome X * W) (w : W)
    userAgent data :
  let res := result_of handle (signIn userAgent data) w in
  let pending := pending_of handle (signIn userAgent data) w in
  exists eventType params r,
    audit_events pending = [(eventType, params)]
    /\ res = Returned r
    /\ AuthEventParams.p_user_email params = Some (SignInData.email data)
    /\ AuthEventParams.p_user_agent params = userAgent
    /\ (forall s, AuthEventParams.p_session_id params = Some s ->
                  (strlen s <= 20)%Z)
    /\ match AuthResult.user r with
       | Some u =>
           eventType = js "login_success"
           /\ AuthEventParams.p_status params = js "success"
           /\ AuthEventParams.p_user_id params = Some (User.id u)
           /\ AuthEventParams.p_error_message params = None
       | None =>
           eventType = js "login_failed"
           /\ AuthEventParams.p_status params = js "failure"
           /\ AuthEventParams.p_user_id params = None
           /\ AuthEventParams.p_session_id params = None
           /\ exists m, AuthEventParams.p_error_message params = Some m
                        /\ m <> []
       end.
Proof.
  cbv zeta.
  assert (Hlen : forall s : jsstring, (strlen (substring 0 20 s) <= 20)%Z).
  { intros s. unfold strlen, substring.
    pose proof (firstn_le_length (20 - 0) (skipn 0 s)) as H.
    change (20 - 0) with 20 in *. lia. }
  assert (Hor : forall a : jsstring, or_else a (js "Login failed") <> []).
  { intros a. unfold or_else. destruct a; simpl; [|discriminate].
    vm_compute. discriminate. }
  apply (every_run_sound handle (signIn userAgent data)
           (fun res _ pending =>
  exists eventType params r,
    audit_events pending = [(eventType, params)]
    /\ res = Returned r
    /\ AuthEventParams.p_user_email params = Some (SignInData.email data)
    /\ AuthEventParams.p_user_agent params = userAgent
    /\ (forall s, AuthEventParams.p_session_id params = Some s ->
                  (strlen s <= 20)%Z)
    /\ match AuthResult.user r with
       | Some u =>
           eventType = js "login_success"
           /\ AuthEventParams.p_status params = js "success"
           /\ AuthEventParams.p_user_id params = Some (User.id u)
           /\ AuthEventParams.p_error_message params = None
       | None =>
           eventType = js "login_failed"
           /\ AuthEventParams.p_status params = js "failure"
           /\ AuthEventParams.p_user_id params = None
           /\ AuthEventParams.p_session_id params = None
           /\ exists m, AuthEventParams.p_error_message params = Some m
                        /\ m <> []
       end)).
  unfold signIn. explore; simpl.
  all: do 3 eexists; split; [reflexivity|]; split; [reflexivity|]; simpl.
  all: repeat split; try discriminate.
  all: try (intros s' Hs; injection Hs as <-; apply Hlen).
  all: try (eexists; split; [reflexivity|]; first [apply Hor | vm_compute; discriminate]).
  intros s' Hs. destruct session as [ss|]; [|discriminate Hs].
  injection Hs as <-. apply Hlen.
Qed.

(** ** The profile signUp creates *)

(** X7: Whenever [signUp] calls the profile RPC, it does so for the user the
    provider just created (same id and email), with a non-empty first
    and last name ('User' and 'Name' standing in for empty ones), and
    with null in place of an empty phone or a falsy address field. *)
Theorem signUp_profile_payload
    W (handle : forall X, Call X -> W -> outcome X * W) (w : W)
    toLowerCase data payload :
  let tr := trace_of handle (signUp toLowerCase data) w in
  first_answer createProfile_payload tr = Some payload ->
  (exists u, auth_signup_succeeded tr u
             /\ RpcPayload.user_id payload = User.id u
             /\ RpcPayload.email payload = User.email u)
  /\ RpcPayload.first_name payload
     = (if truthy (SignUpData.firstName data) then SignUpData.firstName data
        else js "User")
  /\ RpcPayload.last_name payload
     = (if truthy (SignUpData.lastName data) then SignUpData.lastName data
        else js "Name")
  /\ RpcPayload.first_name payload <> []
  /\ RpcPayload.last_name payload <> []
  /\ RpcPayload.phone_number payload <> Some []
  /\ Forall (fun v => v = VNull \/ truthy_val v = true)
       [RpcPayload.street_address payload; RpcPayload.city payload;
        RpcPayload.country payload; RpcPayload.postal_code payload].
Proof.
  cbv zeta.
  assert (Hor : forall a d : jsstring, d <> [] -> or_else a d <> []).
  { intros a d Hd. unfold or_else. destruct a; simpl; [exact Hd|discriminate]. }
  assert (Hnull : forall p, or_null p <> Some []).
  { intros [[|c p]|]; unfold or_null; simpl; discriminate. }
  assert (Hval : forall v, val_or_null v = VNull
                           \/ truthy_val (val_or_null v) = true).
  { intros v. unfold val_or_null. destruct (truthy_val v) eqn:E; auto. }
  apply (every_run_sound handle (signUp toLowerCase data)
           (fun _ tr _ =>
  first_answer createProfile_payload tr = Some payload ->
  (exists u, auth_signup_succeeded tr u
             /\ RpcPayload.user_id payload = User.id u
             /\ RpcPayload.email payload = User.email u)
  /\ RpcPayload.first_name payload
     = (if truthy (SignUpData.firstName data) then SignUpData.firstName data
        else js "User")
  /\ RpcPayload.last_name payload
     = (if truthy (SignUpData.lastName data) then SignUpData.lastName data
        else js "Name")
  /\ RpcPayload.first_name payload <> []
  /\ RpcPayload.last_name payload <> []
  /\ RpcPayload.phone_number payload <> Some []
  /\ Forall (fun v => v = VNull \/ truthy_val v = true)
       [RpcPayload.street_address payload; RpcPayload.city payload;
        RpcPayload.country payload; RpcPayload.postal_code payload])).
  unfold signUp, cleanupOrphanedAuthUser. explore; simpl.
  all: intros H; try discriminate H; injection H as <-; simpl.
  all: split; [eexists; split; [eexists; reflexivity|split; reflexivity]|].
  all: split; [reflexivity|]; split; [reflexivity|].
  all: split; [apply Hor; vm_compute; discriminate|].
  all: split; [apply Hor; vm_compute; discriminate|].
  all: split; [apply Hnull|].
  all: repeat (apply Forall_cons; [apply Hval|]); apply Forall_nil.
Qed.

Lemma signUp_profile_payload_witness :
  exists payload,
    first_answer createProfile_payload
      (trace_of healthy (signUp ascii_toLowerCase carol_data) tt) = Some payload
    /\ RpcPayload.first_name payload = js "Carol"
    /\ RpcPayload.last_name payload = js "Name".
Proof.
  eexists. split; [reflexivity|].
  pose proof (signUp_profile_payload healthy tt ascii_toLowerCase carol_data
                eq_refl) as H.
  cbv zeta in H. destruct H as [_ [H1 [H2 _]]].
  split; [exact H1 | exact H2].
Defined.

(** ** SecuritySettings *)

Opaque has_digit strlen jsstring_eqb.

Lemma handleSubmit_calls_iff
    W (handle : forall X, Call X -> W -> outcome X * W) (w : W)
    user passwords :
  let tr := trace_of handle (handleSubmit user passwords) w in
  let new := Passwords.newPassword passwords in
  (calls tr <> []
   <-> user <> None
       /\ Passwords.currentPassword passwords <> []
       /\ new <> []
       /\ Passwords.confirmPassword passwords <> []
       /\ new = Passwords.confirmPassword passwords
       /\ (6 <= strlen new)%Z
       /\ has_digit new = true)
  /\ (calls tr <> [] -> exists rest, calls tr = GetUser :: rest).
Proof.
  cbv zeta.
  apply (every_run_sound handle (handleSubmit user passwords)
           (fun _ tr _ =>
  (calls tr <> []
   <-> user <> None
       /\ Passwords.currentPassword passwords <> []
       /\ Passwords.newPassword passwords <> []
       /\ Passwords.confirmPassword passwords <> []
       /\ Passwords.newPassword passwords = Passwords.confirmPassword passwords
       /\ (6 <= strlen (Passwords.newPassword passwords))%Z
       /\ has_digit (Passwords.newPassword passwords) = true)
  /\ (calls tr <> [] -> exists rest, calls tr = GetUser :: rest))).
  unfold handleSubmit, changePassword.
  destruct passwords as [cur new confirm]. simpl.
  assert (Hno : forall P : Prop, ~ P ->
            (@nil endpoint <> [] <-> P)
            /\ (@nil endpoint <> [] -> exists rest, @nil endpoint = GetUser :: rest)).
  { intros P HP. split; [split|]; intros H; try contradiction.
    all: contradiction H; reflexivity. }
  destruct user as [u|]; [|apply Hno; intros [H _]; contradiction H; reflexivity].
  destruct cur as [|c1 cur];
    [apply Hno; intros [_ [H _]]; contradiction H; reflexivity|].
  destruct new as [|c2 new];
    [apply Hno; intros [_ [_ [H _]]]; contradiction H; reflexivity|].
  destruct confirm as [|c3 confirm];
    [apply Hno; intros [_ [_ [_ [H _]]]]; contradiction H; reflexivity|].
  simpl truthy. cbv iota beta. simpl negb at 1 2 3. cbv iota.
  destruct (c2 :: new === c3 :: confirm) eqn:Eeq; simpl negb; cbv iota;
    [|apply Hno; intros [_ [_ [_ [_ [H _]]]]];
      apply jsstring_eqb_eq in H; congruence].
  apply jsstring_eqb_eq in Eeq.
  destruct (strlen (c2 :: new) <? 6)%Z eqn:Elen;
    [apply Hno; intros [_ [_ [_ [_ [_ [H _]]]]]];
     apply Z.ltb_lt in Elen; lia|].
  apply Z.ltb_ge in Elen.
  destruct (has_digit (c2 :: new)) eqn:Edig; simpl negb; cbv iota;
    [|apply Hno; intros [_ [_ [_ [_ [_ [_ H]]]]]]; discriminate H].
  explore; simpl.
  all: split; [split; [intros _; repeat split; try discriminate; assumption
                      | intros _; discriminate]
              | intros _; eexists; reflexivity].
Qed.

Transparent has_digit strlen jsstring_eqb.

(** X8: The form's [handleSubmit] calls the service exactly when a user is
    present, the three fields are filled, the new password equals its
    confirmation, has at least 6 code units and contains a digit; the
    first call it then makes is the [getUser] of [changePassword]. *)
Theorem handleSubmit_validates_before_calling
    W (handle : forall X, Call X -> W -> outcome X * W) (w : W)
    user passwords :
  let tr := trace_of handle (handleSubmit user passwords) w in
  let new := Passwords.newPassword passwords in
  (calls tr <> []
   <-> user <> None
       /\ Passwords.currentPassword passwords <> []
       /\ new <> []
       /\ Passwords.confirmPassword passwords <> []
       /\ new = Passwords.confirmPassword passwords
       /\ (6 <= strlen new)%Z
       /\ has_digit new = true)
  /\ (calls tr <> [] -> exists rest, calls tr = GetUser :: rest).
Proof. apply handleSubmit_calls_iff. Qed.

Lemma getPasswordStrength_level (password : jsstring) :
  (Strength.level (getPasswordStrength password) = js "strong"
   <-> (6 <= strlen password)%Z /\ has_digit password = true)
  /\ (Strength.level (getPasswordStrength password) = js "weak"
      <-> (strlen password < 6)%Z /\ has_digit password = false).
Proof.
  unfold getPasswordStrength. cbv zeta.
  destruct (6 <=? strlen password)%Z eqn:Elen;
    destruct (has_digit password) eqn:Edig; simpl.
  all: try apply Z.leb_le in Elen; try apply Z.leb_gt in Elen.
  all: split; split;
    first [ intros H; vm_compute in H; discriminate H
          | intros [_ H]; discriminate H
          | intros [H _]; lia
          | intros _; reflexivity
          | intros _; split; [lia|reflexivity] ].
Qed.

(** X9: The strength indicator agrees with the submit validation: for a
    signed-in user who filled the form with matching passwords, the
    service is called exactly when the indicator rates the new password
    'strong' ('Good'); it rates 'weak' exactly the passwords that are
    both shorter than 6 code units and without a digit. *)
Theorem getPasswordStrength_agrees_with_handleSubmit
    W (handle : forall X, Call X -> W -> outcome X * W) (w : W)
    user passwords :
  let tr := trace_of handle (handleSubmit user passwords) w in
  let new := Passwords.newPassword passwords in
  user <> None ->
  Passwords.currentPassword passwords <> [] ->
  new <> [] ->
  new = Passwords.confirmPassword passwords ->
  (calls tr <> [] <-> Strength.level (getPasswordStrength new) = js "strong")
  /\ (Strength.text (getPasswordStrength new) = js "Good"
      <-> Strength.level (getPasswordStrength new) = js "strong")
  /\ (Strength.level (getPasswordStrength new) = js "weak"
      <-> (strlen new < 6)%Z /\ has_digit new = false).
Proof.
  cbv zeta. intros Hu Hc Hn He.
  pose proof (handleSubmit_calls_iff handle w user passwords) as [Hiff _].
  cbv zeta in Hiff.
  pose proof (getPasswordStrength_level (Passwords.newPassword passwords))
    as [Hstrong Hweak].
  split; [|split; [|exact Hweak]].
  - rewrite Hiff, Hstrong. split.
    + intros [_ [_ [_ [_ [_ H]]]]]. exact H.
    + intros [H1 H2]. repeat split; try assumption. congruence.
  - unfold getPasswordStrength. cbv zeta.
    destruct (6 <=? strlen (Passwords.newPassword passwords))%Z;
      destruct (has_digit (Passwords.newPassword passwords)); simpl.
    all: split; intros H; try reflexivity;
      vm_compute in H; discriminate H.
Qed.

Lemma getPasswordStrength_agrees_with_handleSubmit_witness :
  calls (trace_of healthy
           (handleSubmit (Some alice)
              (Passwords.mk (js "old") (js "abcdef") (js "abcdef"))) tt)
  = []
  /\ Strength.text (getPasswordStrength (js "abcdef")) = js "Acceptable".
Proof.
  split; [|reflexivity].
  pose proof (@getPasswordStrength_agrees_with_handleSubmit unit healthy tt
                (Some alice)
                (Passwords.mk (js "old") (js "abcdef") (js "abcdef"))) as H.
  cbv zeta in H.
  destruct H as [H _].
  - discriminate.
  - vm_compute. discriminate.
  - vm_compute. discriminate.
  - reflexivity.
  - destruct (calls _) eqn:E; [reflexivity|].
    assert (Hs : Strength.level (getPasswordStrength (js "abcdef"))
                 = js "strong") by (apply H; discriminate).
    vm_compute in Hs. discriminate Hs.
Defined.


(** X10: [handleSubmit] never rejects.  Validation failures leave the loading
    flag alone; a run that turned it on ends by turning it off.  The form
    is cleared exactly when success is reported, which happens only after
    the three calls of [changePassword], shows no error and arms the
    5000 ms timer that hides the message again. *)
Theorem handleSubmit_restores_loading
    W (handle : forall X, Call X -> W -> outcome X * W) (w : W)
    user passwords :
  let res := result_of handle (handleSubmit user passwords) w in
  let tr := trace_of handle (handleSubmit user passwords) w in
  let es := effects tr in
  let success := setSuccessMessage (Some (js "Password changed successfully!")) in
  res = Returned tt
  /\ (calls tr = [] -> ~ In (setLoading true) es)
  /\ (In (setLoading true) es -> last es preventDefault = setLoading false)
  /\ (In (setPasswords [] [] []) es <-> In success es)
  /\ (In success es ->
      calls tr = [GetUser; SignInWithPassword; UpdateUser]
      /\ error_messages es = []
      /\ In (setTimeout (setSuccessMessage None) 5000) es).
Proof.
  cbv zeta.
  apply (every_run_sound handle (handleSubmit user passwords)
           (fun res tr _ =>
  res = Returned tt
  /\ (calls tr = [] -> ~ In (setLoading true) (effects tr))
  /\ (In (setLoading true) (effects tr) ->
      last (effects tr) preventDefault = setLoading false)
  /\ (In (setPasswords [] [] []) (effects tr)
      <-> In (setSuccessMessage (Some (js "Password changed successfully!")))
            (effects tr))
  /\ (In (setSuccessMessage (Some (js "Password changed successfully!")))
        (effects tr) ->
      calls tr = [GetUser; SignInWithPassword; UpdateUser]
      /\ error_messages (effects tr) = []
      /\ In (setTimeout (setSuccessMessage None) 5000) (effects tr)))).
  unfold handleSubmit, changePassword.
  destruct passwords as [cur new confirm]. simpl.
  assert (Hpre : forall m : jsstring,
            Returned tt = Returned tt
            /\ (@nil endpoint = [] ->
                ~ In (setLoading true) [preventDefault; setError (Some m)])
            /\ (In (setLoading true) [preventDefault; setError (Some m)] ->
                last [preventDefault; setError (Some m)] preventDefault
                = setLoading false)
            /\ (In (setPasswords [] [] []) [preventDefault; setError (Some m)]
                <-> In (setSuccessMessage
                          (Some (js "Password changed successfully!")))
                      [preventDefault; setError (Some m)])
            /\ (In (setSuccessMessage
                      (Some (js "Password changed successfully!")))
                  [preventDefault; setError (Some m)] ->
                @nil endpoint = [GetUser; SignInWithPassword; UpdateUser]
                /\ error_messages [preventDefault; setError (Some m)] = []
                /\ In (setTimeout (setSuccessMessage None) 5000)
                     [preventDefault; setError (Some m)])).
  { intros m. simpl. intuition discriminate. }
  destruct user as [u|]; [|apply Hpre].
  destruct cur as [|c1 cur]; [apply Hpre|].
  destruct new as [|c2 new]; [apply Hpre|].
  destruct confirm as [|c3 confirm]; [apply Hpre|].
  simpl truthy. cbv iota beta. simpl negb at 1 2 3. cbv iota.
  destruct (negb (c2 :: new === c3 :: confirm)); [apply Hpre|].
  destruct (strlen (c2 :: new) <? 6)%Z; [apply Hpre|].
  destruct (negb (has_digit (c2 :: new))); [apply Hpre|].
  explore; simpl.
  all: intuition discriminate.
Qed.

(** ** AuthCallback *)

(** Splits the four hash parameters the handler reads into their
    cases. *)
Ltac hash_cases URLSearchParams_new hash :=
  unfold handleAuthCallback;
  generalize (URLSearchParams_new (substring_from 1 hash)); intros params;
  destruct (get params (js "error_description")) as [[|? ?]|];
  destruct (opt_is (get params (js "type")) (js "recovery"));
  destruct (get params (js "access_token")) as [[|? ?]|];
  destruct (get params (js "refresh_token")) as [[|? ?]|].

(** X11: The callback handler never rejects and never leaves the page
    stuck: every run performs exactly one navigation.  Either it
    navigates at once, replacing the history entry, to '/dashboard' or
    '/forgot-password?step=3' having shown no error, or it shows one
    error message and leaves one navigation to a timer. *)
Theorem handleAuthCallback_navigates_once
    W (handle : forall X, Call X -> W -> outcome X * W) (w : W)
    URLSearchParams_new hash :
  let res := result_of handle (handleAuthCallback URLSearchParams_new hash) w in
  let es :=
    effects (trace_of handle (handleAuthCallback URLSearchParams_new hash) w) in
  res = Returned tt
  /\ ((exists to,
         filter navigation es = [navigate to true]
         /\ (to = js "/dashboard" \/ to = js "/forgot-password?step=3")
         /\ last es preventDefault = navigate to true
         /\ scheduled_navigations es = []
         /\ error_messages es = [])
      \/ (exists to delay m,
            filter navigation es = []
            /\ scheduled_navigations es = [(to, delay)]
            /\ last es preventDefault = setTimeout (navigate to false) delay
            /\ error_messages es = [m])).
Proof.
  cbv zeta.
  apply (every_run_sound handle (handleAuthCallback URLSearchParams_new hash)
           (fun res tr _ =>
  res = Returned tt
  /\ ((exists to,
         filter navigation (effects tr) = [navigate to true]
         /\ (to = js "/dashboard" \/ to = js "/forgot-password?step=3")
         /\ last (effects tr) preventDefault = navigate to true
         /\ scheduled_navigations (effects tr) = []
         /\ error_messages (effects tr) = [])
      \/ (exists to delay m,
            filter navigation (effects tr) = []
            /\ scheduled_navigations (effects tr) = [(to, delay)]
            /\ last (effects tr) preventDefault
               = setTimeout (navigate to false) delay
            /\ error_messages (effects tr) = [m])))).
  hash_cases URLSearchParams_new hash.
  all: explore; simpl.
  all: split; [reflexivity|].
  all: first [ left; eexists; repeat split; auto; fail
             | right; do 3 eexists; repeat split; fail ].
Qed.

(** X12: A hash with a non-empty [error_description] is answered without
    any call to the provider, whatever else it carries: the description
    is shown and '/login' is scheduled 3000 ms later. *)
Theorem handleAuthCallback_error_description
    W (handle : forall X, Call X -> W -> outcome X * W) (w : W)
    URLSearchParams_new hash description :
  get (URLSearchParams_new (substring_from 1 hash)) (js "error_description")
  = Some description ->
  description <> [] ->
  trace_of handle (handleAuthCallback URLSearchParams_new hash) w
  = [Did (setError (Some description));
     Did (setTimeout (navigate (js "/login") false) 3000)]
  /\ pending_of handle (handleAuthCallback URLSearchParams_new hash) w = [].
Proof.
  intros Hd Hne.
  unfold trace_of, pending_of, handleAuthCallback. rewrite Hd.
  destruct description as [|c d]; [contradiction Hne; reflexivity|].
  split; reflexivity.
Qed.

Lemma handleAuthCallback_error_description_witness :
  trace_of healthy
    (handleAuthCallback URLSearchParams_plain
       (js "#error=access_denied&error_description=Email+link+is+invalid"))
    tt
  = [Did (setError (Some (js "Email link is invalid")));
     Did (setTimeout (navigate (js "/login") false) 3000)].
Proof.
  apply (handleAuthCallback_error_description healthy tt URLSearchParams_plain
           (js "#error=access_denied&error_description=Email+link+is+invalid")
           (description := js "Email link is invalid")).
  - reflexivity.
  - vm_compute. discriminate.
Defined.

(** X13: The handler never leaves for the dashboard or for the new-password
    step without a session: an immediate navigation happens only after
    [getSession] or [setSession] resolved with a session, and for the
    dashboard only after the [initializeAuth] thunk resolved as the last
    call; the recovery flow never dispatches that thunk. *)
Theorem handleAuthCallback_needs_session
    W (handle : forall X, Call X -> W -> outcome X * W) (w : W)
    URLSearchParams_new hash :
  let tr := trace_of handle (handleAuthCallback URLSearchParams_new hash) w in
  forall to replace,
    In (navigate to replace) (effects tr) ->
    sessions_obtained tr <> []
    /\ (to = js "/dashboard" ->
        first_answer initializeAuth_answer tr = Some (Resolved tt)
        /\ last (calls tr) GetUser = InitializeAuth)
    /\ (to <> js "/dashboard" -> ~ In InitializeAuth (calls tr)).
Proof.
  cbv zeta.
  apply (every_run_sound handle (handleAuthCallback URLSearchParams_new hash)
           (fun _ tr _ =>
  forall to replace,
    In (navigate to replace) (effects tr) ->
    sessions_obtained tr <> []
    /\ (to = js "/dashboard" ->
        first_answer initializeAuth_answer tr = Some (Resolved tt)
        /\ last (calls tr) GetUser = InitializeAuth)
    /\ (to <> js "/dashboard" -> ~ In InitializeAuth (calls tr)))).
  hash_cases URLSearchParams_new hash.
  all: explore; simpl.
  all: intros to rep Hin;
    repeat (destruct Hin as [Hin|Hin]; try discriminate Hin);
    try contradiction.
  all: injection Hin as <- <-.
  all: repeat match goal with u : unit |- _ => destruct u end.
  all: split; [discriminate|split].
  all: try (intros H; vm_compute in H; discriminate H).
  all: try (intros _; split; reflexivity).
  all: try (intros H; contradiction H; reflexivity).
  all: intros _ Hc; repeat (destruct Hc as [Hc|Hc]; try discriminate Hc);
    contradiction.
Qed.

Lemma handleAuthCallback_needs_session_witness :
  sessions_obtained
    (trace_of healthy (handleAuthCallback URLSearchParams_plain []) tt) <> []
  /\ last (calls (trace_of healthy
                    (handleAuthCallback URLSearchParams_plain []) tt)) GetUser
     = InitializeAuth.
Proof.
  pose proof (handleAuthCallback_needs_session healthy tt URLSearchParams_plain
                []) as H.
  cbv zeta in H.
  destruct (H (js "/dashboard") true) as [H1 [H2 _]].
  - vm_compute. auto 10.
  - split; [exact H1|]. apply H2. reflexivity.
Defined.

(** X14: In the OAuth flow the tokens of the hash are a fallback: they are
    not used when [getSession] yields a session; when it yields none,
    [setSession] is called with them, and its answer alone decides what
    follows, whatever error [getSession] had reported: a session leads
    on to [initializeAuth], an error shows 'Failed to verify
    authentication', and neither shows 'No session found'. *)
Theorem oauth_callback_token_fallback
    W (handle : forall X, Call X -> W -> outcome X * W) (w : W)
    URLSearchParams_new hash access refresh :
  let params := URLSearchParams_new (substring_from 1 hash) in
  truthy_opt (get params (js "error_description")) = false ->
  get params (js "type") <> Some (js "recovery") ->
  get params (js "access_token") = Some access -> access <> [] ->
  get params (js "refresh_token") = Some refresh -> refresh <> [] ->
  let tr := trace_of handle (handleAuthCallback URLSearchParams_new hash) w in
  exists o1,
    first_answer getSession_answer tr = Some o1
    /\ (forall r1 s,
          o1 = Resolved r1 -> SessionResponse.session r1 = Some s ->
          ~ In SetSession (calls tr))
    /\ (forall r1,
          o1 = Resolved r1 -> SessionResponse.session r1 = None ->
          exists o2,
            first_answer setSession_answer tr = Some (access, refresh, o2)
            /\ (forall r2 s,
                  o2 = Resolved r2 ->
                  SessionResponse.error r2 = None ->
                  SessionResponse.session r2 = Some s ->
                  calls tr = [GetSession; SetSession; InitializeAuth])
            /\ (forall r2 e,
                  o2 = Resolved r2 ->
                  SessionResponse.error r2 = Some e ->
                  error_messages (effects tr)
                  = [js "Failed to verify authentication. Please try again."])
            /\ (forall r2,
                  o2 = Resolved r2 ->
                  SessionResponse.error r2 = None ->
                  SessionResponse.session r2 = None ->
                  error_messages (effects tr)
                  = [js "No session found. Redirecting to login..."])).
Proof.
  cbv zeta. intros Herr Htype Haccess Hne1 Hrefresh Hne2.
  apply (every_run_sound handle (handleAuthCallback URLSearchParams_new hash)
           (fun _ tr _ =>
  exists o1,
    first_answer getSession_answer tr = Some o1
    /\ (forall r1 s,
          o1 = Resolved r1 -> SessionResponse.session r1 = Some s ->
          ~ In SetSession (calls tr))
    /\ (forall r1,
          o1 = Resolved r1 -> SessionResponse.session r1 = None ->
          exists o2,
            first_answer setSession_answer tr = Some (access, refresh, o2)
            /\ (forall r2 s,
                  o2 = Resolved r2 ->
                  SessionResponse.error r2 = None ->
                  SessionResponse.session r2 = Some s ->
                  calls tr = [GetSession; SetSession; InitializeAuth])
            /\ (forall r2 e,
                  o2 = Resolved r2 ->
                  SessionResponse.error r2 = Some e ->
                  error_messages (effects tr)
                  = [js "Failed to verify authentication. Please try again."])
            /\ (forall r2,
                  o2 = Resolved r2 ->
                  SessionResponse.error r2 = None ->
                  SessionResponse.session r2 = None ->
                  error_messages (effects tr)
                  = [js "No session found. Redirecting to login..."])))).
  unfold handleAuthCallback.
  rewrite Haccess, Hrefresh.
  destruct (opt_is (get (URLSearchParams_new (substring_from 1 hash))
                      (js "type")) (js "recovery")) eqn:Et;
    [apply opt_is_true in Et; contradiction|].
  destruct access as [|a access]; [contradiction Hne1; reflexivity|].
  destruct refresh as [|b refresh]; [contradiction Hne2; reflexivity|].
  destruct (get (URLSearchParams_new (substring_from 1 hash))
              (js "error_description")) as [[|c d]|];
    try discriminate Herr.
  all: explore; simpl.
  all: eexists; split; [reflexivity|]; split.
  all: try (intros r1 s' H1 H2; inversion H1; subst r1; simpl in H2;
            try discriminate H2;
            intros Hc; simpl in Hc;
            repeat (destruct Hc as [Hc|Hc]; try discriminate Hc);
            contradiction).
  all: try (intros r1 H1; discriminate H1).
  all: try (intros r1 H1 H2; inversion H1; subst r1; simpl in H2;
            discriminate H2).
  all: intros r1 H1 _; clear H1.
  all: eexists; split; [reflexivity|].
  all: repeat split.
  all: intros; 
    repeat match goal with
           | H : Resolved _ = Resolved _ |- _ => inversion H; clear H; subst
           | H : Rejected _ = Resolved _ |- _ => discriminate H
           end; simpl in *; try discriminate; try reflexivity.
Qed.

Lemma oauth_callback_token_fallback_witness :
  calls (trace_of no_session
           (handleAuthCallback URLSearchParams_plain
              (js "#access_token=a&refresh_token=b")) tt)
  = [GetSession; SetSession; InitializeAuth].
Proof.
  assert (Hne : forall s, s = js "a" \/ s = js "b" -> s <> []).
  { intros s [-> | ->]; vm_compute; discriminate. }
  assert (Ht : get (URLSearchParams_plain
                      (substring_from 1 (js "#access_token=a&refresh_token=b")))
                 (js "type") <> Some (js "recovery")).
  { vm_compute. discriminate. }
  pose proof (oauth_callback_token_fallback no_session tt URLSearchParams_plain
                (js "#access_token=a&refresh_token=b")
                (access := js "a") (refresh := js "b")
                eq_refl Ht eq_refl (Hne _ (or_introl eq_refl))
                eq_refl (Hne _ (or_intror eq_refl))) as H.
  cbv zeta in H. destruct H as [o1 [Ho1 [_ H]]].
  vm_compute in Ho1. injection Ho1 as <-.
  destruct (H _ eq_refl eq_refl) as [o2 [Ho2 [H2 _]]].
  vm_compute in Ho2. injection Ho2 as <-.
  eapply H2; reflexivity.
Defined.

(** X15: In the recovery flow a session that already exists is accepted in
    place of the tokens: when a token is missing or empty, [setSession]
    is never called and [getSession] is asked instead; a session leads
    to the new-password step, no session to the expired-link message
    and '/forgot-password' after 3000 ms, whatever error [getSession]
    reports. *)
Theorem recovery_callback_session_fallback
    W (handle : forall X, Call X -> W -> outcome X * W) (w : W)
    URLSearchParams_new hash :
  let params := URLSearchParams_new (substring_from 1 hash) in
  truthy_opt (get params (js "error_description")) = false ->
  get params (js "type") = Some (js "recovery") ->
  truthy_opt (get params (js "access_token")) = false
  \/ truthy_opt (get params (js "refresh_token")) = false ->
  let tr := trace_of handle (handleAuthCallback URLSearchParams_new hash) w in
  exists o,
    first_answer getSession_answer tr = Some o
    /\ calls tr = [GetSession]
    /\ (forall r s,
          o = Resolved r -> SessionResponse.session r = Some s ->
          effects tr
          = [setCallbackType recovery;
             setStatus (js "Processing password reset...");
             setStatus (js "Redirecting to password reset...");
             sleep 500;
             navigate (js "/forgot-password?step=3") true])
    /\ (forall r,
          o = Resolved r -> SessionResponse.session r = None ->
          effects tr
          = [setCallbackType recovery;
             setStatus (js "Processing password reset...");
             setError (Some expired_link);
             setTimeout (navigate (js "/forgot-password") false) 3000]).
Proof.
  cbv zeta. intros Herr Htype Htok.
  apply (every_run_sound handle (handleAuthCallback URLSearchParams_new hash)
           (fun _ tr _ =>
  exists o,
    first_answer getSession_answer tr = Some o
    /\ calls tr = [GetSession]
    /\ (forall r s,
          o = Resolved r -> SessionResponse.session r = Some s ->
          effects tr
          = [setCallbackType recovery;
             setStatus (js "Processing password reset...");
             setStatus (js "Redirecting to password reset...");
             sleep 500;
             navigate (js "/forgot-password?step=3") true])
    /\ (forall r,
          o = Resolved r -> SessionResponse.session r = None ->
          effects tr
          = [setCallbackType recovery;
             setStatus (js "Processing password reset...");
             setError (Some expired_link);
             setTimeout (navigate (js "/forgot-password") false) 3000]))).
  unfold handleAuthCallback. rewrite Htype.
  simpl opt_is. rewrite jsstring_eqb_refl.
  destruct (get (URLSearchParams_new (substring_from 1 hash))
              (js "error_description")) as [[|c d]|];
    try discriminate Herr.
  all: destruct (get (URLSearchParams_new (substring_from 1 hash))
                   (js "access_token")) as [[|a access]|];
    destruct (get (URLSearchParams_new (substring_from 1 hash))
                (js "refresh_token")) as [[|b refresh]|];
    simpl in Htok;
    try (destruct Htok as [Htok|Htok]; discriminate Htok).
  all: explore; simpl.
  all: eexists; split; [reflexivity|]; split; [reflexivity|].
  all: split; intros;
    repeat match goal with
           | H : Resolved _ = Resolved _ |- _ => inversion H; clear H; subst
           | H : Rejected _ = Resolved _ |- _ => discriminate H
           end; simpl in *; try discriminate; reflexivity.
Qed.

Lemma recovery_callback_session_fallback_witness :
  effects (trace_of healthy
             (handleAuthCallback URLSearchParams_plain (js "#type=recovery"))
             tt)
  = [setCallbackType recovery;
     setStatus (js "Processing password reset...");
     setStatus (js "Redirecting to password reset...");
     sleep 500;
     navigate (js "/forgot-password?step=3") true].
Proof.
  pose proof (recovery_callback_session_fallback healthy tt
                URLSearchParams_plain (js "#type=recovery")
                eq_refl eq_refl (or_introl eq_refl)) as H.
  cbv zeta in H. destruct H as [o [Ho [_ [H _]]]].
  vm_compute in Ho. injection Ho as <-.
  eapply H; reflexivity.
Defined.

(** X16: While no call rejects, what the callback page announces is what it
    does.  Its error screen is titled 'Password Reset Error', announces
    the reset password page and is followed by '/forgot-password' in the
    recovery flow; everywhere else it is titled 'Authentication Error',
    announces the login page and is followed by '/login'.  The progress
    screen is left only by an immediate navigation. *)
Theorem AuthCallback_screen_matches_redirect
    W (handle : forall X, Call X -> W -> outcome X * W) (w : W)
    URLSearchParams_new hash :
  let tr := trace_of handle (handleAuthCallback URLSearchParams_new hash) w in
  let es := effects tr in
  no_rejection tr = true ->
  match AuthCallback (state_after es) with
  | ErrorScreen title message redirecting =>
      error_messages es = [message]
      /\ exists to delay,
           scheduled_navigations es = [(to, delay)]
           /\ ((title = js "Password Reset Error"
                /\ redirecting
                   = js "Redirecting you to reset password page..."
                /\ to = js "/forgot-password")
               \/ (title = js "Authentication Error"
                   /\ redirecting = js "Redirecting you back to login..."
                   /\ to = js "/login"))
  | ProgressScreen _ _ status =>
      scheduled_navigations es = []
      /\ (exists to, filter navigation es = [navigate to true])
      /\ (status = js "Redirecting to password reset..."
          \/ status = js "Success! Redirecting to dashboard...")
  end.
Proof.
  cbv zeta.
  apply (every_run_sound handle (handleAuthCallback URLSearchParams_new hash)
           (fun _ tr _ =>
  no_rejection tr = true ->
  match AuthCallback (state_after (effects tr)) with
  | ErrorScreen title message redirecting =>
      error_messages (effects tr) = [message]
      /\ exists to delay,
           scheduled_navigations (effects tr) = [(to, delay)]
           /\ ((title = js "Password Reset Error"
                /\ redirecting
                   = js "Redirecting you to reset password page..."
                /\ to = js "/forgot-password")
               \/ (title = js "Authentication Error"
                   /\ redirecting = js "Redirecting you back to login..."
                   /\ to = js "/login"))
  | ProgressScreen _ _ status =>
      scheduled_navigations (effects tr) = []
      /\ (exists to, filter navigation (effects tr) = [navigate to true])
      /\ (status = js "Redirecting to password reset..."
          \/ status = js "Success! Redirecting to dashboard...")
  end)).
  hash_cases URLSearchParams_new hash.
  all: explore; simpl.
  all: intros Hnr; try discriminate Hnr; clear Hnr.
  all: vm_compute.
  all: first
    [ split; [reflexivity|]; do 2 eexists; split; [reflexivity|];
      first [ left; repeat split; reflexivity
            | right; repeat split; reflexivity ]
    | split; [reflexivity|]; split; [eexists; reflexivity|];
      first [ left; reflexivity | right; reflexivity ] ].
Qed.

Lemma AuthCallback_screen_matches_redirect_witness :
  AuthCallback
    (state_after
       (effects (trace_of expired_token
                   (handleAuthCallback URLSearchParams_plain
                      (js "#type=recovery&access_token=a&refresh_token=b"))
                   tt)))
  = ErrorScreen (js "Password Reset Error") expired_link
      (js "Redirecting you to reset password page...")
  /\ scheduled_navigations
       (effects (trace_of expired_token
                   (handleAuthCallback URLSearchParams_plain
                      (js "#type=recovery&access_token=a&refresh_token=b"))
                   tt))
     = [(js "/forgot-password", 3000%Z)].
Proof.
  pose proof (AuthCallback_screen_matches_redirect expired_token tt
                URLSearchParams_plain
                (js "#type=recovery&access_token=a&refresh_token=b")
                eq_refl) as H.
  cbv zeta in H.
  split; [vm_compute; reflexivity|].
  destruct (AuthCallback _) as [title message redirecting|k title status].
  - destruct H as [_ [to [delay [Hnav _]]]]. rewrite Hnav.
    vm_compute in Hnav. injection Hnav as <- <-. reflexivity.
  - destruct H as [Hnav _]. vm_compute in Hnav. discriminate Hnav.
Defined.

(** When [setSession] rejects in the recovery flow the two part ways:
    the page announces the reset password page and goes to '/login'. *)
Example AuthCallback_rejection_mismatch :
  let es :=
    effects (trace_of setSession_unreachable
               (handleAuthCallback URLSearchParams_plain
                  (js "#type=recovery&access_token=a&refresh_token=b")) tt) in
  AuthCallback (state_after es)
  = ErrorScreen (js "Password Reset Error") (js "Failed to fetch")
      (js "Redirecting you to reset password page...")
  /\ scheduled_navigations es = [(js "/login", 3000%Z)].
Proof. cbv zeta. split; vm_compute; reflexivity. Qed.

(** ** PublicRoute *)

Lemma jsstring_eqb_neq_false (a b : jsstring) : a <> b -> (a === b) = false.
Proof.
  intros H. destruct (a === b) eqn:E; [|reflexivity].
  apply jsstring_eqb_eq in E. contradiction.
Qed.

Lemma includes_two (a b s : jsstring) :
  includes [a; b] s = true <-> s = a \/ s = b.
Proof.
  unfold includes. simpl. rewrite orb_false_r, orb_true_iff.
  rewrite !jsstring_eqb_eq. split; intros [H|H]; auto.
Qed.

Lemma includes_two_false (a b s : jsstring) :
  includes [a; b] s = false <-> s <> a /\ s <> b.
Proof.
  split.
  - intros H. split; intros E;
      assert (includes [a; b] s = true) by (apply includes_two; auto);
      congruence.
  - intros [Ha Hb]. destruct (includes [a; b] s) eqn:E; [|reflexivity].
    apply includes_two in E. destruct E; contradiction.
Qed.

Opaque includes.

(** X17: [PublicRoute] redirects only signed-in users with a cached profile:
    a [<Navigate>] always replaces the history entry and is rendered
    only for an authenticated user whose profile status is 'active'
    (target [redirectTo], outside the recovery flow) or
    'pending_verification' (target '/verify-email', from a page that is
    not a verification page), and never while the loading screen is
    due. *)
Theorem PublicRoute_redirects_only_authenticated
    URLSearchParams_new redirectTo auth location to replace :
  PublicRoute URLSearchParams_new redirectTo auth location
  = Navigate to replace ->
  AuthState.isAuthenticated auth = true
  /\ replace = true
  /\ (AuthState.isLoading auth = false
      \/ Location.pathname location = js "/login"
      \/ Location.pathname location = js "/register")
  /\ exists profile,
       AuthState.profile auth = Some profile
       /\ ((AuthUser.status profile = js "active"
            /\ to = match redirectTo with Some r => r | None => js "/app" end
            /\ ~ (Location.pathname location = js "/forgot-password"
                  /\ get (URLSearchParams_new (Location.search location))
                       (js "step") = Some (js "3")))
           \/ (AuthUser.status profile = js "pending_verification"
               /\ to = js "/verify-email"
               /\ Location.pathname location <> js "/verify-email"
               /\ Location.pathname location <> js "/resend-verification")).
Proof.
  unfold PublicRoute. cbv zeta.
  destruct (AuthState.isLoading auth
            && negb (includes [js "/login"; js "/register"]
                       (Location.pathname location))) eqn:Eload;
    [discriminate|].
  assert (Hload : AuthState.isLoading auth = false
                  \/ Location.pathname location = js "/login"
                  \/ Location.pathname location = js "/register").
  { apply andb_false_iff in Eload as [H|H]; [left; exact H|right].
    apply negb_false_iff in H. apply includes_two in H. exact H. }
  destruct (AuthState.isAuthenticated auth) eqn:Eauth; simpl;
    [|discriminate].
  destruct (AuthState.profile auth) as [p|]; simpl; [|discriminate].
  destruct (AuthUser.status p === js "active") eqn:Eact.
  - apply jsstring_eqb_eq in Eact.
    destruct (Location.pathname location === js "/forgot-password") eqn:Ep;
      destruct (opt_is (get (URLSearchParams_new (Location.search location))
                          (js "step")) (js "3")) eqn:Es;
      simpl; try discriminate.
    all: intros H; injection H as <- <-.
    all: repeat split; auto; eexists; split; [reflexivity|]; left.
    all: repeat split; auto; intros [H1 H2].
    all: try (apply jsstring_eqb_eq in H1; congruence).
    all: apply opt_is_true in H2; congruence.
  - destruct (AuthUser.status p === js "pending_verification") eqn:Epen;
      [|discriminate].
    apply jsstring_eqb_eq in Epen.
    destruct (includes [js "/verify-email"; js "/resend-verification"]
                (Location.pathname location)) eqn:Ev; [discriminate|].
    apply includes_two_false in Ev.
    intros H; injection H as <- <-.
    repeat split; auto. eexists; split; [reflexivity|]. right.
    repeat split; auto; apply Ev.
Qed.

Lemma PublicRoute_redirects_only_authenticated_witness :
  AuthState.isAuthenticated bob_signed_in = true.
Proof.
  apply (@PublicRoute_redirects_only_authenticated URLSearchParams_plain None
           bob_signed_in (Location.mk (js "/login") [] [])
           (js "/app") true).
  reflexivity.
Defined.

(** X18: [PublicRoute] shows its loading screen exactly while the store is
    loading on a page other than '/login' and '/register', whoever the
    user is; these two pages are never replaced by it. *)
Theorem PublicRoute_loading_screen
    URLSearchParams_new redirectTo auth location :
  (PublicRoute URLSearchParams_new redirectTo auth location
   = LoadingScreen (js "Loading...")
   <-> AuthState.isLoading auth = true
       /\ Location.pathname location <> js "/login"
       /\ Location.pathname location <> js "/register")
  /\ (forall caption,
        PublicRoute URLSearchParams_new redirectTo auth location
        = LoadingScreen caption -> caption = js "Loading...").
Proof.
  unfold PublicRoute. cbv zeta.
  destruct (AuthState.isLoading auth) eqn:Eload;
    destruct (includes [js "/login"; js "/register"]
                (Location.pathname location)) eqn:Einl; simpl.
  2: { apply includes_two_false in Einl.
       split; [split; [intros _; split; [reflexivity|exact Einl]
                      | reflexivity]
              | intros c H; injection H as <-; reflexivity]. }
  all: try (apply includes_two in Einl).
  all: split;
    [ split;
      [ | intros [H1 [H2 H3]]; try discriminate H1;
          destruct Einl; contradiction ]
    | ].
  all: repeat match goal with
              | |- context [if ?c then _ else _] => destruct c
              end; try discriminate; try (intros c H; discriminate H).
Qed.

(** X19: Outside the loading screen, [PublicRoute] renders its children for
    everyone it does not redirect: a visitor who is not authenticated,
    a user without a cached profile, and a user whose status is neither
    'active' nor 'pending_verification' (a suspended one, say); a user
    pending verification gets the children on '/verify-email' and
    '/resend-verification' and is sent to '/verify-email' from any
    other page. *)
Theorem PublicRoute_children_and_verification
    URLSearchParams_new redirectTo auth location :
  AuthState.isLoading auth = false
  \/ Location.pathname location = js "/login"
  \/ Location.pathname location = js "/register" ->
  let view := PublicRoute URLSearchParams_new redirectTo auth location in
  (AuthState.isAuthenticated auth = false -> view = Fragment [Children])
  /\ (AuthState.profile auth = None -> view = Fragment [Children])
  /\ (forall p,
        AuthState.profile auth = Some p ->
        AuthUser.status p <> js "active" ->
        AuthUser.status p <> js "pending_verification" ->
        view = Fragment [Children])
  /\ (forall p,
        AuthState.isAuthenticated auth = true ->
        AuthState.profile auth = Some p ->
        AuthUser.status p = js "pending_verification" ->
        (Location.pathname location = js "/verify-email"
         \/ Location.pathname location = js "/resend-verification" ->
         view = Fragment [Children])
        /\ (Location.pathname location <> js "/verify-email" ->
            Location.pathname location <> js "/resend-verification" ->
            view = Navigate (js "/verify-email") true)).
Proof.
  intros Hload. cbv zeta. unfold PublicRoute. cbv zeta.
  assert (E : AuthState.isLoading auth
              && negb (includes [js "/login"; js "/register"]
                         (Location.pathname location)) = false).
  { apply andb_false_iff. destruct Hload as [H|H]; [left; exact H|right].
    apply negb_false_iff. apply includes_two. exact H. }
  rewrite E. clear E.
  assert (Hpa : js "pending_verification" <> js "active")
    by (vm_compute; discriminate).
  split; [|split; [|split]].
  - intros ->. reflexivity.
  - intros ->. simpl. rewrite !andb_false_r. reflexivity.
  - intros p -> Ha Hp. simpl.
    apply jsstring_eqb_neq_false in Ha. apply jsstring_eqb_neq_false in Hp.
    rewrite Ha, Hp, !andb_false_r. reflexivity.
  - intros p -> -> Hs. simpl. rewrite Hs.
    destruct (js "pending_verification" === js "active") eqn:Ea;
      [apply jsstring_eqb_eq in Ea; contradiction|].
    rewrite jsstring_eqb_refl. split.
    + intros H. apply includes_two in H. rewrite H. reflexivity.
    + intros H1 H2.
      assert (Hv : includes [js "/verify-email"; js "/resend-verification"]
                     (Location.pathname location) = false)
        by (apply includes_two_false; auto).
      rewrite Hv. reflexivity.
Qed.

Transparent includes.

Lemma PublicRoute_children_and_verification_witness :
  PublicRoute URLSearchParams_plain None signed_out
    (Location.mk (js "/forgot-password") [] [])
  = Fragment [Children].
Proof.
  pose proof (@PublicRoute_children_and_verification URLSearchParams_plain
                None signed_out (Location.mk (js "/forgot-password") [] [])
                (or_introl eq_refl)) as H.
  cbv zeta in H. destruct H as [H _]. apply H. reflexivity.
Defined.

(** ** The two guards together *)


(** X21: The guards never bounce a visitor between them.  Whenever
    [ReduxAuthGuard] redirects to '/login', [PublicRoute] renders the
    login page for the same store state instead of redirecting or
    showing a loading screen; and whenever [PublicRoute] redirects, the
    user is authenticated, so an initialized [ReduxAuthGuard] renders
    the protected children and does not navigate. *)
Theorem guards_do_not_bounce
    W (handle : forall X, Call X -> W -> outcome X * W) (w : W)
    URLSearchParams_new redirectTo auth location :
  (effects (trace_of handle (ReduxAuthGuard_effects auth location) w) <> [] ->
   forall search hash,
     PublicRoute URLSearchParams_new redirectTo auth
       (Location.mk (js "/login") search hash)
     = Fragment [Children])
  /\ (forall to replace,
        PublicRoute URLSearchParams_new redirectTo auth location
        = Navigate to replace ->
        forall location',
          effects (trace_of handle (ReduxAuthGuard_effects auth location') w)
          = []
          /\ (AuthState.isInitialized auth = true ->
              exists overlay,
                ReduxAuthGuard auth = Fragment (Children :: overlay))).
Proof.
  split.
  - unfold ReduxAuthGuard_effects, trace_of.
    destruct (AuthState.isInitialized auth);
      destruct (AuthState.isAuthenticated auth) eqn:Eauth; simpl;
      intros H; try (contradiction H; reflexivity).
    intros search hash. unfold PublicRoute. cbv zeta. simpl Location.pathname.
    rewrite Eauth.
    assert (Hin : includes [js "/login"; js "/register"] (js "/login") = true)
      by (apply includes_two; left; reflexivity).
    rewrite Hin. simpl. rewrite andb_false_r. reflexivity.
  - intros to rep H location'.
    assert (Eauth : AuthState.isAuthenticated auth = true).
    { unfold PublicRoute in H. cbv zeta in H.
      destruct (AuthState.isLoading auth && _); [discriminate H|].
      destruct (AuthState.isAuthenticated auth); [reflexivity|].
      simpl in H. discriminate H. }
    unfold ReduxAuthGuard_effects, ReduxAuthGuard, trace_of.
    rewrite Eauth.
    destruct (AuthState.isInitialized auth); simpl.
    + split; [reflexivity|]. intros _. eexists. reflexivity.
    + split; [reflexivity|]. discriminate.
Qed.

Lemma guards_do_not_bounce_witness :
  PublicRoute URLSearchParams_plain None signed_out
    (Location.mk (js "/login") [] [])
  = Fragment [Children].
Proof.
  pose proof (guards_do_not_bounce offline tt URLSearchParams_plain None
                signed_out (Location.mk (js "/app/shipments") [] [])) as H.
  destruct H as [H _]. apply H. vm_compute. discriminate.
Defined.

(** ** signOut, updateUserProfile and the password reset *)

Section WideFacts.
Variable C : Type -> Type.
Variable A : Type.
Variable W : Type.
Variable handle : forall X, C X -> W -> outcome X * W.

Lemma wide_every_run_sound {T R} (p : Wide.prog C A T R) :
  forall (Q : result R -> Wide.trace C A -> list T -> Prop),
    Wide.every_run p Q ->
    forall w, Q (Wide.result_of handle p w) (Wide.trace_of handle p w)
                (Wide.pending_of handle p w).
Proof.
  unfold Wide.result_of, Wide.trace_of, Wide.pending_of.
  induction p as [r | e | X c k IH | a k IH | t k IH];
    intros Q HQ w; simpl in *.
  - exact HQ.
  - exact HQ.
  - destruct (handle c w) as [o w'] eqn:Hc.
    specialize (IH o _ (HQ o) w').
    destruct (Wide.run handle (k o) w') as [[[res tr] ts] w'']. exact IH.
  - specialize (IH _ HQ w).
    destruct (Wide.run handle k w) as [[[res tr] ts] w']. exact IH.
  - specialize (IH _ HQ w).
    destruct (Wide.run handle k w) as [[[res tr] ts] w']. exact IH.
Qed.
End WideFacts.

Ltac wexplore :=
  repeat (simpl;
          match goal with
          | |- forall o : outcome _, _ => intros [?|?]
          | r : AuthResponse.t |- _ => destruct r
          | |- Wide.every_run ?p _ =>
              match p with
              | context [match ?x with _ => _ end] => is_var x; destruct x
              end
          end).

(** X22: A run of [signOut] goes one of three ways.  If [getUser] rejects,
    the provider's sign-out is never called and 'Sign out failed' is
    returned.  Otherwise sign-out is called once; if it rejects, 'Sign
    out failed' is returned and nothing is logged; if it resolves, its
    error is returned as it is and, when there was a user, one 'logout'
    event with status 'success' is started in the background, whether or
    not the sign-out reported an error. *)
Theorem signOut_three_ways
    W (handle : forall X, MoreCall X -> W -> outcome X * W) (w : W) userAgent :
  let res := Wide.result_of handle (signOut userAgent) w in
  let tr := Wide.trace_of handle (signOut userAgent) w in
  let pending := Wide.pending_of handle (signOut userAgent) w in
  let failed := Some (AuthError.mk (js "Sign out failed") (js "SignOutError")) in
  (exists e,
     tr = [Wide.Called (core auth_getUser) (Rejected e)]
     /\ res = Returned failed /\ pending = [])
  \/ (exists user e,
        tr = [Wide.Called (core auth_getUser) (Resolved user);
              Wide.Called auth_signOut (Rejected e)]
        /\ res = Returned failed /\ pending = [])
  \/ (exists user error,
        tr = [Wide.Called (core auth_getUser) (Resolved user);
              Wide.Called auth_signOut (Resolved error)]
        /\ res = Returned error
        /\ audit_events pending
           = match user with
             | Some u =>
                 [(js "logout",
                   AuthEventParams.mk (Some (User.id u)) (User.email u)
                     (js "client") None userAgent (js "success") None)]
             | None => []
             end
        /\ List.length pending = List.length (audit_events pending)).
Proof.
  cbv zeta.
  apply (wide_every_run_sound handle (signOut userAgent)
           (fun res tr pending =>
  (exists e,
     tr = [Wide.Called (core auth_getUser) (Rejected e)]
     /\ res = Returned (Some (AuthError.mk (js "Sign out failed")
                                (js "SignOutError")))
     /\ pending = [])
  \/ (exists user e,
        tr = [Wide.Called (core auth_getUser) (Resolved user);
              Wide.Called auth_signOut (Rejected e)]
        /\ res = Returned (Some (AuthError.mk (js "Sign out failed")
                                   (js "SignOutError")))
        /\ pending = [])
  \/ (exists user error,
        tr = [Wide.Called (core auth_getUser) (Resolved user);
              Wide.Called auth_signOut (Resolved error)]
        /\ res = Returned error
        /\ audit_events pending
           = match user with
             | Some u =>
                 [(js "logout",
                   AuthEventParams.mk (Some (User.id u)) (User.email u)
                     (js "client") None userAgent (js "success") None)]
             | None => []
             end
        /\ List.length pending = List.length (audit_events pending)))).
  unfold signOut. wexplore; simpl.
  all: first [ left; eexists; repeat split; reflexivity
             | right; left; do 2 eexists; repeat split; reflexivity
             | right; right; do 2 eexists; repeat split; reflexivity ].
Qed.

(** A refused sign-out is still logged as a successful logout. *)
Example signOut_refused_logged :
  Wide.result_of signOut_refused (signOut (js "Mozilla/5.0")) tt
  = Returned (Some (AuthError.mk (js "session_not_found") (js "AuthApiError")))
  /\ audit_events (Wide.pending_of signOut_refused
                     (signOut (js "Mozilla/5.0")) tt)
     = [(js "logout",
         AuthEventParams.mk (Some (js "u-1")) (Some (js "alice@example.com"))
           (js "client") None (js "Mozilla/5.0") (js "success") None)].
Proof. split; reflexivity. Qed.


(** Clearing the street, keeping the city, and a new picture given
    both ways. *)
Example updateUserProfile_example :
  Wide.trace_of wide_healthy
    (updateUserProfile (js "u-2")
       (ProfileUpdates.mk (Some []) None None (Value []) Undefined Undefined
          Undefined (Some (js "old.png")) (Value (js "new.png")))) tt
  = [Wide.Called
       (users_update_by_id
          (DbUpdates.mk Undefined Undefined Undefined Null Undefined Undefined
             Undefined (Value (js "new.png")))
          (js "u-2"))
       (Resolved None)].
Proof. reflexivity. Qed.

(** X24: The password reset of the settings form, through [resetPassword].
    Without a user email it only reports 'User email not found' and
    calls nothing.  With one it asks once for the reset email of that
    address, redirecting to [origin]/auth/callback, and its last effect
    turns the loading flag off.  The reset option is hidden exactly when
    the provider resolved without error.  Since [resetPassword] never
    rejects, a rejection of the provider shows the service's 'Password
    reset failed'; the form's own fallback message shows only for a
    provider error whose message is empty.  The handler itself never
    rejects and starts no task. *)
Theorem handlePasswordReset_composed
    W (handle : forall X, MoreCall X -> W -> outcome X * W) (w : W)
    origin user :
  let p := handlePasswordReset origin user in
  Wide.result_of handle p w = Returned tt
  /\ Wide.pending_of handle p w = []
  /\ match email_of user with
     | Some ((_ :: _) as email) =>
         exists o,
           Wide.trace_of handle p w
           = [Wide.Did (ui (setLoading true)); Wide.Did (ui (setError None));
              Wide.Called
                (auth_resetPasswordForEmail email
                   (origin ++ js "/auth/callback")) o]
             ++ match o with
                | Resolved None =>
                    [Wide.Did
                       (ui (setSuccessMessage
                              (Some (js "Password reset email sent! Check your inbox."))));
                     Wide.Did (setShowResetOption false)]
                | Resolved (Some error) =>
                    [Wide.Did
                       (ui (setError
                              (Some (if truthy (AuthError.message error)
                                     then AuthError.message error
                                     else js "Failed to send password reset email"))))]
                | Rejected _ =>
                    [Wide.Did (ui (setError (Some (js "Password reset failed"))))]
                end
             ++ [Wide.Did (ui (setLoading false))]
     | _ =>
         Wide.trace_of handle p w
         = [Wide.Did (ui (setError (Some (js "User email not found"))))]
     end.
Proof.
  cbv zeta.
  apply (wide_every_run_sound handle (handlePasswordReset origin user)
           (fun res tr pending =>
  res = Returned tt
  /\ pending = []
  /\ match email_of user with
     | Some ((_ :: _) as email) =>
         exists o,
           tr
           = [Wide.Did (ui (setLoading true)); Wide.Did (ui (setError None));
              Wide.Called
                (auth_resetPasswordForEmail email
                   (origin ++ js "/auth/callback")) o]
             ++ match o with
                | Resolved None =>
                    [Wide.Did
                       (ui (setSuccessMessage
                              (Some (js "Password reset email sent! Check your inbox."))));
                     Wide.Did (setShowResetOption false)]
                | Resolved (Some error) =>
                    [Wide.Did
                       (ui (setError
                              (Some (if truthy (AuthError.message error)
                                     then AuthError.message error
                                     else js "Failed to send password reset email"))))]
                | Rejected _ =>
                    [Wide.Did (ui (setError (Some (js "Password reset failed"))))]
                end
             ++ [Wide.Did (ui (setLoading false))]
     | _ =>
         tr = [Wide.Did (ui (setError (Some (js "User email not found"))))]
     end)).
  unfold handlePasswordReset, resetPassword.
  destruct (email_of user) as [[|c email]|]; simpl.
  1, 3: repeat split; reflexivity.
  intros [[error|]|e]; simpl.
  - destruct error as [message name]; unfold or_else; simpl.
    destruct (truthy message) eqn:E; simpl;
      (split; [reflexivity|]; split; [reflexivity|]);
      exists (Resolved (Some (AuthError.mk message name))); simpl;
      rewrite E; reflexivity.
  - split; [reflexivity|]; split; [reflexivity|].
    exists (Resolved None); reflexivity.
  - split; [reflexivity|]; split; [reflexivity|].
    exists (Rejected e); reflexivity.
Qed.

(** X25: [resendEmailVerification], the alias of [resendVerificationEmail],
    asks the provider once to resend the email of type 'signup' to the
    address given; the error it returns is null exactly when the
    provider resolved without error, the provider's message when it
    resolved with one, and it never rejects. *)
Theorem resendEmailVerification_error
    W (handle : forall X, MoreCall X -> W -> outcome X * W) (w : W) email :
  exists o error,
    Wide.trace_of handle (resendEmailVerification email) w
    = [Wide.Called (auth_resend (js "signup") email) o]
    /\ Wide.result_of handle (resendEmailVerification email) w = Returned error
    /\ (error = None <-> o = Resolved None)
    /\ (forall e, o = Resolved (Some e) -> error = Some (AuthError.message e)).
Proof.
  apply (wide_every_run_sound handle (resendEmailVerification email)
           (fun res tr _ =>
  exists o error,
    tr = [Wide.Called (auth_resend (js "signup") email) o]
    /\ res = Returned error
    /\ (error = None <-> o = Resolved None)
    /\ (forall e, o = Resolved (Some e) -> error = Some (AuthError.message e)))).
  unfold resendEmailVerification, resendVerificationEmail.
  intros [[error|]|e]; simpl.
  all: do 2 eexists; split; [reflexivity|]; split; [reflexivity|].
  all: split; [split; intros E; first [discriminate E | reflexivity]|].
  all: intros e' E; first [discriminate E | injection E as <-; reflexivity].
Qed.
